(** * Sprint report: metrics aggregation and reconciliation

    A shallow embedding of the metric engine of [sprint_report.py] and the
    properties its specification states about it.

    Conventions of the embedding.
    - Values decoded from JSON are terms of [json]; a dict is a finite map
      from strings ([gmap string json]).
    - A Python expression that may raise is a term of type [option A]:
      [None] stands for "an exception propagates".  A [try/except] is a
      [match] on that option.
    - Python floats are modelled by exact rationals ([Q]), compared with
      [Qeq]; rounding, infinities and NaN are outside the model.
    - A [datetime.date] is its proleptic Gregorian ordinal, an integer
      between [1] and [DATE_MAX]; adding a [timedelta] that leaves that range
      raises [OverflowError], as in CPython. *)

From Stdlib Require Import ZArith QArith Lqa String Ascii List Lia Permutation.
From stdpp Require Import base option list gmap strings fin_maps pretty.

Set Warnings "-register-all".
Local Open Scope string_scope.
Local Open Scope list_scope.
Local Open Scope Z_scope.

(* ===================================================================== *)
(** ** Python values *)
(* ===================================================================== *)

Module Py.

Inductive json : Type :=
| JNull
| JBool (b : bool)
| JNum (q : Q)
| JStr (s : string)
| JArr (l : list json)
| JObj (m : gmap string json).

(** The empty dict [{}] and the empty list [[]]. *)
Definition empty_dict : json := JObj ∅.
Definition empty_list : json := JArr [].

(** Truth value of [x] as in [if x:] / [x or y]. *)
Definition truthy (x : json) : bool :=
  match x with
  | JNull => false
  | JBool b => b
  | JNum q => negb (Qeq_bool q 0)
  | JStr s => negb (String.eqb s "")
  | JArr l => match l with [] => false | _ :: _ => true end
  | JObj m => negb (Nat.eqb (size m) 0)
  end.

(** [x or y]. *)
Definition por (x y : json) : json := if truthy x then x else y.

(** [x.get(k)]: [AttributeError] unless [x] is a dict; a missing key gives
    [None] (the JSON null). *)
Definition dget (x : json) (k : string) : option json :=
  match x with
  | JObj m => Some (default JNull (m !! k))
  | _ => None
  end.

(** [x.get(k, d)]. *)
Definition dget_def (x : json) (k : string) (d : json) : option json :=
  match x with
  | JObj m => Some (default d (m !! k))
  | _ => None
  end.

(** [x.get(n)] for an integer [n]: a dict decoded from JSON has string keys
    only, so the lookup finds nothing. *)
Definition dget_int (x : json) (n : Z) : option json :=
  match x with
  | JObj _ => Some JNull
  | _ => None
  end.

(** [x is None]. *)
Definition is_none (x : json) : bool :=
  match x with JNull => true | _ => false end.

(** [isinstance(x, (int, float))]; [bool] is a subclass of [int]. *)
Definition is_number (x : json) : bool :=
  match x with JNum _ | JBool _ => true | _ => false end.

(** [x == s] for a string literal [s]. *)
Definition eq_str (x : json) (s : string) : bool :=
  match x with JStr t => String.eqb t s | _ => false end.

(** A [for it in x] whose body starts with [it.get(...)]: the elements of a
    list; every other truthy value raises ([TypeError] when it is not
    iterable, [AttributeError] at the first element of a string or dict). *)
Definition as_list (x : json) : option (list json) :=
  match x with
  | JArr l => Some l
  | _ => None
  end.

(** [set(x.keys())]. *)
Definition key_set (x : json) : option (gset string) :=
  match x with
  | JObj m => Some (dom m)
  | _ => None
  end.

(** [k in s] for a set [s] of strings: [TypeError] when [k] is unhashable. *)
Definition in_key_set (k : json) (s : gset string) : option bool :=
  match k with
  | JStr t => Some (bool_decide (t ∈ s))
  | JArr _ | JObj _ => None
  | _ => Some false
  end.

Section Float.
(** [float(s)] on a string, [None] for [ValueError]. *)
Variable float_of_str : string → option Q.

(** [float(x)]. *)
Definition py_float (x : json) : option Q :=
  match x with
  | JNum q => Some q
  | JBool b => Some (if b then 1%Q else 0%Q)
  | JStr s => float_of_str s
  | _ => None
  end.
End Float.

(** [max(a, b)] on floats: the first argument unless the second is larger. *)
Definition pymax (a b : Q) : Q := if Qle_bool b a then a else b.

(** [str.lower] and [str.strip] on ASCII text. *)
Definition lower_ascii (a : ascii) : ascii :=
  let n := nat_of_ascii a in
  if (Nat.leb 65 n && Nat.leb n 90)%bool then ascii_of_nat (n + 32) else a.

Fixpoint lower (s : string) : string :=
  match s with
  | EmptyString => EmptyString
  | String a r => String (lower_ascii a) (lower r)
  end.

Definition is_space (a : ascii) : bool :=
  let n := nat_of_ascii a in
  ((Nat.leb 9 n && Nat.leb n 13) || (Nat.leb 28 n && Nat.leb n 32))%bool.

Fixpoint lstrip (s : string) : string :=
  match s with
  | EmptyString => EmptyString
  | String a r => if is_space a then lstrip r else s
  end.

Fixpoint str_rev_onto (s acc : string) : string :=
  match s with
  | EmptyString => acc
  | String a r => str_rev_onto r (String a acc)
  end.

Definition str_rev (s : string) : string := str_rev_onto s EmptyString.

Definition strip (s : string) : string := str_rev (lstrip (str_rev (lstrip s))).

(** [x.strip()] / [x.lower()] on a value: [AttributeError] unless a string. *)
Definition str_of (x : json) : option string :=
  match x with JStr s => Some s | _ => None end.

End Py.

Export Py.

(* ===================================================================== *)
(** ** Calendar dates *)
(* ===================================================================== *)

Module Dates.

(** [datetime.date.max.toordinal()], the ordinal of 9999-12-31. *)
Definition DATE_MAX : Z := 3652059.

Definition valid_date (d : Z) : Prop := 1 <= d <= DATE_MAX.

(** [d + datetime.timedelta(days=n)]. *)
Definition add_days (d n : Z) : option Z :=
  if (1 <=? d + n) && (d + n <=? DATE_MAX) then Some (d + n) else None.

(** [d.weekday()]: Monday is 0, Sunday is 6. *)
Definition weekday (d : Z) : Z := (d + 6) mod 7.

(** Ordinal of a calendar date (CPython's [_ymd2ord]), for readable dates. *)
Definition is_leap (y : Z) : bool :=
  (y mod 4 =? 0) && (negb (y mod 100 =? 0) || (y mod 400 =? 0)).

Definition days_before_year (y : Z) : Z :=
  let p := y - 1 in p * 365 + p / 4 - p / 100 + p / 400.

Definition days_before_month (y m : Z) : Z :=
  nth (Z.to_nat m) [0; 0; 31; 59; 90; 120; 151; 181; 212; 243; 273; 304; 334] 0
  + (if (2 <? m) && is_leap y then 1 else 0).

Definition ymd (y m d : Z) : Z := days_before_year y + days_before_month y m + d.

(** A [datetime] is represented by its calendar date and time of day (in
    seconds); a value handed to the ageing code is a date or a datetime. *)
Record datetime := DateTime { dt_date : Z; dt_secs : Z }.

Inductive date_like :=
| ADate (d : Z)
| ADateTime (t : datetime).

(** [x.date() if isinstance(x, datetime.datetime) else x]. *)
Definition to_date (x : date_like) : Z :=
  match x with
  | ADate d => d
  | ADateTime t => dt_date t
  end.

End Dates.

Export Dates.

(* ===================================================================== *)
(** ** Working-day ageing *)
(* ===================================================================== *)

Module Ageing.

(** The loop of [working_days_since]:
<<
    while d <= today_date:
        if d.weekday() < 5: cnt += 1
        d += one
>>
    [fuel] bounds the number of iterations; [working_days_since] supplies
    [today - d + 1], the number of days left, so the case of spent fuel with
    days left is never reached ([count_loop_spec]). *)
Fixpoint count_loop (fuel : nat) (d today cnt : Z) : option Z :=
  match fuel with
  | O => if d <=? today then None else Some cnt
  | S fuel' =>
      if d <=? today then
        let cnt' := if weekday d <? 5 then cnt + 1 else cnt in
        d' ← add_days d 1;
        count_loop fuel' d' today cnt'
      else Some cnt
  end.

Section WithClock.
(** [datetime.datetime.now(ZoneInfo("Asia/Kolkata")).date()]. *)
Variable now_date : Z.

(** [working_days_since(created_dt, today_date=None)]:
<<
    if not created_dt: return 0
    c = created_dt.date() if isinstance(created_dt, datetime.datetime) else created_dt
    if today_date is None: today_date = <now_date>
    if today_date <= c: return 0
    d, cnt = c + datetime.timedelta(days=1), 0
    one = datetime.timedelta(days=1)
    while d <= today_date: ...
    return cnt
>> *)
Definition working_days_since
    (created_dt : option date_like) (today_date : option Z) : option Z :=
  match created_dt with
  | None => Some 0
  | Some cd =>
      let c := to_date cd in
      let today := default now_date today_date in
      if today <=? c then Some 0
      else
        d ← add_days c 1;
        count_loop (Z.to_nat (today - d + 1)) d today 0
  end.
End WithClock.

(** Specification side: the Monday-to-Friday days [d] with
    [created < d <= today]. *)
Definition is_working_day (d : Z) : bool := weekday d <? 5.

Definition working_days_between (created today : Z) : Z :=
  Z.of_nat (length (List.filter is_working_day
                                (seqZ (created + 1) (today - created)))).

End Ageing.

Export Ageing.

(* ===================================================================== *)
(** ** Per-issue effort *)
(* ===================================================================== *)

Module Effort.

Section WithFields.
Variable float_of_str : string → option Q.
(** The effort field ids found by [discover_field_ids], primary first. *)
Variable STORY_POINTS_FIELD_IDS : list string.

(** The loop of [_field_sp_from_fields] over the remaining field ids:
<<
    for fid in STORY_POINTS_FIELD_IDS:
        if fid in fields_obj and fields_obj[fid] is not None:
            try: return float(fields_obj[fid])
            except Exception: pass
    return None
>>
    The result [None] is Python's [None]; the function does not raise on a
    dict. *)
Fixpoint field_sp_scan (fids : list string) (fields_obj : gmap string json)
  : option Q :=
  match fids with
  | [] => None
  | fid :: rest =>
      match fields_obj !! fid with
      | Some v =>
          if is_none v then field_sp_scan rest fields_obj
          else match py_float float_of_str v with
               | Some q => Some q
               | None => field_sp_scan rest fields_obj
               end
      | None => field_sp_scan rest fields_obj
      end
  end.

Definition _field_sp_from_fields (fields_obj : gmap string json) : option Q :=
  field_sp_scan STORY_POINTS_FIELD_IDS fields_obj.

(** The scan of [stories_tasks_without_sp], which collects every readable
    value:
<<
    sp_vals = []
    for fid in STORY_POINTS_FIELD_IDS:
        if fid in f and f[fid] is not None:
            try: sp_vals.append(float(f[fid]))
            except Exception: pass
>> *)
Fixpoint sp_vals_scan (fids : list string) (f : gmap string json) : list Q :=
  match fids with
  | [] => []
  | fid :: rest =>
      match f !! fid with
      | Some v =>
          if is_none v then sp_vals_scan rest f
          else match py_float float_of_str v with
               | Some q => q :: sp_vals_scan rest f
               | None => sp_vals_scan rest f
               end
      | None => sp_vals_scan rest f
      end
  end.

(** [sum(xs)] of floats. *)
Definition py_sum (xs : list Q) : Q := fold_left Qplus xs 0%Q.

(** The flagging test of the missing-effort audit:
    [(not has_any) or (sp_sum == 0.0)]. *)
Definition missing_or_zero_sp (f : gmap string json) : bool :=
  let sp_vals := sp_vals_scan STORY_POINTS_FIELD_IDS f in
  let has_any := negb (Nat.eqb (length sp_vals) 0) in
  let sp_sum := if has_any then py_sum sp_vals else 0%Q in
  negb has_any || Qeq_bool sp_sum 0.

End WithFields.

(** [f] as the dict it is once a [f.get(...)] has succeeded. *)
Definition as_dict (x : json) : option (gmap string json) :=
  match x with JObj m => Some m | _ => None end.

(** Specification side: a field is unset on a record when it is missing or
    null. *)
Definition unset (f : gmap string json) (fid : string) : Prop :=
  f !! fid = None ∨ f !! fid = Some JNull.

End Effort.

Export Effort.

(* ===================================================================== *)
(** ** Sprint math: committed and completed effort *)
(* ===================================================================== *)

Module Reconcile.

Section WithFloat.
Variable float_of_str : string → option Q.

(** The local function [sp(est)] of the two sprint-report readers:
<<
    try:
        v = (est or {}).get("statFieldValue") or {}
        if isinstance(v.get("value"), (int,float)): return float(v["value"])
        if v.get("text"): return float(v["text"])
    except Exception: pass
    return 0.0
>>
    [sp_try] is the [try] block; [None] when it raises or falls through. *)
Definition sp_try (est : json) : option Q :=
  s ← dget (por est empty_dict) "statFieldValue";
  let v := por s empty_dict in
  value ← dget v "value";
  if is_number value then py_float float_of_str value
  else
    text ← dget v "text";
    if truthy text then py_float float_of_str text else None.

Definition sp (est : json) : Q := default 0%Q (sp_try est).

(** [sum(sp(it.get("estimateStatistic")) for it in completed)], with the
    running total [acc] ([sum] starts from 0 and adds left to right). *)
Fixpoint sum_effort (items : list json) (acc : Q) : option Q :=
  match items with
  | [] => Some acc
  | it :: rest =>
      est ← dget it "estimateStatistic";
      sum_effort rest (acc + sp est)%Q
  end.

(** One of the two loops that build [committed_sp]:
<<
    for it in items:
        if it.get("key") not in added_mid:
            committed_sp += sp(it.get("estimateStatistic"))
>> *)
Fixpoint add_committed (added_mid : gset string) (items : list json)
    (committed_sp : Q) : option Q :=
  match items with
  | [] => Some committed_sp
  | it :: rest =>
      key ← dget it "key";
      match in_key_set key added_mid with
      | None => None
      | Some true => add_committed added_mid rest committed_sp
      | Some false =>
          est ← dget it "estimateStatistic";
          add_committed added_mid rest (committed_sp + sp est)%Q
      end
  end.

(** [compute_committed_completed_from_report(report)]:
<<
    contents = report.get("contents", {}) or {}
    completed = contents.get("completedIssues", []) or []
    not_completed = contents.get("issuesNotCompletedInCurrentSprint", []) or []
    added_mid = set((contents.get("issueKeysAddedDuringSprint") or {}).keys())
    completed_sp = sum(sp(it.get("estimateStatistic")) for it in completed)
    committed_sp = 0.0
    for it in completed: ...
    for it in not_completed: ...
    scope_change_count = len(added_mid)
    carry_over_count   = len(not_completed)
    return committed_sp, completed_sp, scope_change_count, carry_over_count
>> *)
Definition compute_committed_completed_from_report (report : json)
  : option (Q * Q * nat * nat) :=
  c ← dget_def report "contents" empty_dict;
  let contents := por c empty_dict in
  cj ← dget_def contents "completedIssues" empty_list;
  nj ← dget_def contents "issuesNotCompletedInCurrentSprint" empty_list;
  aj ← dget contents "issueKeysAddedDuringSprint";
  added_mid ← key_set (por aj empty_dict);
  completed ← as_list (por cj empty_list);
  completed_sp ← sum_effort completed 0%Q;
  committed_1 ← add_committed added_mid completed 0%Q;
  not_completed ← as_list (por nj empty_list);
  committed_sp ← add_committed added_mid not_completed committed_1;
  Some (committed_sp, completed_sp, size added_mid, length not_completed).

(** [vj.get("velocityStatEntries", {}) or {}]. *)
Definition velocity_entries (vj : json) : option json :=
  e ← dget_def vj "velocityStatEntries" empty_dict;
  Some (por e empty_dict).

(** [float((entry.get(field) or {}).get("value") or 0)]. *)
Definition stat_value (entry : json) (field : string) : option Q :=
  s ← dget entry field;
  v ← dget (por s empty_dict) "value";
  py_float float_of_str (por v (JNum 0)).

(** The [try] block of [get_committed_completed_from_velocity]:
<<
    vj = velocity_json(board_id)
    entries = vj.get("velocityStatEntries", {}) or {}
    entry = entries.get(str(sprint_id)) or entries.get(int(sprint_id))
    if entry:
        est = float((entry.get("estimated") or {}).get("value") or 0)
        comp = float((entry.get("completed") or {}).get("value") or 0)
        return est, comp
>>
    [velocity_reply] is the outcome of [velocity_json(board_id)], [None]
    when the request raised; the sprint id is an integer, so
    [str(sprint_id)] is its decimal form and [int(sprint_id)] is itself.
    The result is [None] when the block raises or reaches its end without
    returning. *)
Definition velocity_try (velocity_reply : option json) (sprint_id : Z)
  : option (Q * Q) :=
  vj ← velocity_reply;
  entries ← velocity_entries vj;
  by_str ← dget entries (pretty sprint_id);
  entry ← (if truthy by_str then Some by_str else dget_int entries sprint_id);
  if truthy entry then
    est ← stat_value entry "estimated";
    comp ← stat_value entry "completed";
    Some (est, comp)
  else None.

(** [get_committed_completed_from_velocity]: [(est, comp)], or
    [(None, None)] after the [except] clause or the end of the [try]. *)
Definition get_committed_completed_from_velocity
    (velocity_reply : option json) (sprint_id : Z) : option Q * option Q :=
  match velocity_try velocity_reply sprint_id with
  | Some (est, comp) => (Some est, Some comp)
  | None => (None, None)
  end.

(** The reconciliation step of [main]:
<<
    est_v, comp_v = get_committed_completed_from_velocity(board["id"], sprint["id"])
    if est_v is not None and comp_v is not None:
        committed_sp, completed_sp = est_v, comp_v
        _, _, scope_change_count, carry_over_count = compute_committed_completed_from_report(report)
    else:
        committed_sp, completed_sp, scope_change_count, carry_over_count = compute_committed_completed_from_report(report)
>> *)
Definition main_reconcile (velocity_reply : option json) (sprint_id : Z)
    (report : json) : option (Q * Q * nat * nat) :=
  match get_committed_completed_from_velocity velocity_reply sprint_id with
  | (Some est_v, Some comp_v) =>
      '(_, _, scope_change_count, carry_over_count)
        ← compute_committed_completed_from_report report;
      Some (est_v, comp_v, scope_change_count, carry_over_count)
  | _ => compute_committed_completed_from_report report
  end.

(** A Python dict with arbitrary hashable keys, newest binding first. *)
Definition pydict := list (json * Q).

Definition hashable (x : json) : bool :=
  match x with JArr _ | JObj _ => false | _ => true end.

Definition num_of (x : json) : option Q :=
  match x with
  | JNum q => Some q
  | JBool b => Some (if b then 1%Q else 0%Q)
  | _ => None
  end.

(** Equality of dict keys: [1 == 1.0 == True], strings by content. *)
Definition key_eqb (a b : json) : bool :=
  match a, b with
  | JNull, JNull => true
  | JStr s, JStr t => String.eqb s t
  | _, _ =>
      match num_of a, num_of b with
      | Some p, Some q => Qeq_bool p q
      | _, _ => false
      end
  end.

(** [mp.get(k, d)]: [TypeError] on an unhashable key. *)
Definition pydict_get (mp : pydict) (k : json) (d : Q) : option Q :=
  if hashable k then
    Some (default d (snd <$> List.find (λ kv, key_eqb (fst kv) k) mp))
  else None.

(** The characters of a string, as a [for] over it yields them. *)
Fixpoint chars (s : string) : list json :=
  match s with
  | EmptyString => []
  | String a r => JStr (String a EmptyString) :: chars r
  end.

(** [completed + not_completed] as the sequence the loop runs over. *)
Definition concat_items (a b : json) : option (list json) :=
  match a, b with
  | JArr x, JArr y => Some (x ++ y)%list
  | JStr s, JStr t => Some (chars s ++ chars t)%list
  | _, _ => None
  end.

(** The loop of [build_sp_map_from_report]:
<<
    for it in completed + not_completed:
        try: mp[it.get("key")] = sp(it.get("estimateStatistic"))
        except Exception: continue
>> *)
Fixpoint fill_sp_map (items : list json) (mp : pydict) : pydict :=
  match items with
  | [] => mp
  | it :: rest =>
      let assigned :=
        est ← dget it "estimateStatistic";
        key ← dget it "key";
        if hashable key then Some ((key, sp est) :: mp) else None in
      fill_sp_map rest (default mp assigned)
  end.

(** [build_sp_map_from_report(report)]:
<<
    contents = report.get("contents", {}) or {}
    completed = contents.get("completedIssues", []) or []
    not_completed = contents.get("issuesNotCompletedInCurrentSprint", []) or []
    mp = {}
    for it in completed + not_completed: ...
    return mp
>> *)
Definition build_sp_map_from_report (report : json) : option pydict :=
  c ← dget_def report "contents" empty_dict;
  let contents := por c empty_dict in
  cj ← dget_def contents "completedIssues" empty_list;
  nj ← dget_def contents "issuesNotCompletedInCurrentSprint" empty_list;
  items ← concat_items (por cj empty_list) (por nj empty_list);
  Some (fill_sp_map items []).

End WithFloat.

(** Specification side: the effort of a report item, whether it was added
    mid-sprint, and a sum that does not fix an order of evaluation. *)
Definition item_effort (float_of_str : string → option Q) (it : json) : Q :=
  match dget it "estimateStatistic" with
  | Some est => sp float_of_str est
  | None => 0%Q
  end.

Definition added_mid_sprint (added_mid : gset string) (it : json) : bool :=
  match dget it "key" with
  | Some (JStr k) => bool_decide (k ∈ added_mid)
  | _ => false
  end.

Definition Qsum (xs : list Q) : Q := foldr Qplus 0%Q xs.

(** A report item: a dict whose key, if any, is hashable. *)
Definition is_item (it : json) : Prop :=
  ∃ m, it = JObj m ∧ hashable (default JNull (m !! "key")) = true.

End Reconcile.

Export Reconcile.

(* ===================================================================== *)
(** ** Paginated sprint-issue walker *)
(* ===================================================================== *)

Module Walker.

(** The query of one page request. *)
Record page_request := PageRequest {
  rq_sprint_id : Z;
  rq_start_at : nat;
  rq_max_results : nat;
  rq_fields : list string;
  rq_jql : option string
}.

Section WithUpstream.
(** The tracker as seen through [get_json] on the sprint-issue endpoint: it
    has a state of its own (issues may move between two requests), and
    answers a page request with the [issues] array of the reply
    ([data.get("issues") or []]), or fails ([None]: the request raised). *)
Context {upstream : Type}.
Variable get_issue_page :
  upstream → page_request → upstream * option (list json).

Section Walk.
Variable sprint_id : Z.
Variable fields : list string.
Variable page_size : nat.
Variable jql : option string.

(** One of the two page loops, [n] iterations left:
<<
    for _ in range(max_pages):
        params = dict(params_common, startAt=start_at)
        if jql_fragment: params["jql"] = jql_fragment
        data = get_json(base_url, J_HEADERS, params)
        chunk = (data.get("issues") or [])
        issues.extend(chunk)
        if len(chunk) < page_size: break
        start_at += page_size
>>
    [None] when a request raises. *)
Fixpoint walk_pages (n : nat) (st : upstream) (start_at : nat)
    (issues : list json) : upstream * option (list json) :=
  match n with
  | O => (st, Some issues)
  | S n' =>
      let rq := PageRequest sprint_id start_at page_size fields jql in
      match get_issue_page st rq with
      | (st', None) => (st', None)
      | (st', Some chunk) =>
          let issues' := (issues ++ chunk)%list in
          if Nat.ltb (length chunk) page_size then (st', Some issues')
          else walk_pages n' st' (start_at + page_size)%nat issues'
      end
  end.
End Walk.

(** [if jql_fragment: params["jql"] = jql_fragment]. *)
Definition jql_param (jql_fragment : option string) : option string :=
  match jql_fragment with
  | Some s => if String.eqb s "" then None else Some s
  | None => None
  end.

(** [agile_sprint_issues_paginated(sprint_id, jql_fragment, fields,
    max_pages=50, page_size=100)]:
<<
    issues, start_at = [], 0
    used_server_filter = True
    try:
        for _ in range(max_pages): ...
        return issues, used_server_filter
    except Exception as e:
        print(...)
    used_server_filter = False
    issues, start_at = [], 0
    for _ in range(max_pages): ...      # the same loop without the jql
    return issues, used_server_filter
>>
    The result is [None] when the walk without a filter raises. *)
Definition agile_sprint_issues_paginated (sprint_id : Z)
    (jql_fragment : option string) (fields : list string)
    (max_pages page_size : nat) (st : upstream)
  : upstream * option (list json * bool) :=
  match walk_pages sprint_id fields page_size (jql_param jql_fragment)
                   max_pages st 0%nat [] with
  | (st1, Some issues) => (st1, Some (issues, true))
  | (st1, None) =>
      match walk_pages sprint_id fields page_size None max_pages st1 0%nat [] with
      | (st2, Some issues) => (st2, Some (issues, false))
      | (st2, None) => (st2, None)
      end
  end.

(** Specification side: the pages a loop receives, in request order. *)
Fixpoint pages_received (sprint_id : Z) (fields : list string)
    (page_size : nat) (jql : option string) (n : nat) (st : upstream)
    (start_at : nat) : list (list json) :=
  match n with
  | O => []
  | S n' =>
      let rq := PageRequest sprint_id start_at page_size fields jql in
      match get_issue_page st rq with
      | (st', None) => []
      | (st', Some chunk) =>
          chunk ::
          (if Nat.ltb (length chunk) page_size then []
           else pages_received sprint_id fields page_size jql n' st'
                               (start_at + page_size)%nat)
      end
  end.

(** The pages behind a result of the walker: those of the filtered walk when
    the server-side filter was used, otherwise those of the second walk,
    which starts in the state the failed first walk left. *)
Definition pages_behind (sprint_id : Z) (jql_fragment : option string)
    (fields : list string) (max_pages page_size : nat) (st : upstream)
    (used_server_filter : bool) : list (list json) :=
  if used_server_filter then
    pages_received sprint_id fields page_size (jql_param jql_fragment)
                   max_pages st 0%nat
  else
    pages_received sprint_id fields page_size None max_pages
      (fst (walk_pages sprint_id fields page_size (jql_param jql_fragment)
                       max_pages st 0%nat [])) 0%nat.

End WithUpstream.

(** The identifier of an issue: [it.get("key")]. *)
Definition issue_key (it : json) : json := default JNull (dget it "key").

End Walker.

Export Walker.

(* ===================================================================== *)
(** ** Derived tables *)
(* ===================================================================== *)

Module Tables.

(** [AUDIT_ISSUE_TYPES] and [AUDIT_EXCLUDED_STATUS_NAMES]; the sets are only
    tested for membership and joined into one filter expression. *)
Definition AUDIT_ISSUE_TYPES : list string := ["story"; "task"].
Definition AUDIT_EXCLUDED_STATUS_NAMES : list string :=
  ["cancelled"; "canceled"; "not needed"].

(** [s in names]. *)
Definition str_in (s : string) (names : list string) : bool :=
  existsb (String.eqb s) names.

(** [str.title] on ASCII text: the first letter of each word in upper case,
    the others in lower case. *)
Definition upper_ascii (a : ascii) : ascii :=
  let n := nat_of_ascii a in
  if (Nat.leb 97 n && Nat.leb n 122)%bool then ascii_of_nat (n - 32) else a.

Definition is_alpha (a : ascii) : bool :=
  let n := nat_of_ascii a in
  ((Nat.leb 65 n && Nat.leb n 90) || (Nat.leb 97 n && Nat.leb n 122))%bool.

Fixpoint title_from (in_word : bool) (s : string) : string :=
  match s with
  | EmptyString => EmptyString
  | String a r =>
      String (if in_word then lower_ascii a else upper_ascii a)
             (title_from (is_alpha a) r)
  end.

Definition title (s : string) : string := title_from false s.

(** [sep.join(parts)]. *)
Fixpoint join (sep : string) (parts : list string) : string :=
  match parts with
  | [] => EmptyString
  | [p] => p
  | p :: rest => (p ++ sep ++ join sep rest)%string
  end.

Definition dquote : string := String (ascii_of_nat 34) EmptyString.

(** The filter expression of the two audits:
<<
    excluded = ",".join(f'"{s.title()}"' for s in AUDIT_EXCLUDED_STATUS_NAMES)
    jql = f'status not in ({excluded})' if excluded else None
>> *)
Definition audit_jql : option string :=
  let excluded :=
    join "," (map (λ s, dquote ++ title s ++ dquote)%string
                  AUDIT_EXCLUDED_STATUS_NAMES) in
  if String.eqb excluded "" then None
  else Some ("status not in (" ++ excluded ++ ")")%string.

(** [_is_done(fields)]:
<<
    try:
        return ((fields.get("status") or {}).get("statusCategory") or {}).get("key") == "done"
    except Exception:
        return False
>> *)
Definition _is_done (fields : json) : bool :=
  default false
    (s ← dget fields "status";
     c ← dget (por s empty_dict) "statusCategory";
     k ← dget (por c empty_dict) "key";
     Some (eq_str k "done")).

(** A stable sort by decreasing key, as [list.sort(key=..., reverse=True)]:
    items with equal keys keep their order. *)
Fixpoint insert_desc {A K} (ltb : K → K → bool) (key : A → K) (x : A)
    (l : list A) : list A :=
  match l with
  | [] => [x]
  | y :: r =>
      if ltb (key y) (key x) then x :: y :: r
      else y :: insert_desc ltb key x r
  end.

Definition sort_desc {A K} (ltb : K → K → bool) (key : A → K) (l : list A)
  : list A :=
  fold_left (λ acc x, insert_desc ltb key x acc) l [].

Definition Qltb (a b : Q) : bool := negb (Qle_bool b a).

(** A loop that appends one row per issue unless the body [continue]s
    ([Some None]) or raises ([None]). *)
Fixpoint collect_rows {R} (row : json → option (option R)) (issues : list json)
  : option (list R) :=
  match issues with
  | [] => Some []
  | it :: rest =>
      r ← row it;
      rs ← collect_rows row rest;
      Some (match r with Some x => x :: rs | None => rs end)
  end.

(** Rows of the effort tables: [(key, name, sp, status_name)]; of the audit
    tables: [(key, summary, assignee)]. *)
Definition sp_row : Type := json * json * Q * string.
Definition audit_row : Type := json * json * json.

Definition sp_of_row (r : sp_row) : Q := snd (fst r).
Definition status_of_row (r : sp_row) : string := snd r.
Definition key_of_row (r : sp_row) : json := fst (fst (fst r)).
Definition audit_key (r : audit_row) : json := fst (fst r).

Section WithConfig.
Variable float_of_str : string → option Q.
Variable STORY_POINTS_FIELD_ID : string.
Variable STORY_POINTS_FIELD_IDS : list string.
Variable EPIC_LINK_FIELD_ID : string.
Variable TD_EPIC_KEY : string.

(** [sp = _field_sp_from_fields(f); if sp is None: sp = float(sp_map.get(key, 0.0))]. *)
Definition resolve_sp (sp_map : pydict) (key f : json) : option Q :=
  m ← as_dict f;
  match _field_sp_from_fields float_of_str STORY_POINTS_FIELD_IDS m with
  | Some q => Some q
  | None => pydict_get sp_map key 0%Q
  end.

(** [((f.get("status") or {}).get("name") or "").strip()]. *)
Definition status_name_of (f : json) : option string :=
  s ← dget f "status";
  n ← dget (por s empty_dict) "name";
  t ← str_of (por n (JStr ""));
  Some (strip t).

(** The body of the loop of [top5_completed_stories]:
<<
    f = it.get("fields") or {}
    if not used_server_filter and not _is_done(f): continue
    itype = (f.get("issuetype") or {}).get("name","").strip().lower()
    if itype not in allowed_types: continue
    key = it.get("key") or ""
    name = f.get("summary","")
    sp = _field_sp_from_fields(f)
    if sp is None: sp = float(sp_map.get(key, 0.0))
    status_name = ((f.get("status") or {}).get("name") or "").strip()
    rows.append((key, name, sp or 0.0, status_name))
>> *)
Definition top5_row (sp_map : pydict) (used_server_filter : bool) (it : json)
  : option (option sp_row) :=
  fj ← dget it "fields";
  let f := por fj empty_dict in
  if negb used_server_filter && negb (_is_done f) then Some None
  else
    ty ← dget f "issuetype";
    nm ← dget_def (por ty empty_dict) "name" (JStr "");
    t ← str_of nm;
    let itype := lower (strip t) in
    if negb (str_in itype ["story"; "task"]) then Some None
    else
      k ← dget it "key";
      let key := por k (JStr "") in
      name ← dget_def f "summary" (JStr "");
      sp ← resolve_sp sp_map key f;
      status_name ← status_name_of f;
      Some (Some (key, name, if Qeq_bool sp 0 then 0%Q else sp, status_name)).

(** The body of the loop of [completed_tech_debts_with_sp]:
<<
    f = it.get("fields") or {}
    if not used_server_filter and not _is_done(f): continue
    sname = (f.get("status") or {}).get("name","").strip().lower()
    if sname in AUDIT_EXCLUDED_STATUS_NAMES: continue
    epic_val = f.get(EPIC_LINK_FIELD_ID)
    epic_key = (epic_val.get("key") if isinstance(epic_val, dict) else epic_val)
    if epic_key != TD_EPIC_KEY: continue
    key = it.get("key","")
    name = f.get("summary","")
    sp = _field_sp_from_fields(f)
    if sp is None: sp = float(sp_map.get(key, 0.0))
    status_name = ((f.get("status") or {}).get("name") or "").strip()
    rows.append((key, name, safe_float(sp, 0.0), status_name))
>> *)
Definition tech_debt_row (sp_map : pydict) (used_server_filter : bool)
    (it : json) : option (option sp_row) :=
  fj ← dget it "fields";
  let f := por fj empty_dict in
  if negb used_server_filter && negb (_is_done f) then Some None
  else
    s ← dget f "status";
    nm ← dget_def (por s empty_dict) "name" (JStr "");
    t ← str_of nm;
    let sname := lower (strip t) in
    if str_in sname AUDIT_EXCLUDED_STATUS_NAMES then Some None
    else
      epic_val ← dget f EPIC_LINK_FIELD_ID;
      epic_key ← match epic_val with
                 | JObj _ => dget epic_val "key"
                 | _ => Some epic_val
                 end;
      if negb (eq_str epic_key TD_EPIC_KEY) then Some None
      else
        key ← dget_def it "key" (JStr "");
        name ← dget_def f "summary" (JStr "");
        sp ← resolve_sp sp_map key f;
        status_name ← status_name_of f;
        Some (Some (key, name, sp, status_name)).

(** [(f.get("assignee") or {}).get("displayName") or "-"]. *)
Definition assignee_of (f : json) : option json :=
  a ← dget f "assignee";
  d ← dget (por a empty_dict) "displayName";
  Some (por d (JStr "-")).

(** [itype = (f.get("issuetype") or {}).get("name","").lower()] followed by
    [if itype not in AUDIT_ISSUE_TYPES: continue]: whether the audit keeps
    the issue. *)
Definition audit_type_ok (f : json) : option bool :=
  ty ← dget f "issuetype";
  nm ← dget_def (por ty empty_dict) "name" (JStr "");
  t ← str_of nm;
  Some (str_in (lower t) AUDIT_ISSUE_TYPES).

(** The body of the loop of [stories_tasks_without_sp]:
<<
    f = (it.get("fields") or {})
    itype = (f.get("issuetype") or {}).get("name","").lower()
    if itype not in AUDIT_ISSUE_TYPES: continue
    sp_vals = [] ...
    has_any = len(sp_vals) > 0
    sp_sum = sum(sp_vals) if has_any else 0.0
    if (not has_any) or (sp_sum == 0.0):
        assignee = (f.get("assignee") or {}).get("displayName") or "-"
        rows.append((it.get("key") or "", f.get("summary") or "", assignee))
>> *)
Definition without_sp_row (it : json) : option (option audit_row) :=
  fj ← dget it "fields";
  let f := por fj empty_dict in
  ok ← audit_type_ok f;
  if negb ok then Some None
  else
    m ← as_dict f;
    if missing_or_zero_sp float_of_str STORY_POINTS_FIELD_IDS m then
      assignee ← assignee_of f;
      k ← dget it "key";
      s ← dget f "summary";
      Some (Some (por k (JStr ""), por s (JStr ""), assignee))
    else Some None.

(** The body of the loop of [stories_tasks_without_epic]:
<<
    epic_val = f.get(EPIC_LINK_FIELD_ID, "__MISSING__")
    if epic_val in ("__MISSING__", None):
>> *)
Definition without_epic_row (it : json) : option (option audit_row) :=
  fj ← dget it "fields";
  let f := por fj empty_dict in
  ok ← audit_type_ok f;
  if negb ok then Some None
  else
    epic_val ← dget_def f EPIC_LINK_FIELD_ID (JStr "__MISSING__");
    if eq_str epic_val "__MISSING__" || is_none epic_val then
      assignee ← assignee_of f;
      k ← dget it "key";
      s ← dget f "summary";
      Some (Some (por k (JStr ""), por s (JStr ""), assignee))
    else Some None.

Section WithUpstream.
Context {upstream : Type}.
Variable get_issue_page :
  upstream → page_request → upstream * option (list json).

(** [top5_completed_stories(report, sprint_id)]:
<<
    sp_map = build_sp_map_from_report(report)
    allowed_types = {"story", "task"}
    jql_frag = 'statusCategory = Done'
    fields = ["summary", STORY_POINTS_FIELD_ID, "issuetype", "status"]
    issues, used_server_filter = agile_sprint_issues_paginated(sprint_id, jql_frag, fields)
    rows = []
    for it in issues: ...
    rows.sort(key=lambda r: r[2], reverse=True)
    return rows[:5]
>> *)
Definition top5_completed_stories (report : json) (sprint_id : Z)
    (st : upstream) : upstream * option (list sp_row) :=
  match build_sp_map_from_report float_of_str report with
  | None => (st, None)
  | Some sp_map =>
      let fields := ["summary"; STORY_POINTS_FIELD_ID; "issuetype"; "status"] in
      match agile_sprint_issues_paginated get_issue_page sprint_id
              (Some "statusCategory = Done") fields 50 100 st with
      | (st', None) => (st', None)
      | (st', Some (issues, used_server_filter)) =>
          (st',
           rows ← collect_rows (top5_row sp_map used_server_filter) issues;
           Some (take 5 (sort_desc Qltb sp_of_row rows)))
      end
  end.

(** [completed_tech_debts_with_sp(report, sprint_id)]:
<<
    sp_map = build_sp_map_from_report(report)
    jql_frag = 'statusCategory = Done'
    fields = ["summary", STORY_POINTS_FIELD_ID, "issuetype", "status", EPIC_LINK_FIELD_ID]
    issues, used_server_filter = agile_sprint_issues_paginated(sprint_id, jql_frag, fields)
    rows = []
    for it in issues: ...
    rows.sort(key=lambda r: (r[2] or 0.0), reverse=True)
    return rows
>> *)
Definition completed_tech_debts_with_sp (report : json) (sprint_id : Z)
    (st : upstream) : upstream * option (list sp_row) :=
  match build_sp_map_from_report float_of_str report with
  | None => (st, None)
  | Some sp_map =>
      let fields := ["summary"; STORY_POINTS_FIELD_ID; "issuetype"; "status";
                     EPIC_LINK_FIELD_ID] in
      match agile_sprint_issues_paginated get_issue_page sprint_id
              (Some "statusCategory = Done") fields 50 100 st with
      | (st', None) => (st', None)
      | (st', Some (issues, used_server_filter)) =>
          (st',
           rows ← collect_rows (tech_debt_row sp_map used_server_filter) issues;
           Some (sort_desc Qltb sp_of_row rows))
      end
  end.

(** [stories_tasks_without_sp(sprint_id)]:
<<
    fields = ["summary", "issuetype", "status", "assignee"] + STORY_POINTS_FIELD_IDS
    issues, _ = agile_sprint_issues_paginated(sprint_id, jql, fields, max_pages=200, page_size=200)
    rows = []
    for it in issues: ...
    return rows
>>
    The walker's [used_server_filter] is discarded. *)
Definition stories_tasks_without_sp (sprint_id : Z) (st : upstream)
  : upstream * option (list audit_row) :=
  let fields := ["summary"; "issuetype"; "status"; "assignee"]
                ++ STORY_POINTS_FIELD_IDS in
  match agile_sprint_issues_paginated get_issue_page sprint_id audit_jql
          fields 200 200 st with
  | (st', None) => (st', None)
  | (st', Some (issues, _)) => (st', collect_rows without_sp_row issues)
  end.

(** [stories_tasks_without_epic(sprint_id)]:
<<
    fields = ["summary", "issuetype", "status", EPIC_LINK_FIELD_ID, "assignee"]
    issues, _ = agile_sprint_issues_paginated(sprint_id, jql, fields, max_pages=200, page_size=200)
    rows = []
    for it in issues: ...
    return rows
>> *)
Definition stories_tasks_without_epic (sprint_id : Z) (st : upstream)
  : upstream * option (list audit_row) :=
  let fields := ["summary"; "issuetype"; "status"; EPIC_LINK_FIELD_ID;
                 "assignee"] in
  match agile_sprint_issues_paginated get_issue_page sprint_id audit_jql
          fields 200 200 st with
  | (st', None) => (st', None)
  | (st', Some (issues, _)) => (st', collect_rows without_epic_row issues)
  end.

End WithUpstream.
End WithConfig.

(** Specification side: the status name of an issue as the exclusion policy
    reads it (trimmed, compared in lower case), and the policy itself. *)
Definition issue_status_name (it : json) : option string :=
  fj ← dget it "fields";
  s ← dget (por fj empty_dict) "status";
  n ← dget (por s empty_dict) "name";
  str_of n.

Definition excluded_status (name : string) : bool :=
  str_in (lower (strip name)) AUDIT_EXCLUDED_STATUS_NAMES.

End Tables.

Export Tables.

(* ===================================================================== *)
(** ** Time series *)
(* ===================================================================== *)

Module Series.

(** The day loop shared by [_daterange_inclusive] and the burndown:
<<
    while d <= end:
        days.append(d)
        d += datetime.timedelta(days=1)
>>
    [fuel] bounds the iterations; the callers supply [end - d + 1], the
    number of days left ([days_loop_spec]). *)
Fixpoint days_loop (fuel : nat) (d end_ : Z) (days : list Z)
  : option (list Z) :=
  match fuel with
  | O => if d <=? end_ then None else Some days
  | S fuel' =>
      if d <=? end_ then
        d' ← add_days d 1;
        days_loop fuel' d' end_ (days ++ [d])
      else Some days
  end.

Section WithParsers.
Variable float_of_str : string → option Q.
(** [datetime.date.fromisoformat], [None] for [ValueError]. *)
Variable date_fromisoformat : string → option Z.
(** The parsing attempts of [parse_jira_date] on a string
    ([datetime.fromisoformat], then three [strptime] formats); [None] when
    all of them fail. *)
Variable datetime_of_str : string → option datetime.
(** [datetime.datetime.now(datetime.timezone.utc)]. *)
Variable now_utc : datetime.
Variable STORY_POINTS_FIELD_IDS : list string.

(** [_daterange_inclusive(start_date, end_date)]:
<<
    start = datetime.date.fromisoformat(start_date)
    end = datetime.date.fromisoformat(end_date)
    days = []
    d = start
    while d <= end: ...
    return days
>> *)
Definition _daterange_inclusive (start_date end_date : string)
  : option (list Z) :=
  start ← date_fromisoformat start_date;
  end_ ← date_fromisoformat end_date;
  days_loop (Z.to_nat (end_ - start + 1)) start end_ [].

(** The row loop of [_lb_timeseries_complete]:
<<
    for row in points:
        d = row.get("date")
        if not d: continue
        try: dt = datetime.date.fromisoformat(d)
        except Exception: continue
        v_min = row.get(key)
        by_date_hours[dt] = (float(v_min) / 60.0) if v_min is not None else 0.0
>> *)
Fixpoint fill_by_date (points : list json) (key : string)
    (by_date_hours : gmap Z Q) : option (gmap Z Q) :=
  match points with
  | [] => Some by_date_hours
  | row :: rest =>
      d ← dget row "date";
      if negb (truthy d) then fill_by_date rest key by_date_hours
      else
        match str_of d ≫= date_fromisoformat with
        | None => fill_by_date rest key by_date_hours
        | Some dt =>
            v_min ← dget row key;
            hours ← (if is_none v_min then Some 0%Q
                     else (λ q, q / 60)%Q <$> py_float float_of_str v_min);
            fill_by_date rest key (<[dt := hours]> by_date_hours)
        end
  end.

(** [_lb_timeseries_complete(points, start_date, end_date, key)]:
<<
    all_days = _daterange_inclusive(start_date, end_date)
    by_date_hours = {}
    for row in points: ...
    ys = [(by_date_hours.get(day, 0.0)) for day in all_days]
    return all_days, ys
>> *)
Definition _lb_timeseries_complete (points : list json)
    (start_date end_date key : string) : option (list Z * list Q) :=
  all_days ← _daterange_inclusive start_date end_date;
  by_date_hours ← fill_by_date points key ∅;
  let ys := map (λ day, default 0%Q (by_date_hours !! day)) all_days in
  Some (all_days, ys).

(** [parse_jira_date(s)]: [None] for a false [s]; the parsing attempts
    catch every exception, so a value that is not a string gives [None]. *)
Definition parse_jira_date (s : json) : option datetime :=
  if truthy s then
    match s with
    | JStr t => datetime_of_str t
    | _ => None
    end
  else None.

(** [t + datetime.timedelta(days=n)] on a datetime. *)
Definition datetime_add_days (t : datetime) (n : Z) : option datetime :=
  d ← add_days (dt_date t) n;
  Some (DateTime d (dt_secs t)).

(** The day axis of the burndown:
<<
    sprint = (report_json or {}).get("sprint", {}) or {}
    start_dt = parse_jira_date(sprint.get("startDate")) or datetime.datetime.now(datetime.timezone.utc)
    end_dt   = parse_jira_date(sprint.get("completeDate") or sprint.get("endDate")) \
               or (start_dt + datetime.timedelta(days=14))
    days = []
    d = start_dt.date()
    while d <= end_dt.date(): ...
>> *)
Definition burndown_days (report_json : json) : option (list Z) :=
  sj ← dget_def (por report_json empty_dict) "sprint" empty_dict;
  let sprint := por sj empty_dict in
  sd ← dget sprint "startDate";
  let start_dt := default now_utc (parse_jira_date sd) in
  cd ← dget sprint "completeDate";
  ed ← (if truthy cd then Some cd else dget sprint "endDate");
  end_dt ← match parse_jira_date ed with
           | Some t => Some t
           | None => datetime_add_days start_dt 14
           end;
  days_loop (Z.to_nat (dt_date end_dt - dt_date start_dt + 1))
            (dt_date start_dt) (dt_date end_dt) [].

(** [days[0]] and [days[-1]]: [IndexError] on an empty list. *)
Definition first_day (days : list Z) : option Z := head days.
Definition last_day (days : list Z) : option Z := last days.

(** The issue loop of the burndown:
<<
    for it in issues:
        f = it.get("fields") or {}
        rd = f.get("resolutiondate")
        if not rd: continue
        rdt = parse_jira_date(rd)
        if not rdt: continue
        day = rdt.date()
        if day < days[0] or day > days[-1]: continue
        sp = _field_sp_from_fields(f)
        if sp is None: sp = 0.0
        done_by_day[day] += float(sp)
>> *)
Fixpoint fill_done_by_day (days : list Z) (issues : list json)
    (done_by_day : gmap Z Q) : option (gmap Z Q) :=
  match issues with
  | [] => Some done_by_day
  | it :: rest =>
      fj ← dget it "fields";
      let f := por fj empty_dict in
      rd ← dget f "resolutiondate";
      if negb (truthy rd) then fill_done_by_day days rest done_by_day
      else
        match parse_jira_date rd with
        | None => fill_done_by_day days rest done_by_day
        | Some rdt =>
            let day := dt_date rdt in
            d0 ← first_day days;
            if day <? d0 then fill_done_by_day days rest done_by_day
            else
              dn ← last_day days;
              if dn <? day then fill_done_by_day days rest done_by_day
              else
                m ← as_dict f;
                let sp := default 0%Q
                  (_field_sp_from_fields float_of_str STORY_POINTS_FIELD_IDS m) in
                cur ← done_by_day !! day;
                fill_done_by_day days rest (<[day := (cur + sp)%Q]> done_by_day)
        end
  end.

(** [{day: 0.0 for day in days}]. *)
Definition zero_by_day (days : list Z) : gmap Z Q :=
  list_to_map (map (λ day, (day, 0%Q)) days).

(** The remaining-effort loop:
<<
    remaining = []
    cum = 0.0
    for day in days:
        cum += done_by_day.get(day, 0.0)
        remaining.append(max(committed_sp - cum, 0.0))
>> *)
Fixpoint remaining_loop (committed_sp : Q) (done_by_day : gmap Z Q)
    (days : list Z) (cum : Q) (remaining : list Q) : list Q :=
  match days with
  | [] => remaining
  | day :: rest =>
      let cum' := (cum + default 0%Q (done_by_day !! day))%Q in
      remaining_loop committed_sp done_by_day rest cum'
                     (remaining ++ [pymax (committed_sp - cum')%Q 0%Q])
  end.

(** The ideal line:
<<
    total_days = max(1, (days[-1] - days[0]).days)
    for i, _day in enumerate(days):
        frac = i / total_days
        ideal.append(committed_sp * (1.0 - frac))
>> *)
Definition ideal_line (committed_sp : Q) (days : list Z) : option (list Q) :=
  dn ← last_day days;
  d0 ← first_day days;
  let total_days := Z.max 1 (dn - d0) in
  Some (map (λ i : nat, committed_sp * (1 - inject_Z (Z.of_nat i) / inject_Z total_days))%Q
            (seq 0 (length days))).

Section WithUpstream.
Context {upstream : Type}.
Variable get_issue_page :
  upstream → page_request → upstream * option (list json).

(** [render_burndown_png_bytes(report_json, sprint_id, committed_sp,
    board_id)] up to the series it draws: the day axis, the remaining effort
    and the ideal line.  The drawing that follows is not modelled. *)
Definition render_burndown_png_bytes (report_json : json) (sprint_id : Z)
    (committed_sp : Q) (st : upstream)
  : upstream * option (list Z * list Q * list Q) :=
  match burndown_days report_json with
  | None => (st, None)
  | Some days =>
      let fields := ["resolutiondate"] ++ STORY_POINTS_FIELD_IDS
                    ++ ["issuetype"; "status"; "summary"] in
      match agile_sprint_issues_paginated get_issue_page sprint_id None
              fields 300 200 st with
      | (st', None) => (st', None)
      | (st', Some (issues, _)) =>
          (st',
           done_by_day ← fill_done_by_day days issues (zero_by_day days);
           let remaining := remaining_loop committed_sp done_by_day days 0%Q [] in
           ideal ← ideal_line committed_sp days;
           Some (days, remaining, ideal))
      end
  end.

End WithUpstream.
End WithParsers.

(** Specification side: the effort done on each day of the axis and its
    running total up to and including day [i]. *)
Definition daily_done (done_by_day : gmap Z Q) (days : list Z) : list Q :=
  map (λ day, default 0%Q (done_by_day !! day)) days.

Definition cumulative_done (done : list Q) (i : nat) : Q :=
  Qsum (take (S i) done).



(** No negative effort on an issue. *)
Definition nonneg_effort (float_of_str : string → option Q)
    (STORY_POINTS_FIELD_IDS : list string) (it : json) : Prop :=
  ∀ fj m q,
    dget it "fields" = Some fj →
    as_dict (por fj empty_dict) = Some m →
    _field_sp_from_fields float_of_str STORY_POINTS_FIELD_IDS m = Some q →
    (0 <= q)%Q.

(** A well-formed issue of the agile endpoint: a dict whose [fields] member,
    if any, is a dict. *)
Definition issue_ok (it : json) : Prop :=
  ∃ im f, it = JObj im
          ∧ por (default JNull (im !! "fields")) empty_dict = JObj f.

(** The field list the burndown asks for. *)
Definition burndown_fields (STORY_POINTS_FIELD_IDS : list string)
  : list string :=
  ["resolutiondate"] ++ STORY_POINTS_FIELD_IDS
  ++ ["issuetype"; "status"; "summary"].

End Series.

Export Series.

(* ===================================================================== *)
(** ** Cross-epic action items *)
(* ===================================================================== *)

Module ActionItems.

(** Open rows [(key, summary, assignee, ageing, status)], kept with their
    age while they are collected; done rows [(key, summary, assignee,
    status)]. *)
Definition open_row : Type := json * json * json * string * json.
Definition done_row : Type := json * json * json * json.

Section WithEnv.
Variable datetime_of_str : string → option datetime.
Variable now_date : Z.
(** [STORY_TYPES], read from the environment. *)
Variable STORY_TYPES : list string.

(** [_pull_common(it_fields)]:
<<
    summary = it_fields.get("summary") or "-"
    assignee = (it_fields.get("assignee") or {}).get("displayName") or "-"
    status   = (it_fields.get("status") or {}).get("name") or "-"
    status_cat = ((it_fields.get("status") or {}).get("statusCategory") or {}).get("key")
    created_dt = parse_jira_date(it_fields.get("created"))
    age = working_days_since(created_dt)
    return summary, assignee, status, status_cat, age
>> *)
Definition _pull_common (it_fields : json)
  : option (json * json * json * json * Z) :=
  sm ← dget it_fields "summary";
  let summary := por sm (JStr "-") in
  a ← dget it_fields "assignee";
  dn ← dget (por a empty_dict) "displayName";
  let assignee := por dn (JStr "-") in
  s ← dget it_fields "status";
  n ← dget (por s empty_dict) "name";
  let status := por n (JStr "-") in
  c ← dget (por s empty_dict) "statusCategory";
  status_cat ← dget (por c empty_dict) "key";
  cr ← dget it_fields "created";
  let created_dt := parse_jira_date datetime_of_str cr in
  age ← working_days_since now_date (ADateTime <$> created_dt) None;
  Some (summary, assignee, status, status_cat, age).

(** [f"{age} days"]. *)
Definition ageing_str (age : Z) : string := (pretty age ++ " days")%string.

(** The row appended for an issue [key] with fields [f], to
    [open_tmp] or to [done_rows]. *)
Definition add_row (key f : json) (open_tmp : list (Z * open_row))
    (done_rows : list done_row)
  : option (list (Z * open_row) * list done_row) :=
  '(summary, assignee, status, status_cat, age) ← _pull_common f;
  if eq_str status_cat "done"
  then Some (open_tmp, done_rows ++ [(key, summary, assignee, status)])
  else Some (open_tmp ++ [(age, (key, summary, assignee, ageing_str age, status))],
             done_rows).

(** The inner loop over the sub-tasks of a parent:
<<
    for st in f.get("subtasks") or []:
        skey = st.get("key") or st.get("id")
        if skey: subtask_keys.append(skey)
>> *)
Fixpoint add_subtask_keys (subtasks : list json) (subtask_keys : list json)
  : option (list json) :=
  match subtasks with
  | [] => Some subtask_keys
  | st :: rest =>
      k ← dget st "key";
      skey ← (if truthy k then Some k else dget st "id");
      add_subtask_keys rest
        (if truthy skey then subtask_keys ++ [skey] else subtask_keys)
  end.

(** [{t.lower() for t in STORY_TYPES} | {"story", "task"}]. *)
Definition allowed_parent_types : list string :=
  map lower STORY_TYPES ++ ["story"; "task"].

(** The loop over the parents:
<<
    for it in issues:
        key = it.get("key") or ""
        f = it.get("fields") or {}
        itype = ((f.get("issuetype") or {}).get("name") or "").strip().lower()
        if itype not in allowed_parent_types: continue
        summary, assignee, status, status_cat, age = _pull_common(f)
        if status_cat == "done": done_rows.append((key, summary, assignee, status))
        else: open_tmp.append((age, (key, summary, assignee, f"{age} days", status)))
        for st in f.get("subtasks") or []: ...
>> *)
Fixpoint parent_rows (issues : list json) (open_tmp : list (Z * open_row))
    (done_rows : list done_row) (subtask_keys : list json)
  : option (list (Z * open_row) * list done_row * list json) :=
  match issues with
  | [] => Some (open_tmp, done_rows, subtask_keys)
  | it :: rest =>
      k ← dget it "key";
      let key := por k (JStr "") in
      fj ← dget it "fields";
      let f := por fj empty_dict in
      ty ← dget f "issuetype";
      nm ← dget (por ty empty_dict) "name";
      t ← str_of (por nm (JStr ""));
      let itype := lower (strip t) in
      if negb (str_in itype allowed_parent_types)
      then parent_rows rest open_tmp done_rows subtask_keys
      else
        '(open_tmp', done_rows') ← add_row key f open_tmp done_rows;
        sj ← dget f "subtasks";
        subtasks ← as_list (por sj empty_list);
        subtask_keys' ← add_subtask_keys subtasks subtask_keys;
        parent_rows rest open_tmp' done_rows' subtask_keys'
  end.

Section WithUpstream.
Context {upstream : Type}.
(** The tracker as seen through [get_json] on the single-issue endpoint:
    the decoded reply for an issue key and a field list, or a failure. *)
Variable get_issue :
  upstream → json → list string → upstream * option json.

(** [get_issue_fields(issue_key, fields)]:
<<
    try:
        return (get_json(url, J_HEADERS, params).get("fields") or {})
    except Exception as e:
        print(...)
        return {}
>> *)
Definition get_issue_fields (issue_key : json) (fields : list string)
    (st : upstream) : upstream * json :=
  match get_issue st issue_key fields with
  | (st', Some data) =>
      (st', match dget data "fields" with
            | Some f => por f empty_dict
            | None => empty_dict
            end)
  | (st', None) => (st', empty_dict)
  end.

(** The loop over the sub-task keys:
<<
    for sk in subtask_keys:
        sf = get_issue_fields(sk, ["status", "assignee", "summary", "created"])
        summary, assignee, status, status_cat, age = _pull_common(sf or {})
        if status_cat == "done": done_rows.append((sk, summary, assignee, status))
        else: open_tmp.append((age, (sk, summary, assignee, f"{age} days", status)))
>> *)
Fixpoint subtask_rows (subtask_keys : list json) (st : upstream)
    (open_tmp : list (Z * open_row)) (done_rows : list done_row)
  : upstream * option (list (Z * open_row) * list done_row) :=
  match subtask_keys with
  | [] => (st, Some (open_tmp, done_rows))
  | sk :: rest =>
      let '(st', sf) :=
        get_issue_fields sk ["status"; "assignee"; "summary"; "created"] st in
      match add_row sk (por sf empty_dict) open_tmp done_rows with
      | None => (st', None)
      | Some (open_tmp', done_rows') =>
          subtask_rows rest st' open_tmp' done_rows'
      end
  end.

(** [fetch_epic_action_items] from the point where the two paging steps
    have gathered the epic's [issues]: the open rows, oldest first, and the
    done rows in the order they were appended (the final ordering of the
    done rows is not modelled). *)
Definition fetch_epic_action_items (issues : list json) (st : upstream)
  : upstream * option (list open_row * list done_row) :=
  match parent_rows issues [] [] [] with
  | None => (st, None)
  | Some (open_tmp, done_rows, subtask_keys) =>
      match subtask_rows subtask_keys st open_tmp done_rows with
      | (st', None) => (st', None)
      | (st', Some (open_tmp', done_rows')) =>
          (st', Some (map snd (sort_desc Z.ltb fst open_tmp'), done_rows'))
      end
  end.

End WithUpstream.
End WithEnv.

(** The row of a sub-task whose fields could not be read. *)
Definition degraded_row (sk : json) : Z * open_row :=
  (0, (sk, JStr "-", JStr "-", "0 days", JStr "-")).

End ActionItems.

Export ActionItems.

(* ===================================================================== *)
(** ** Sample data *)
(* ===================================================================== *)

Module Fixtures.

Definition obj (kvs : list (string * json)) : json := JObj (list_to_map kvs).
Definition jnum (z : Z) : json := JNum (inject_Z z).

(** A decimal reader for [float(s)] on digit strings, and ISO readers for
    [date.fromisoformat] and the parsing chain of [parse_jira_date] on
    [YYYY-MM-DD...] strings. *)
Definition digit (a : ascii) : option Z :=
  let n := nat_of_ascii a in
  if (Nat.leb 48 n && Nat.leb n 57)%bool then Some (Z.of_nat (n - 48)) else None.

Fixpoint digits (n : nat) (s : string) (acc : Z) : option (Z * string) :=
  match n with
  | O => Some (acc, s)
  | S n' =>
      match s with
      | EmptyString => None
      | String a r => d ← digit a; digits n' r (10 * acc + d)
      end
  end.

Definition float_of_digits (s : string) : option Q :=
  match digits (String.length s) s 0 with
  | Some (z, _) => if String.eqb s "" then None else Some (inject_Z z)
  | None => None
  end.

Definition dash (s : string) : option string :=
  match s with
  | String a r => if Ascii.eqb a "-"%char then Some r else None
  | EmptyString => None
  end.

Definition days_in_month (y m : Z) : Z :=
  if m =? 2 then (if is_leap y then 29 else 28)
  else if (m =? 4) || (m =? 6) || (m =? 9) || (m =? 11) then 30 else 31.

(** The date at the head of [s] and what follows it. *)
Definition iso_date_prefix (s : string) : option (Z * string) :=
  '(y, r1) ← digits 4 s 0;
  r2 ← dash r1;
  '(m, r3) ← digits 2 r2 0;
  r4 ← dash r3;
  '(d, r5) ← digits 2 r4 0;
  if (1 <=? y) && (1 <=? m) && (m <=? 12) && (1 <=? d)
     && (d <=? days_in_month y m)
  then Some (ymd y m d, r5) else None.

Definition date_of_iso (s : string) : option Z :=
  '(d, rest) ← iso_date_prefix s;
  if String.eqb rest "" then Some d else None.

Definition datetime_of_iso (s : string) : option datetime :=
  '(d, _) ← iso_date_prefix s;
  Some (DateTime d 0).

(** A sprint report: two completed items, one of them added mid-sprint, and
    one item not completed. *)
Definition report_item (key : string) (points : Z) : json :=
  obj [("key", JStr key);
       ("estimateStatistic", obj [("statFieldValue", obj [("value", jnum points)])])].

Definition completed_items : list json :=
  [report_item "GV-1" 20; report_item "GV-2" 15].
Definition not_completed_items : list json := [report_item "GV-3" 15].
Definition added_keys : gmap string json := {["GV-2" := JBool true]}.

Definition sample_contents : gmap string json :=
  list_to_map
    [("completedIssues", JArr completed_items);
     ("issuesNotCompletedInCurrentSprint", JArr not_completed_items);
     ("issueKeysAddedDuringSprint", JObj added_keys)].

Definition sample_sprint : json :=
  obj [("startDate", JStr "2025-01-06T09:00:00.000+0000");
       ("endDate", JStr "2025-01-08T09:00:00.000+0000")].

Definition sample_report_fields : gmap string json :=
  list_to_map [("contents", JObj sample_contents); ("sprint", sample_sprint)].

Definition sample_report : json := JObj sample_report_fields.

(** A velocity reply that knows sprint 42 only. *)
Definition velocity_entries_42 : gmap string json :=
  {["42" := obj [("estimated", obj [("value", jnum 50)]);
                 ("completed", obj [("value", jnum 35)])]]}.

Definition velocity_reply_42 : json :=
  obj [("velocityStatEntries", JObj velocity_entries_42)].

(** Issues as the agile endpoint returns them. *)
Definition issue (key type_name status_name category : string)
    (more : list (string * json)) : json :=
  obj [("key", JStr key);
       ("fields",
        obj ([("summary", JStr ("Summary of " ++ key)%string);
              ("issuetype", obj [("name", JStr type_name)]);
              ("status", obj [("name", JStr status_name);
                              ("statusCategory", obj [("key", JStr category)])])]
             ++ more))].

Definition sp_fields : list string := ["customfield_10002"; "customfield_10004"].

Definition cancelled_story : json :=
  issue "GV-9" "Story" "Cancelled" "done" [].

Definition cancelled_tech_debt : json :=
  issue "GV-8" "Task" " CANCELED " "done" [("customfield_10001", JStr "GV-2398")].

Definition done_tech_debt : json :=
  issue "GV-7" "Task" "Done" "done"
        [("customfield_10001", JStr "GV-2398"); ("customfield_10002", jnum 3)].



Definition story_second_field_fields : gmap string json :=
  list_to_map [("summary", JStr "Estimated in the other field");
               ("issuetype", obj [("name", JStr "Story")]);
               ("status", obj [("name", JStr "Open")]);
               ("customfield_10004", jnum 3)].




(** A tracker that answers every page request with the same issues from
    offset 0 on, whatever the filter. *)
Definition serve_all (issues : list json) (st : unit) (rq : page_request)
  : unit * option (list json) :=
  (st, Some (take (rq_max_results rq) (drop (rq_start_at rq) issues))).

(** A tracker that rejects every filter expression. *)
Definition serve_unfiltered (issues : list json) (st : unit)
    (rq : page_request) : unit * option (list json) :=
  match rq_jql rq with
  | Some _ => (st, None)
  | None => serve_all issues st rq
  end.

(** A tracker whose list grows between two requests: the first page holds
    A and B; before the second request a new issue is put in front, which
    moves B to the offset the second request starts at.  The state counts
    the requests served. *)
Definition issue_A : json := issue "GV-1" "Story" "Done" "done" [].
Definition issue_B : json := issue "GV-2" "Story" "Done" "done" [].
Definition issue_N : json := issue "GV-3" "Story" "To Do" "new" [].

Definition serve_shifting (served : nat) (rq : page_request)
  : nat * option (list json) :=
  let issues := match served with
                | O => [issue_A; issue_B]
                | _ => [issue_N; issue_A; issue_B]
                end in
  (S served, Some (take (rq_max_results rq) (drop (rq_start_at rq) issues))).

(** A tracker whose single-issue endpoint always fails. *)
Definition issue_unreachable (st : unit) (key : json) (fields : list string)
  : unit * option json := (st, None).

Definition parent_with_subtask : json :=
  issue "GV-10" "Story" "In Progress" "indeterminate"
        [("subtasks", JArr [obj [("key", JStr "GV-11")]])].

(** Raw metric rows: one day of the range has data. *)
Definition metric_rows : list json :=
  [obj [("date", JStr "2025-01-07"); ("coding_min", jnum 120)]].

(** An issue resolved on the second sprint day with a negative estimate. *)
Definition negative_estimate : json :=
  issue "GV-30" "Story" "Done" "done"
        [("resolutiondate", JStr "2025-01-07T10:00:00.000+0000");
         ("customfield_10002", jnum (-5))].

Definition positive_estimate : json :=
  issue "GV-31" "Story" "Done" "done"
        [("resolutiondate", JStr "2025-01-07T10:00:00.000+0000");
         ("customfield_10002", jnum 4)].

(** A ten-day sprint with 50 committed: efforts of 20 and 15 are resolved
    on its second and fifth day, an item of 15 stays open. *)
Definition ten_day_report : json :=
  obj [("sprint", obj [("startDate", JStr "2025-01-06T09:00:00.000+0000");
                       ("endDate", JStr "2025-01-20T09:00:00.000+0000");
                       ("completeDate", JStr "2025-01-15T17:00:00.000+0000")]);
       ("contents",
        obj [("completedIssues", JArr [report_item "GV-41" 20; report_item "GV-42" 15]);
             ("issuesNotCompletedInCurrentSprint", JArr [report_item "GV-43" 15])])].

Definition ten_day_issues : list json :=
  [issue "GV-41" "Story" "Done" "done"
         [("resolutiondate", JStr "2025-01-07T10:00:00.000+0000");
          ("customfield_10002", jnum 20)];
   issue "GV-42" "Story" "Done" "done"
         [("resolutiondate", JStr "2025-01-10T10:00:00.000+0000");
          ("customfield_10004", jnum 15)];
   issue "GV-43" "Story" "In Progress" "indeterminate"
         [("customfield_10002", jnum 15)]].

End Fixtures.

Export Fixtures.

(* ===================================================================== *)
(** ** HTTP helpers: retries and back-off *)
(* ===================================================================== *)

Module Transport.

Definition RETRY_MAX_TRIES : Z := 4.
Definition RETRY_BASE_DELAY : Q := 8 # 10.

(** [min(a, b)] on floats: the first argument unless the second is smaller. *)
Definition pymin (a b : Q) : Q := if Qle_bool a b then a else b.

(** The delay of [_sleep_backoff(i)]:
    [min(RETRY_BASE_DELAY * (2**(i-1)), 6.0)]. *)
Definition backoff_delay (i : Z) : Q :=
  pymin (RETRY_BASE_DELAY * 2 ^ (i - 1))%Q 6%Q.

(** [_sleep_backoff(i)]: [time.sleep] is recorded in the list of the delays
    slept so far. *)
Definition _sleep_backoff (i : Z) (slept : list Q) : list Q :=
  slept ++ [backoff_delay i].

(** One pass through the [try] block of [request_with_retries]
    ([requests.request], [raise_for_status], [r.json()]): the value it
    returns, one of the exceptions the [except] clause names ([HTTPError],
    [Timeout], [ConnectionError], [RuntimeError], [ValueError], which
    includes a body that is not JSON), or any other exception. *)
Inductive attempt (A : Type) : Type :=
| Replied (v : A)
| Failed
| Crashed.
Arguments Replied {A} v.
Arguments Failed {A}.
Arguments Crashed {A}.

(** How a call ends: with a value, with the [RuntimeError] raised after the
    loop, or with an exception the loop did not catch. *)
Inductive outcome (A : Type) : Type :=
| Returned (v : A)
| GaveUp
| Propagated.
Arguments Returned {A} v.
Arguments GaveUp {A}.
Arguments Propagated {A}.

Section WithNetwork.
Context {net A : Type}.
(** The remote end for one fixed request: each attempt may change its state. *)
Variable send : net → net * attempt A.

(** The loop of [request_with_retries], [n] iterations left, [i] the loop
    variable:
<<
    for i in range(1, RETRY_MAX_TRIES+1):
        try:
            r = requests.request(...)
            ...
            r.raise_for_status()
            return r.json() if expect_json else r
        except (HTTPError, Timeout, ConnectionError, RuntimeError, ValueError) as e:
            last = e
            print(msg, file=sys.stderr)
            if i < RETRY_MAX_TRIES:
                _sleep_backoff(i)
    raise RuntimeError(...)
>> *)
Fixpoint retry_loop (n : nat) (i : Z) (st : net) (slept : list Q)
  : net * list Q * outcome A :=
  match n with
  | O => (st, slept, GaveUp)
  | S n' =>
      match send st with
      | (st', Replied v) => (st', slept, Returned v)
      | (st', Crashed) => (st', slept, Propagated)
      | (st', Failed) =>
          retry_loop n' (i + 1) st'
            (if i <? RETRY_MAX_TRIES then _sleep_backoff i slept else slept)
      end
  end.

Definition request_with_retries (st : net) (slept : list Q)
  : net * list Q * outcome A :=
  retry_loop (Z.to_nat RETRY_MAX_TRIES) 1 st slept.

(** Specification side: the state of the remote end after [j] attempts, and
    the outcome of attempt number [j + 1]. *)
Fixpoint net_after (j : nat) (st : net) : net :=
  match j with
  | O => st
  | S j' => net_after j' (fst (send st))
  end.

Definition attempt_no (j : nat) (st : net) : attempt A :=
  snd (send (net_after j st)).

End WithNetwork.

(** How a call ends when an attempt does not fail. *)
Definition outcome_of {A} (a : attempt A) : outcome A :=
  match a with
  | Replied v => Returned v
  | Failed => GaveUp
  | Crashed => Propagated
  end.

End Transport.

Export Transport.

(* ===================================================================== *)
(** ** Text helpers *)
(* ===================================================================== *)

Module Text.

(** [s.replace(old, new)] for a one-character [old]. *)
Fixpoint replace_char (old : ascii) (new s : string) : string :=
  match s with
  | EmptyString => EmptyString
  | String a r =>
      if Ascii.eqb a old then (new ++ replace_char old new r)%string
      else String a (replace_char old new r)
  end.

(** The double quote character. *)
Definition DQUOTE : ascii := "034"%char.

(** [escape_html(s)]:
<<
    return (s or "").replace("&","&amp;").replace("<","&lt;")
                    .replace(">","&gt;").replace(DQUOTE,"&quot;")
>>
    where [DQUOTE] stands for the string made of one double quote;
    [AttributeError] when [s] is true and not a string. *)
Definition escape_html (s : json) : option string :=
  t ← str_of (por s (JStr ""));
  Some (replace_char DQUOTE "&quot;"
          (replace_char ">" "&gt;"
             (replace_char "<" "&lt;"
                (replace_char "&" "&amp;" t)))).

(** [t[:n]]. *)
Fixpoint str_take (n : nat) (t : string) : string :=
  match n, t with
  | S n', String a r => String a (str_take n' r)
  | _, _ => EmptyString
  end.

(** [s.rstrip()] on ASCII text. *)
Definition rstrip (s : string) : string := str_rev (lstrip (str_rev s)).

(** What precedes the last space of [s], if [s] has a space. *)
Fixpoint before_last_space (s : string) : option string :=
  match s with
  | EmptyString => None
  | String a r =>
      match before_last_space r with
      | Some p => Some (String a p)
      | None => if Ascii.eqb a " " then Some EmptyString else None
      end
  end.

(** [s.rsplit(" ", 1)[0]]. *)
Definition rsplit_space_head (s : string) : string :=
  default s (before_last_space s).

(** The ellipsis character appended to a shortened text. *)
Definition ELLIPSIS : string := "…".

(** [truncate_text(text, max_chars)], for a [max_chars] that is not
    negative:
<<
    t = (text or "").strip()
    if len(t) <= max_chars: return t
    cut = t[:max_chars].rsplit(" ", 1)[0]
    return (cut or t[:max_chars]).rstrip() + "…"
>> *)
Definition truncate_text (text : json) (max_chars : nat) : option string :=
  t0 ← str_of (por text (JStr ""));
  let t := strip t0 in
  if Nat.leb (String.length t) max_chars then Some t
  else
    let cut := rsplit_space_head (str_take max_chars t) in
    Some (rstrip (if String.eqb cut "" then str_take max_chars t else cut)
          ++ ELLIPSIS)%string.

(** Specification side: escaping one character at a time. *)
Definition escape_char (a : ascii) : string :=
  if Ascii.eqb a "&" then "&amp;"
  else if Ascii.eqb a "<" then "&lt;"
  else if Ascii.eqb a ">" then "&gt;"
  else if Ascii.eqb a DQUOTE then "&quot;"
  else String a EmptyString.

Fixpoint escape_each (s : string) : string :=
  match s with
  | EmptyString => EmptyString
  | String a r => (escape_char a ++ escape_each r)%string
  end.

End Text.

Export Text.

(* ===================================================================== *)
(** ** Working days of a sprint *)
(* ===================================================================== *)

Module Calendar.

(** [working_days_inclusive(start_dt, end_dt)]:
<<
    if not start_dt or not end_dt: return 0
    s = start_dt.date() if isinstance(start_dt, datetime.datetime) else start_dt
    e = end_dt.date() if isinstance(end_dt, datetime.datetime) else end_dt
    if e < s: return 0
    d, cnt = s, 0
    one = datetime.timedelta(days=1)
    while d <= e:
        if d.weekday() < 5: cnt += 1
        d += one
    return cnt
>>
    The loop is the one of [working_days_since]; the fuel is the number of
    days from [s] to [e]. *)
Definition working_days_inclusive (start_dt end_dt : option date_like)
  : option Z :=
  match start_dt, end_dt with
  | Some sd, Some ed =>
      let s := to_date sd in
      let e := to_date ed in
      if e <? s then Some 0
      else count_loop (Z.to_nat (e - s + 1)) s e 0
  | _, _ => Some 0
  end.

End Calendar.

Export Calendar.

(* ===================================================================== *)
(** ** Field discovery, boards and sprints *)
(* ===================================================================== *)

Module Discovery.

(** How a call ends: it returns, an exception propagates, the program is
    stopped by [sys.exit], or a [while True] loop has not ended within the
    number of iterations looked at. *)
Inductive result (A : Type) : Type :=
| Return (a : A)
| Raises
| Exits (code : Z)
| Unfinished.
Arguments Return {A} a.
Arguments Raises {A}.
Arguments Exits {A} code.
Arguments Unfinished {A}.

(** [x[k]]: [KeyError] on a missing key, [TypeError] unless [x] is a dict. *)
Definition dindex (x : json) (k : string) : option json :=
  match x with
  | JObj m => m !! k
  | _ => None
  end.

(** [needle in hay] and [s.startswith(p)] on strings. *)
Fixpoint contains (needle hay : string) : bool :=
  String.prefix needle hay
  || match hay with
     | EmptyString => false
     | String _ r => contains needle r
     end.

Definition startswith (s p : string) : bool := String.prefix p s.

(** [x in seen] for a set [seen], kept as the list of its elements:
    [TypeError] when [x] is unhashable. *)
Definition pyset_mem (x : json) (seen : list json) : option bool :=
  if hashable x then Some (existsb (key_eqb x) seen) else None.

(** A list comprehension [[x for x in xs if p(x)]] whose test may raise. *)
Fixpoint filter_opt (p : json → option bool) (xs : list json)
  : option (list json) :=
  match xs with
  | [] => Some []
  | x :: rest =>
      b ← p x;
      ys ← filter_opt p rest;
      Some (if b : bool then x :: ys else ys)
  end.

(** [(f.get("name") or "").strip().lower() == nm.lower()]. *)
Definition named (nm : string) (f : json) : option bool :=
  n ← dget f "name";
  t ← str_of (por n (JStr ""));
  Some (String.eqb (lower (strip t)) (lower nm)).

(** The search for the epic-link field; the generator stops at the first
    match, so later fields are not looked at:
<<
    next((f["id"] for f in fields
          if (f.get("name") or "").strip().lower() == "epic link"), None)
>> *)
Fixpoint find_epic_link (fields : list json) : option json :=
  match fields with
  | [] => Some JNull
  | f :: rest =>
      b ← named "epic link" f;
      if b : bool then dindex f "id" else find_epic_link rest
  end.

(** The test of the candidate effort fields:
<<
    "story point" in (f.get("name","").lower())
    and (f.get("schema") or {}).get("type") == "number"
    and f.get("id","").startswith("customfield_")
>> *)
Definition is_sp_candidate (f : json) : option bool :=
  n ← dget_def f "name" (JStr "");
  t ← str_of n;
  if negb (contains "story point" (lower t)) then Some false
  else
    sc ← dget f "schema";
    ty ← dget (por sc empty_dict) "type";
    if negb (eq_str ty "number") then Some false
    else
      i ← dget_def f "id" (JStr "");
      s ← str_of i;
      Some (startswith s "customfield_").

(** The inner loop of the preference search:
<<
    for f in cands:
        if (f.get("name") or "").strip().lower() == nm.lower():
            pref = f; break
>> *)
Fixpoint first_named (nm : string) (cands : list json) (pref : json)
  : option json :=
  match cands with
  | [] => Some pref
  | f :: rest =>
      b ← named nm f;
      if b : bool then Some f else first_named nm rest pref
  end.

(** The outer loop:
<<
    for nm in ("Story Points", "Story Point"):
        for f in cands: ...
        if pref: break
>> *)
Fixpoint preferred (names : list string) (cands : list json) (pref : json)
  : option json :=
  match names with
  | [] => Some pref
  | nm :: more =>
      pref' ← first_named nm cands pref;
      if truthy pref' then Some pref' else preferred more cands pref'
  end.

(** The loop that lists the ids, [ids] being both the list and the set
    [seen]:
<<
    for f in cands:
        fid = f["id"]
        if fid not in seen:
            STORY_POINTS_FIELD_IDS.append(fid); seen.add(fid)
>> *)
Fixpoint add_candidate_ids (cands : list json) (ids : list json)
  : option (list json) :=
  match cands with
  | [] => Some ids
  | f :: rest =>
      fid ← dindex f "id";
      seen ← pyset_mem fid ids;
      add_candidate_ids rest (if seen : bool then ids else ids ++ [fid])
  end.

(** The globals set by [discover_field_ids]. *)
Record field_ids := FieldIds {
  EPIC_LINK_FIELD_ID : json;
  STORY_POINTS_FIELD_ID : json;
  STORY_POINTS_FIELD_IDS : list json
}.

(** [discover_field_ids()] on the field catalogue [fields], the decoded
    reply of the field endpoint:
<<
    EPIC_LINK_FIELD_ID = next(...)
    cands = [f for f in fields if ...]
    pref = None
    for nm in ("Story Points", "Story Point"): ...
    STORY_POINTS_FIELD_ID = (pref or (cands[0] if cands else {})).get("id")
    STORY_POINTS_FIELD_IDS = []
    seen = set()
    if STORY_POINTS_FIELD_ID:
        STORY_POINTS_FIELD_IDS.append(STORY_POINTS_FIELD_ID); seen.add(STORY_POINTS_FIELD_ID)
    for f in cands: ...
    ...
    if not EPIC_LINK_FIELD_ID: sys.exit(2)
    if not STORY_POINTS_FIELD_IDS: sys.exit(2)
>>
    [SP_CLAUSE_TOKENS], which is only printed, is left out. *)
Definition discover_try (fields : list json) : option (result field_ids) :=
  epic ← find_epic_link fields;
  cands ← filter_opt is_sp_candidate fields;
  pref ← preferred ["Story Points"; "Story Point"] cands JNull;
  primary ← dget (por pref (match cands with
                            | c :: _ => c
                            | [] => empty_dict
                            end)) "id";
  ids0 ← (if truthy primary
          then (if hashable primary then Some [primary] else None)
          else Some []);
  ids ← add_candidate_ids cands ids0;
  if negb (truthy epic) then Some (Exits 2)
  else if negb (truthy (JArr ids)) then Some (Exits 2)
  else Some (Return (FieldIds epic primary ids)).

Definition discover_field_ids (fields : list json) : result field_ids :=
  default Raises (discover_try fields).

Section WithUpstream.
Context {upstream : Type}.
(** The tracker as seen through [get_json] on a listing endpoint: it answers
    a request for the page that starts at an offset with the [values] array
    of the reply ([data.get("values", []) or []]), or fails. *)
Variable get_values_page : upstream → nat → upstream * option (list json).

(** [list_scrum_boards()], [fuel] iterations of its loop:
<<
    boards, start = [], 0
    while True:
        data = get_json(..., {"type":"scrum","startAt":start,"maxResults":50})
        vals = data.get("values", []) or []
        boards.extend(vals)
        if not vals or len(vals) < 50: break
        start += len(vals)
    return boards
>> *)
Fixpoint boards_loop (fuel : nat) (st : upstream) (start : nat)
    (boards : list json) : upstream * result (list json) :=
  match fuel with
  | O => (st, Unfinished)
  | S fuel' =>
      match get_values_page st start with
      | (st', None) => (st', Raises)
      | (st', Some vals) =>
          let boards' := boards ++ vals in
          if Nat.eqb (length vals) 0 || Nat.ltb (length vals) 50
          then (st', Return boards')
          else boards_loop fuel' st' (start + length vals)%nat boards'
      end
  end.

Definition list_scrum_boards (fuel : nat) (st : upstream)
  : upstream * result (list json) :=
  boards_loop fuel st 0%nat [].

(** The inner loop of [list_all_closed_sprints], [seen] kept as a list:
<<
    for s in vals:
        sid = s.get("id")
        if sid in seen: continue
        seen.add(sid); sprints.append(s)
>> *)
Fixpoint add_unseen (vals seen sprints : list json)
  : option (list json * list json) :=
  match vals with
  | [] => Some (seen, sprints)
  | s :: rest =>
      sid ← dget s "id";
      b ← pyset_mem sid seen;
      if b : bool then add_unseen rest seen sprints
      else add_unseen rest (seen ++ [sid]) (sprints ++ [s])
  end.

(** [list_all_closed_sprints(board_id)], [fuel] iterations of its loop:
<<
    seen, sprints, start = set(), [], 0
    while True:
        data = get_json(..., {"state":"closed","startAt":start,"maxResults":50})
        vals = data.get("values", []) or []
        for s in vals: ...
        if not vals or len(vals) < 50: break
        start += len(vals)
    return sprints
>> *)
Fixpoint sprints_loop (fuel : nat) (st : upstream) (start : nat)
    (seen sprints : list json) : upstream * result (list json) :=
  match fuel with
  | O => (st, Unfinished)
  | S fuel' =>
      match get_values_page st start with
      | (st', None) => (st', Raises)
      | (st', Some vals) =>
          match add_unseen vals seen sprints with
          | None => (st', Raises)
          | Some (seen', sprints') =>
              if Nat.eqb (length vals) 0 || Nat.ltb (length vals) 50
              then (st', Return sprints')
              else sprints_loop fuel' st' (start + length vals)%nat
                                seen' sprints'
          end
      end
  end.

Definition list_all_closed_sprints (fuel : nat) (st : upstream)
  : upstream * result (list json) :=
  sprints_loop fuel st 0%nat [] [].

End WithUpstream.

(** [(b.get("name") or "").strip() == name.strip()]. *)
Definition exact_name (name : string) (b : json) : option bool :=
  n ← dget b "name";
  t ← str_of (por n (JStr ""));
  Some (String.eqb (strip t) (strip name)).

(** [name.lower() in (b.get("name","").lower())]. *)
Definition loose_name (name : string) (b : json) : option bool :=
  n ← dget_def b "name" (JStr "");
  t ← str_of n;
  Some (contains (lower name) (lower t)).

(** The choice of [find_board_by_name(name)] among the boards listed:
<<
    exact = [b for b in boards if (b.get("name") or "").strip() == name.strip()]
    if exact: return exact[0]
    ci = [b for b in boards if name.lower() in (b.get("name","").lower())]
    if len(ci) == 1: return ci[0]
    if ci: ...; sys.exit(2)
    ...; sys.exit(2)
>> *)
Definition choose_board (name : string) (boards : list json)
  : result json :=
  match filter_opt (exact_name name) boards with
  | None => Raises
  | Some (b :: _) => Return b
  | Some [] =>
      match filter_opt (loose_name name) boards with
      | None => Raises
      | Some [b] => Return b
      | Some _ => Exits 2
      end
  end.

(** [find_board_by_name(name)]: [boards = list_scrum_boards()], then the
    choice. *)
Definition find_board_by_name {upstream : Type}
    (get_values_page : upstream → nat → upstream * option (list json))
    (fuel : nat) (name : string) (st : upstream) : upstream * result json :=
  match list_scrum_boards get_values_page fuel st with
  | (st', Return boards) => (st', choose_board name boards)
  | (st', Raises) => (st', Raises)
  | (st', Exits c) => (st', Exits c)
  | (st', Unfinished) => (st', Unfinished)
  end.

(** Specification side: the id of a sprint or field record; the candidate
    effort fields of a catalogue; and the candidate the preference rule
    names: the first one called "Story Points", else the first one called
    "Story Point", else the first candidate. *)
Definition id_of (s : json) : json := default JNull (dget s "id").

Definition is_cand (f : json) : bool := default false (is_sp_candidate f).

Definition has_name (nm : string) (f : json) : bool :=
  default false (named nm f).

Definition candidates (fields : list json) : list json :=
  List.filter is_cand fields.

Definition preferred_candidate (cands : list json) : option json :=
  match List.find (has_name "Story Points") cands with
  | Some f => Some f
  | None =>
      match List.find (has_name "Story Point") cands with
      | Some f => Some f
      | None => head cands
      end
  end.

(** No two records of a list have equal ids, equality being that of set
    membership. *)
Definition distinct_ids (records : list json) : Prop :=
  ∀ (i j : nat) (s t : json),
    (i < j)%nat → records !! i = Some s → records !! j = Some t →
    key_eqb (id_of s) (id_of t) = false.

End Discovery.

Export Discovery.

(* ===================================================================== *)
(** ** Per-issue field cache *)
(* ===================================================================== *)

Module IssueCache.

Section WithUpstream.
Context {upstream : Type}.
Variable get_issue :
  upstream → json → list string → upstream * option json.

(** [_get_issue_fields_multi(issue_key, fields)], with the module-level dict
    [_ISSUE_FIELDS_CACHE] passed along:
<<
    if issue_key in _ISSUE_FIELDS_CACHE:
        return _ISSUE_FIELDS_CACHE[issue_key]
    _ISSUE_FIELDS_CACHE[issue_key] = get_issue_fields(issue_key, fields) or {}
    return _ISSUE_FIELDS_CACHE[issue_key]
>> *)
Definition _get_issue_fields_multi (issue_key : string) (fields : list string)
    (cache : gmap string json) (st : upstream)
  : gmap string json * upstream * json :=
  match cache !! issue_key with
  | Some v => (cache, st, v)
  | None =>
      let '(st', f) := get_issue_fields get_issue (JStr issue_key) fields st in
      let v := por f empty_dict in
      (<[issue_key := v]> cache, st', v)
  end.

(** Specification side: a run of calls, each for a key and a field list. *)
Fixpoint fetch_each (calls : list (string * list string))
    (cache : gmap string json) (st : upstream)
  : gmap string json * upstream :=
  match calls with
  | [] => (cache, st)
  | (k, fields) :: rest =>
      let '(cache', st', _) := _get_issue_fields_multi k fields cache st in
      fetch_each rest cache' st'
  end.

End WithUpstream.

End IssueCache.

Export IssueCache.

(* ===================================================================== *)
(** ** Carry-over table *)
(* ===================================================================== *)

Module CarryOver.

(** The set comprehension of [carry_over_items_with_sp], kept as a list:
<<
    keys = {it.get("key") for it in not_completed if it.get("key")}
>> *)
Fixpoint carry_keys (not_completed : list json) : option (list json) :=
  match not_completed with
  | [] => Some []
  | it :: rest =>
      k ← dget it "key";
      ks ← carry_keys rest;
      if truthy k then (if hashable k then Some (k :: ks) else None)
      else Some ks
  end.

Section WithConfig.
Variable float_of_str : string → option Q.
Variable STORY_POINTS_FIELD_IDS : list string.

(** The body of the loop of [carry_over_items_with_sp]:
<<
    key = it.get("key")
    if key not in keys: continue
    f = it.get("fields") or {}
    name = f.get("summary") or ""
    sp = _field_sp_from_fields(f)
    if sp is None: sp = float(sp_map.get(key, 0.0))
    status_name = ((f.get("status") or {}).get("name") or "").strip()
    rows.append((key, name, safe_float(sp, 0.0), status_name))
>> *)
Definition carry_over_row (keys : list json) (sp_map : pydict) (it : json)
  : option (option sp_row) :=
  key ← dget it "key";
  b ← pyset_mem key keys;
  if negb b then Some None
  else
    fj ← dget it "fields";
    let f := por fj empty_dict in
    s ← dget f "summary";
    let name := por s (JStr "") in
    sp ← resolve_sp float_of_str STORY_POINTS_FIELD_IDS sp_map key f;
    status_name ← status_name_of f;
    Some (Some (key, name, sp, status_name)).

Section WithUpstream.
Context {upstream : Type}.
Variable get_issue_page :
  upstream → page_request → upstream * option (list json).

(** [carry_over_items_with_sp(report, sprint_id)]:
<<
    contents = (report or {}).get("contents", {}) or {}
    not_completed = contents.get("issuesNotCompletedInCurrentSprint", []) or []
    keys = {...}
    if not keys: return []
    fields = ["summary", "issuetype", "status"] + STORY_POINTS_FIELD_IDS
    issues, _ = agile_sprint_issues_paginated(sprint_id, None, fields, max_pages=200, page_size=200)
    sp_map = build_sp_map_from_report(report)
    rows = []
    for it in issues: ...
    rows.sort(key=lambda r: (r[2] or 0.0), reverse=True)
    return rows
>> *)
Definition carry_over_items_with_sp (report : json) (sprint_id : Z)
    (st : upstream) : upstream * option (list sp_row) :=
  match (c ← dget_def (por report empty_dict) "contents" empty_dict;
         nj ← dget_def (por c empty_dict)
                       "issuesNotCompletedInCurrentSprint" empty_list;
         not_completed ← as_list (por nj empty_list);
         carry_keys not_completed) with
  | None => (st, None)
  | Some [] => (st, Some [])
  | Some keys =>
      let fields := ["summary"; "issuetype"; "status"]
                    ++ STORY_POINTS_FIELD_IDS in
      match agile_sprint_issues_paginated get_issue_page sprint_id None
              fields 200 200 st with
      | (st', None) => (st', None)
      | (st', Some (issues, _)) =>
          (st',
           sp_map ← build_sp_map_from_report float_of_str report;
           rows ← collect_rows (carry_over_row keys sp_map) issues;
           Some (sort_desc Qltb sp_of_row rows))
      end
  end.

End WithUpstream.
End WithConfig.

(** Specification side: the items a report lists as not completed, and a
    list in which no element is followed by one with a larger sort key. *)
Definition not_completed_of (report : json) : list json :=
  default []
    (c ← dget_def (por report empty_dict) "contents" empty_dict;
     nj ← dget_def (por c empty_dict)
                   "issuesNotCompletedInCurrentSprint" empty_list;
     as_list (por nj empty_list)).

Fixpoint descending {A K : Type} (ltb : K → K → bool) (key : A → K)
    (l : list A) : Prop :=
  match l with
  | [] => True
  | x :: r => Forall (λ y, ltb (key x) (key y) = false) r
              ∧ descending ltb key r
  end.

End CarryOver.

Export CarryOver.

(* ===================================================================== *)
(** ** Observing the requests of the walker *)
(* ===================================================================== *)

Module WalkerLog.

(** Specification side: the same tracker, with the page requests it has
    received recorded in order next to its state. *)
Definition logged {upstream : Type}
    (get_issue_page : upstream → page_request → upstream * option (list json))
    (st : upstream * list page_request) (rq : page_request)
  : (upstream * list page_request) * option (list json) :=
  let '(s, log) := st in
  let '(s', reply) := get_issue_page s rq in
  ((s', log ++ [rq]), reply).

(** The page requests of one walk: [n] at most, for consecutive pages. *)
Definition walk_requests (sprint_id : Z) (fields : list string)
    (page_size : nat) (jql : option string) (n : nat) : list page_request :=
  map (λ k : nat, PageRequest sprint_id (k * page_size) page_size fields jql)
      (seq 0 n).

End WalkerLog.

Export WalkerLog.

(* ===================================================================== *)
(** ** Reading the report estimates *)
(* ===================================================================== *)

Module ReportItems.

(** Specification side: the items of a report in the order
    [build_sp_map_from_report] runs over them, whether an item binds the
    key [k] in the map, and the last item that does. *)
Definition report_items (report : json) : list json :=
  default []
    (c ← dget_def report "contents" empty_dict;
     cj ← dget_def (por c empty_dict) "completedIssues" empty_list;
     nj ← dget_def (por c empty_dict)
                   "issuesNotCompletedInCurrentSprint" empty_list;
     concat_items (por cj empty_list) (por nj empty_list)).

Definition sets_key (k it : json) : bool :=
  match dget it "key" with
  | Some key => hashable key && key_eqb key k
  | None => false
  end.

Definition last_item_with_key (k : json) (items : list json) : option json :=
  List.find (sets_key k) (rev items).

End ReportItems.

Export ReportItems.

(* ===================================================================== *)
(** ** Delivery metrics *)
(* ===================================================================== *)

Module Metrics.

(** [s.split("T")[0]]: what precedes the first [T] of [s]. *)
Fixpoint before_first_T (s : string) : string :=
  match s with
  | EmptyString => EmptyString
  | String a r =>
      if Ascii.eqb a "T" then EmptyString else String a (before_first_T r)
  end.

(** [for x in v] on a decoded value: the elements of a list, the characters
    of a string, the keys of a dict; [TypeError] on anything else. *)
Definition py_iter (v : json) : option (list json) :=
  match v with
  | JArr l => Some l
  | JStr s => Some (chars s)
  | JObj m => Some (map (λ kv, JStr (fst kv)) (map_to_list m))
  | _ => None
  end.

(** The metric names of the reply and the row keys they are stored under. *)
Definition metric_keys : list (string * string) :=
  [("branch.time_to_pr:p50", "coding_min");
   ("branch.time_to_review:p50", "pickup_min");
   ("branch.review_time:p50", "review_min");
   ("branch.computed.cycle_time:p50", "cycle_min")].

(** The loop over one metrics dict; its keys are distinct and are stored
    under distinct row keys, so the order of [m.items()] does not matter:
<<
    for k, v in m.items():
        if k == "branch.time_to_pr:p50":              row["coding_min"] = v
        elif k == "branch.time_to_review:p50":        row["pickup_min"] = v
        elif k == "branch.review_time:p50":           row["review_min"] = v
        elif k == "branch.computed.cycle_time:p50":   row["cycle_min"]  = v
>> *)
Definition apply_metrics (m row : gmap string json) : gmap string json :=
  fold_left (λ (row : gmap string json) (sd : string * string),
               match m !! fst sd with
               | Some v => <[snd sd := v]> row
               | None => row
               end)
            metric_keys row.

(** [for m in slice_.get("metrics", []): ...]. *)
Fixpoint fill_metrics (metrics : list json) (row : gmap string json)
  : option (gmap string json) :=
  match metrics with
  | [] => Some row
  | m :: rest =>
      d ← as_dict m;
      fill_metrics rest (apply_metrics d row)
  end.

(** The row built for one slice of the reply:
<<
    after = slice_.get("after")
    row = {"date": (after or "").split("T")[0],
           "coding_min": None, "pickup_min": None, "review_min": None, "cycle_min": None}
    for m in slice_.get("metrics", []): ...
    rows.append(row)
>> *)
Definition slice_row (slice_ : json) : option json :=
  after ← dget slice_ "after";
  t ← str_of (por after (JStr ""));
  let row := list_to_map [("date", JStr (before_first_T t));
                          ("coding_min", JNull); ("pickup_min", JNull);
                          ("review_min", JNull); ("cycle_min", JNull)] in
  mj ← dget_def slice_ "metrics" empty_list;
  metrics ← py_iter mj;
  row' ← fill_metrics metrics row;
  Some (JObj row').

Fixpoint slice_rows (slices : list json) : option (list json) :=
  match slices with
  | [] => Some []
  | slice_ :: rest =>
      row ← slice_row slice_;
      rows ← slice_rows rest;
      Some (row :: rows)
  end.

(** [rows = []; for slice_ in data: ...; return rows]. *)
Definition measurement_rows (data : json) : option (list json) :=
  slices ← py_iter data;
  slice_rows slices.

(** What one [requests.post] of [linearb_measurements_daily] brings back
    when it does not raise and the status is accepted: status 204, or a
    decoded body. *)
Inductive lb_reply : Type :=
| NoContent
| Body (data : json).

Section WithNetwork.
Context {net : Type}.
(** The metrics service for one fixed request; [None] when the attempt
    raises before the rows are built (transport error, error status, body
    that is not JSON). *)
Variable post : net → net * option lb_reply.

(** The loop of [linearb_measurements_daily], [n] iterations left:
<<
    for i in range(1, RETRY_MAX_TRIES+1):
        try:
            r = requests.post(...)
            if r.status_code == 204: return []
            r.raise_for_status()
            data = r.json()
            rows = []
            for slice_ in data: ...
            return rows
        except Exception as e:
            last = e
            if i < RETRY_MAX_TRIES:
                print(...)
                _sleep_backoff(i)
    raise RuntimeError(...)
>>
    The result is [None] for the [RuntimeError]; the request body, built
    before the loop with [int(team_id)], is taken to exist. *)
Fixpoint measurements_loop (n : nat) (i : Z) (st : net) (slept : list Q)
  : net * list Q * option (list json) :=
  match n with
  | O => (st, slept, None)
  | S n' =>
      let retry st' :=
        measurements_loop n' (i + 1) st'
          (if i <? RETRY_MAX_TRIES then _sleep_backoff i slept else slept) in
      match post st with
      | (st', Some NoContent) => (st', slept, Some [])
      | (st', Some (Body data)) =>
          match measurement_rows data with
          | Some rows => (st', slept, Some rows)
          | None => retry st'
          end
      | (st', None) => retry st'
      end
  end.

Definition linearb_measurements_daily (st : net) (slept : list Q)
  : net * list Q * option (list json) :=
  measurements_loop (Z.to_nat RETRY_MAX_TRIES) 1 st slept.

End WithNetwork.

Section WithParsers.
Variable float_of_str : string → option Q.
Variable date_fromisoformat : string → option Z.

(** [[a + b + c for a, b, c in zip(xs, ys, zs)]]. *)
Fixpoint zip3_sum (xs ys zs : list Q) : list Q :=
  match xs, ys, zs with
  | a :: xs', b :: ys', c :: zs' => (a + b + c)%Q :: zip3_sum xs' ys' zs'
  | _, _, _ => []
  end.

(** The composite cycle series of [main]:
<<
    xs_coding,  hours_coding  = _lb_timeseries_complete(rows, start_date, end_date, "coding_min")
    xs_pickup,  hours_pickup  = _lb_timeseries_complete(rows, start_date, end_date, "pickup_min")
    xs_review,  hours_review  = _lb_timeseries_complete(rows, start_date, end_date, "review_min")
    ...
    hours_cycle_proxy = [a + b + c for a, b, c in zip(hours_coding, hours_pickup, hours_review)]
>>
    The result is the axis and the series charted as cycle time
    ([xs_coding] and [hours_cycle_proxy]). *)
Definition cycle_proxy (rows : list json) (start_date end_date : string)
  : option (list Z * list Q) :=
  '(xs_coding, hours_coding) ←
    _lb_timeseries_complete float_of_str date_fromisoformat rows
                            start_date end_date "coding_min";
  '(xs_pickup, hours_pickup) ←
    _lb_timeseries_complete float_of_str date_fromisoformat rows
                            start_date end_date "pickup_min";
  '(xs_review, hours_review) ←
    _lb_timeseries_complete float_of_str date_fromisoformat rows
                            start_date end_date "review_min";
  Some (xs_coding, zip3_sum hours_coding hours_pickup hours_review).

End WithParsers.

(** Specification side: the keys of a metric row, and one attempt of the
    metrics request seen as an attempt of the general retry loop, in which
    a body that cannot be turned into rows counts as a failure. *)
Definition row_keys : gset string :=
  {["date"; "coding_min"; "pickup_min"; "review_min"; "cycle_min"]}.

Definition as_attempt {net : Type} (post : net → net * option lb_reply)
    (st : net) : net * attempt (list json) :=
  match post st with
  | (st', Some NoContent) => (st', Replied [])
  | (st', Some (Body data)) =>
      (st', match measurement_rows data with
            | Some rows => Replied rows
            | None => Failed
            end)
  | (st', None) => (st', Failed)
  end.

Definition value_of {A : Type} (o : outcome A) : option A :=
  match o with
  | Returned v => Some v
  | _ => None
  end.

End Metrics.

Export Metrics.

(* ===================================================================== *)
(** ** More sample data *)
(* ===================================================================== *)

Module MoreFixtures.

(** A remote end that fails twice and then answers; one that always fails.
    The state counts the attempts. *)
Definition flaky (st : nat) : nat * attempt json :=
  (S st, if Nat.ltb st 2 then Failed else Replied (JStr "ok")).

Definition always_down (st : nat) : nat * attempt json := (S st, Failed).

(** A field catalogue: the epic link, two effort fields (the second one
    carries the preferred name), a text field with a matching name and the
    summary. *)
Definition catalogue_field (id name type : string) : json :=
  obj [("id", JStr id); ("name", JStr name);
       ("schema", obj [("type", JStr type)])].

Definition field_catalogue : list json :=
  [catalogue_field "summary" "Summary" "string";
   catalogue_field "customfield_10001" "Epic Link" "any";
   catalogue_field "customfield_10004" "Story point estimate" "number";
   catalogue_field "customfield_10002" " Story Points " "number";
   catalogue_field "customfield_10009" "Story Points notes" "string"].

(** A sprint listing served 50 at a time in which sprint 7 shows twice, and
    a board listing with one exact and two loose matches for "Growth". *)
Definition sprint_record (id : Z) : json :=
  obj [("id", jnum id); ("state", JStr "closed")].

Definition listed_sprints : list json :=
  [sprint_record 7; sprint_record 8; sprint_record 7].

Definition board_record (id : Z) (name : string) : json :=
  obj [("id", jnum id); ("name", JStr name)].

Definition listed_boards : list json :=
  [board_record 1 "Growth Platform"; board_record 2 "Growth";
   board_record 3 "growth ops"].

Definition serve_values (values : list json) (st : unit) (start : nat)
  : unit * option (list json) :=
  (st, Some (take 50 (drop start values))).

(** A tracker whose single-issue endpoint answers with a summary and counts
    the requests it serves. *)
Definition issue_served (st : nat) (key : json) (fields : list string)
  : nat * option json :=
  (S st, Some (obj [("fields", obj [("summary", JStr "Fetched once")])])).

(** A velocity reply whose entry for sprint 42 has a name and no values. *)
Definition velocity_entry_blank : gmap string json :=
  {["name" := JStr "Sprint 42"]}.

Definition velocity_entries_blank : gmap string json :=
  {["42" := JObj velocity_entry_blank]}.

Definition velocity_reply_blank : json :=
  obj [("velocityStatEntries", JObj velocity_entries_blank)].

(** A reply of the metrics service: one slice with a coding time. *)
Definition metrics_reply : json :=
  JArr [obj [("after", JStr "2025-01-07T00:00:00Z");
             ("metrics", JArr [obj [("branch.time_to_pr:p50", jnum 120)]])]].

(** A metrics service that is down once, then sends a body that is not a
    list of slices, then the reply above. *)
Definition metrics_service (st : nat) : nat * option lb_reply :=
  (S st,
   match st with
   | O => None
   | 1%nat => Some (Body (jnum 5))
   | _ => Some (Body metrics_reply)
   end).

End MoreFixtures.

Export MoreFixtures.

(* ===================================================================== *)
(** * Properties *)
(* ===================================================================== *)

(** ** Python values *)

Lemma truthy_dict_lookup (m : gmap string json) k v :
  m !! k = Some v → truthy (JObj m) = true.
Proof.
  intros H. simpl. destruct (size m) eqn:E; [|reflexivity].
  apply map_size_empty_iff in E. subst m. rewrite lookup_empty in H. discriminate.
Qed.

Lemma por_dict_lookup (m : gmap string json) k v :
  m !! k = Some v → por (JObj m) empty_dict = JObj m.
Proof. intros H. unfold por. by rewrite (truthy_dict_lookup m k v). Qed.

Lemma por_list (l : list json) : por (JArr l) empty_list = JArr l.
Proof. by destruct l. Qed.

Lemma por_dict (m : gmap string json) : por (JObj m) empty_dict = JObj m.
Proof.
  unfold por. simpl. destruct (size m) eqn:E; [|reflexivity].
  apply map_size_empty_iff in E. by subst m.
Qed.

(** ** Fallback reconciliation *)

Section ReconcileFacts.
Variable float_of_str : string → option Q.


Lemma Qsum_cons x xs : Qsum (x :: xs) = (x + Qsum xs)%Q.
Proof. reflexivity. Qed.

Lemma sum_effort_spec (items : list json) : ∀ acc,
  Forall is_item items →
  ∃ total, sum_effort float_of_str items acc = Some total
           ∧ (total == acc + Qsum (map (item_effort float_of_str) items))%Q.
Proof.
  induction items as [|it items IH]; intros acc Hall.
  - exists acc. split; [reflexivity|]. simpl. unfold Qsum. simpl. ring.
  - apply Forall_cons in Hall as [(m & -> & _) Hall].
    destruct (IH (acc + sp float_of_str (default JNull (m !! "estimateStatistic")))%Q Hall)
      as (total & Hrun & Heq).
    exists total. split; [exact Hrun|].
    rewrite Heq. simpl map. rewrite Qsum_cons. unfold item_effort at 2. simpl. ring.
Qed.

Lemma in_key_set_item (m : gmap string json) (added_mid : gset string) :
  hashable (default JNull (m !! "key")) = true →
  in_key_set (default JNull (m !! "key")) added_mid
  = Some (added_mid_sprint added_mid (JObj m)).
Proof.
  unfold added_mid_sprint. simpl. by destruct (default JNull (m !! "key")).
Qed.

Lemma add_committed_spec (added_mid : gset string) (items : list json) : ∀ acc,
  Forall is_item items →
  ∃ total, add_committed float_of_str added_mid items acc = Some total
           ∧ (total == acc + Qsum (map (item_effort float_of_str)
                 (List.filter (λ it, negb (added_mid_sprint added_mid it)) items)))%Q.
Proof.
  induction items as [|it items IH]; intros acc Hall.
  - exists acc. split; [reflexivity|]. simpl. unfold Qsum. simpl. ring.
  - apply Forall_cons in Hall as [(m & -> & Hk) Hall].
    simpl add_committed. rewrite (in_key_set_item m added_mid Hk).
    simpl List.filter.
    destruct (added_mid_sprint added_mid (JObj m)); simpl negb; cbv iota.
    + exact (IH acc Hall).
    + destruct (IH (acc + sp float_of_str (default JNull (m !! "estimateStatistic")))%Q Hall)
        as (total & Hrun & Heq).
      exists total. split; [exact Hrun|].
      rewrite Heq. simpl map. rewrite Qsum_cons. unfold item_effort at 2. simpl. ring.
Qed.

Lemma filter_app_bool {A} (p : A → bool) (l1 l2 : list A) :
  List.filter p (l1 ++ l2) = List.filter p l1 ++ List.filter p l2.
Proof. apply List.filter_app. Qed.

Lemma Qsum_app xs ys : (Qsum (xs ++ ys) == Qsum xs + Qsum ys)%Q.
Proof.
  induction xs as [|x xs IH].
  - change (Qsum ([] ++ ys)) with (Qsum ys). change (Qsum []) with 0%Q. ring.
  - change (Qsum ((x :: xs) ++ ys)) with (x + Qsum (xs ++ ys))%Q.
    rewrite Qsum_cons, IH. ring.
Qed.

(** C1. On a sprint report that carries a completed-issue list, a
    not-completed-issue list and the dict of keys added during the sprint,
    the fallback computation returns: as committed effort the sum of the
    item effort over the completed and not-completed items whose key is not
    among the added keys; as completed effort the sum over all completed
    items; as scope-change count the number of added keys; as carry-over
    count the number of not-completed items. *)
Theorem fallback_reconciliation
    (report : json) (r c am : gmap string json) (cs ns : list json) :
  report = JObj r →
  r !! "contents" = Some (JObj c) →
  c !! "completedIssues" = Some (JArr cs) →
  c !! "issuesNotCompletedInCurrentSprint" = Some (JArr ns) →
  c !! "issueKeysAddedDuringSprint" = Some (JObj am) →
  Forall is_item (cs ++ ns) →
  ∃ committed completed,
    compute_committed_completed_from_report float_of_str report
      = Some (committed, completed, size (dom am), length ns)
    ∧ (committed == Qsum (map (item_effort float_of_str)
          (List.filter (λ it, negb (added_mid_sprint (dom am) it)) (cs ++ ns))))%Q
    ∧ (completed == Qsum (map (item_effort float_of_str) cs))%Q.
Proof.
  intros -> Hc Hcs Hns Ham Hall.
  apply Forall_app in Hall as [Hall_c Hall_n].
  unfold compute_committed_completed_from_report.
  simpl dget_def. rewrite Hc. simpl.
  rewrite (por_dict_lookup c _ _ Hcs). simpl.
  rewrite Hcs, Hns, Ham. simpl.
  rewrite !por_list, por_dict. simpl.
  destruct (sum_effort_spec cs 0%Q Hall_c) as (completed & Hrun1 & Heq1).
  destruct (add_committed_spec (dom am) cs 0%Q Hall_c) as (c1 & Hrun2 & Heq2).
  destruct (add_committed_spec (dom am) ns c1 Hall_n) as (c2 & Hrun3 & Heq3).
  rewrite Hrun1. simpl. rewrite Hrun2. simpl. rewrite Hrun3. simpl.
  exists c2, completed. split; [reflexivity|]. split.
  - rewrite Heq3, Heq2, filter_app_bool, map_app, Qsum_app. ring.
  - rewrite Heq1. ring.
Qed.

(** C2. In every run the scope-change and carry-over counts of the produced
    metrics are those the fallback computation derives from the raw sprint
    report, whether or not the velocity endpoint supplied the two effort
    totals; the velocity path replaces the two totals and nothing else. *)
Theorem counts_from_fallback (velocity_reply : option json) (sprint_id : Z)
    (report : json) :
  match compute_committed_completed_from_report float_of_str report with
  | None => main_reconcile float_of_str velocity_reply sprint_id report = None
  | Some (fb_committed, fb_completed, scope_change_count, carry_over_count) =>
      ∃ committed completed,
        main_reconcile float_of_str velocity_reply sprint_id report
          = Some (committed, completed, scope_change_count, carry_over_count)
        ∧ (get_committed_completed_from_velocity float_of_str
             velocity_reply sprint_id = (Some committed, Some completed)
           ∨ (get_committed_completed_from_velocity float_of_str
                velocity_reply sprint_id = (None, None)
              ∧ committed = fb_committed ∧ completed = fb_completed))
  end.
Proof.
  unfold main_reconcile, get_committed_completed_from_velocity.
  destruct (compute_committed_completed_from_report float_of_str report)
    as [[[[fc fd] sc] co]|];
    destruct (velocity_try float_of_str velocity_reply sprint_id) as [[e c]|];
    simpl; eauto 8.
Qed.

(** C3. When the velocity endpoint answers but its entry map has no entry
    under the sprint id, the reconciliation takes the fallback path: its four
    results are those of the fallback computation on the same report. *)
Theorem missing_entry_falls_back (vj : json) (entries : gmap string json)
    (sprint_id : Z) (report : json) :
  velocity_entries vj = Some (JObj entries) →
  entries !! pretty sprint_id = None →
  get_committed_completed_from_velocity float_of_str (Some vj) sprint_id
    = (None, None)
  ∧ main_reconcile float_of_str (Some vj) sprint_id report
    = compute_committed_completed_from_report float_of_str report.
Proof.
  intros Hent Hnone.
  assert (velocity_try float_of_str (Some vj) sprint_id = None) as Htry.
  { unfold velocity_try. simpl. rewrite Hent. simpl. by rewrite Hnone. }
  unfold main_reconcile, get_committed_completed_from_velocity.
  by rewrite Htry.
Qed.

End ReconcileFacts.

(** ** Per-issue effort *)

Section EffortFacts.
Variable float_of_str : string → option Q.


Lemma sp_vals_scan_skip (f : gmap string json) (before rest : list string) :
  Forall (unset f) before →
  sp_vals_scan float_of_str (before ++ rest) f
  = sp_vals_scan float_of_str rest f.
Proof.
  induction before as [|g before IH]; intros Hall; [reflexivity|].
  apply Forall_cons in Hall as [Hg Hall]. simpl.
  destruct Hg as [-> | ->]; simpl; auto.
Qed.





End EffortFacts.

Section EffortUses.
Variable float_of_str : string → option Q.
Variable datetime_of_str : string → option datetime.
Variable STORY_POINTS_FIELD_IDS : list string.


(** The audit skips an issue of any other type, with or without effort. *)
Lemma without_sp_row_skips (it : json) (im f : gmap string json) :
  it = JObj im → im !! "fields" = Some (JObj f) →
  audit_type_ok (JObj f) = Some false →
  without_sp_row float_of_str STORY_POINTS_FIELD_IDS it = Some None.
Proof.
  intros -> Hf Hty. unfold without_sp_row.
  cbn [dget mbind option_bind]. rewrite Hf. cbn [default from_option id]. rewrite por_dict.
  by rewrite Hty.
Qed.




End EffortUses.

(** ** Paginated walker *)

Section WalkerFacts.
Context {upstream : Type}.
Variable get_issue_page :
  upstream → page_request → upstream * option (list json).

(** A page loop that ends normally returns what it started with followed by
    every page it received, unchanged and in order. *)
Lemma walk_pages_concat sprint_id fields page_size jql (n : nat) :
  ∀ st start_at issues st' result,
    walk_pages get_issue_page sprint_id fields page_size jql n st start_at issues
      = (st', Some result) →
    result = issues ++ concat (pages_received get_issue_page sprint_id fields
                                 page_size jql n st start_at).
Proof.
  induction n as [|n IH]; intros st start_at issues st' result Hrun; simpl in *.
  - inversion Hrun. by rewrite app_nil_r.
  - destruct (get_issue_page st _) as [st1 [chunk|]]; [|discriminate].
    destruct (Nat.ltb (length chunk) page_size).
    + inversion Hrun. simpl. by rewrite app_nil_r.
    + apply IH in Hrun. rewrite Hrun. simpl. by rewrite app_assoc.
Qed.

(** C9 (amended). The walker returns the items of the pages it received,
    concatenated in request order and without removing any; so the returned
    list has no duplicate issue identifier whenever no identifier occurs
    twice across those pages. *)
Theorem walker_concatenates_pages (sprint_id : Z)
    (jql_fragment : option string) (fields : list string)
    (max_pages page_size : nat) (st st' : upstream) (issues : list json)
    (used_server_filter : bool) :
  agile_sprint_issues_paginated get_issue_page sprint_id jql_fragment fields
    max_pages page_size st = (st', Some (issues, used_server_filter)) →
  issues = concat (pages_behind get_issue_page sprint_id jql_fragment fields
                     max_pages page_size st used_server_filter)
  ∧ (NoDup (map issue_key
        (concat (pages_behind get_issue_page sprint_id jql_fragment fields
                   max_pages page_size st used_server_filter))) →
     NoDup (map issue_key issues)).
Proof.
  intros Hrun.
  assert (issues = concat (pages_behind get_issue_page sprint_id jql_fragment
                             fields max_pages page_size st used_server_filter))
    as Heq.
  { unfold agile_sprint_issues_paginated, pages_behind in *.
    destruct (walk_pages get_issue_page sprint_id fields page_size
                (jql_param jql_fragment) max_pages st 0%nat [])
      as [st1 [r1|]] eqn:E1.
    - inversion Hrun; subst. apply walk_pages_concat in E1. exact E1.
    - simpl.
      destruct (walk_pages get_issue_page sprint_id fields page_size None
                  max_pages st1 0%nat []) as [st2 [r2|]] eqn:E2;
        [|discriminate].
      inversion Hrun; subst. apply walk_pages_concat in E2. exact E2. }
  split; [exact Heq|]. intros Hnd. by rewrite Heq.
Qed.

End WalkerFacts.

(** On a listing that does not change between the requests, a page loop
    returns a prefix of what lies at and after its first offset. *)
Lemma walk_pages_stable (listing : list json) sprint_id fields page_size jql
    (n : nat) : ∀ start_at issues,
  ∃ m : nat,
    walk_pages (serve_all listing) sprint_id fields page_size jql n tt
               start_at issues
    = (tt, Some (issues ++ take m (drop start_at listing))).
Proof.
  induction n as [|n IH]; intros start_at issues.
  - exists 0%nat. cbn [walk_pages take]. by rewrite app_nil_r.
  - cbn [walk_pages serve_all rq_max_results rq_start_at].
    destruct (Nat.ltb _ page_size).
    + by exists page_size.
    + destruct (IH (start_at + page_size)%nat
                   (issues ++ take page_size (drop start_at listing)))
        as [m ->].
      exists (page_size + m)%nat.
      rewrite <- app_assoc, <- drop_drop, take_take_drop. reflexivity.
Qed.

(** So on such a listing without duplicate identifiers the walker returns
    no duplicate. *)
Lemma walker_no_duplicates_on_stable_listing (listing : list json)
    (sprint_id : Z) (jql_fragment : option string) (fields : list string)
    (max_pages page_size : nat) :
  NoDup (map issue_key listing) →
  ∃ issues,
    agile_sprint_issues_paginated (serve_all listing) sprint_id jql_fragment
      fields max_pages page_size tt = (tt, Some (issues, true))
    ∧ NoDup (map issue_key issues).
Proof.
  intros Hnd. unfold agile_sprint_issues_paginated.
  destruct (walk_pages_stable listing sprint_id fields page_size
              (jql_param jql_fragment) max_pages 0%nat []) as [m ->].
  eexists. split; [reflexivity|].
  cbn [app drop]. change (map ?f ?l) with (f <$> l) in *.
  rewrite fmap_take. eapply sublist_NoDup; [exact Hnd|apply sublist_take].
Qed.

(** ** Derived tables *)

Lemma insert_desc_perm {A K} (ltb : K → K → bool) (key : A → K) x (l : list A) :
  Permutation (insert_desc ltb key x l) (x :: l).
Proof.
  induction l as [|y l IH]; simpl; [reflexivity|].
  destruct (ltb (key y) (key x)); [reflexivity|].
  rewrite IH. apply perm_swap.
Qed.

Lemma sort_desc_from_perm {A K} (ltb : K → K → bool) (key : A → K) (l : list A) :
  ∀ acc, Permutation (fold_left (λ acc x, insert_desc ltb key x acc) l acc)
                     (acc ++ l).
Proof.
  induction l as [|x l IH]; intros acc; simpl.
  - by rewrite app_nil_r.
  - rewrite IH, insert_desc_perm. apply Permutation_middle.
Qed.

Lemma sort_desc_perm {A K} (ltb : K → K → bool) (key : A → K) (l : list A) :
  Permutation (sort_desc ltb key l) l.
Proof. unfold sort_desc. by rewrite sort_desc_from_perm. Qed.

Lemma collect_rows_in {R} (row : json → option (option R)) (issues : list json) :
  ∀ rows r, collect_rows row issues = Some rows → In r rows →
            ∃ it, In it issues ∧ row it = Some (Some r).
Proof.
  induction issues as [|it issues IH]; intros rows r Hrun Hin; simpl in Hrun.
  - inversion Hrun; subst. destruct Hin.
  - destruct (row it) as [o|] eqn:Hit; [|discriminate]. simpl in Hrun.
    destruct (collect_rows row issues) as [rs|]; [|discriminate].
    simpl in Hrun. inversion Hrun; subst; clear Hrun.
    destruct o as [x|].
    + destruct Hin as [->|Hin]; [exists it; split; [by left|done]|].
      destruct (IH rs r eq_refl Hin) as (it' & ? & ?). exists it'. split; [by right|done].
    + destruct (IH rs r eq_refl Hin) as (it' & ? & ?). exists it'. split; [by right|done].
Qed.

(** One step through a body written with binds and tests: name the outcome
    of the first bind, or decide the first test, and drop the case in which
    the body cannot have produced the result in [H]. *)
Ltac bind_step H :=
  match type of H with
  | mbind _ ?e = _ =>
      let x := fresh "x" in
      destruct e as [x|] eqn:?;
      [cbn [mbind option_bind] in H | discriminate H]
  end.

Ltac if_step H :=
  match type of H with
  | (if ?b then _ else _) = _ =>
      destruct b eqn:?; [discriminate H|]
  end.

Section TableFacts.
Variable float_of_str : string → option Q.
Variable STORY_POINTS_FIELD_ID : string.
Variable STORY_POINTS_FIELD_IDS : list string.
Variable EPIC_LINK_FIELD_ID : string.
Variable TD_EPIC_KEY : string.

(** The status read for the row is the one the exclusion test read. *)
Lemma status_name_as_tested (f : json) (s nm : json) (t u : string) :
  dget f "status" = Some s →
  dget_def (por s empty_dict) "name" (JStr "") = Some nm →
  str_of nm = Some t →
  status_name_of f = Some u →
  u = strip t.
Proof.
  intros Hs Hnm Ht Hu. unfold status_name_of in Hu. rewrite Hs in Hu.
  simpl in Hu. destruct (por s empty_dict) as [| | | | |m]; try discriminate.
  simpl in Hnm, Hu. inversion Hnm; subst; clear Hnm.
  destruct (m !! "name") as [v|]; simpl in *.
  - destruct v; try discriminate. inversion Ht; subst.
    unfold por in Hu. simpl in Hu.
    destruct (String.eqb t "") eqn:E; simpl in Hu; inversion Hu; subst.
    + apply String.eqb_eq in E. by subst.
    + reflexivity.
  - inversion Ht; subst. by inversion Hu.
Qed.

Lemma tech_debt_row_not_excluded (sp_map : pydict) (used : bool) (it : json)
    (r : sp_row) :
  tech_debt_row float_of_str STORY_POINTS_FIELD_IDS EPIC_LINK_FIELD_ID
                TD_EPIC_KEY sp_map used it = Some (Some r) →
  str_in (lower (status_of_row r)) AUDIT_EXCLUDED_STATUS_NAMES = false.
Proof.
  unfold tech_debt_row. intros H.
  bind_step H. if_step H.
  destruct (dget (por x empty_dict) "status") as [s|] eqn:Hs;
    [cbn [mbind option_bind] in H|discriminate H].
  destruct (dget_def (por s empty_dict) "name" (JStr "")) as [nm|] eqn:Hnm;
    [cbn [mbind option_bind] in H|discriminate H].
  destruct (str_of nm) as [t|] eqn:Ht;
    [cbn [mbind option_bind] in H|discriminate H].
  destruct (str_in (lower (strip t)) AUDIT_EXCLUDED_STATUS_NAMES) eqn:Hex;
    [discriminate H|].
  bind_step H. bind_step H. if_step H.
  bind_step H. bind_step H. bind_step H.
  destruct (status_name_of (por x empty_dict)) as [u|] eqn:Hu;
    [cbn [mbind option_bind] in H|discriminate H].
  inversion H; subst. unfold status_of_row. cbn [snd].
  by rewrite (status_name_as_tested _ _ _ _ _ Hs Hnm Ht Hu).
Qed.

(** An issue that yields a row has no excluded status name. *)
Lemma tech_debt_row_issue_not_excluded (sp_map : pydict) (used : bool)
    (it : json) (r : sp_row) (raw : string) :
  tech_debt_row float_of_str STORY_POINTS_FIELD_IDS EPIC_LINK_FIELD_ID
                TD_EPIC_KEY sp_map used it = Some (Some r) →
  issue_status_name it = Some raw →
  excluded_status raw = false.
Proof.
  unfold tech_debt_row, issue_status_name, excluded_status. intros H Hraw.
  bind_step H. cbn [mbind option_bind] in Hraw. if_step H.
  destruct (dget (por x empty_dict) "status") as [s|] eqn:Hs;
    [cbn [mbind option_bind] in H, Hraw|discriminate H].
  destruct (por s empty_dict) as [| | | | |m]; try discriminate H.
  cbn [dget dget_def mbind option_bind] in H, Hraw.
  destruct (m !! "name") as [v|]; cbn [default from_option id] in H, Hraw;
    [|discriminate Hraw].
  destruct v; try discriminate Hraw. cbn [str_of] in H, Hraw.
  inversion Hraw; subst. cbn [mbind option_bind] in H.
  destruct (str_in (lower (strip raw)) AUDIT_EXCLUDED_STATUS_NAMES);
    [discriminate H|reflexivity].
Qed.

Lemma tech_debt_row_key (sp_map : pydict) (used : bool) (it : json)
    (r : sp_row) :
  tech_debt_row float_of_str STORY_POINTS_FIELD_IDS EPIC_LINK_FIELD_ID
                TD_EPIC_KEY sp_map used it = Some (Some r) →
  dget_def it "key" (JStr "") = Some (key_of_row r).
Proof.
  unfold tech_debt_row. intros H.
  bind_step H. if_step H. bind_step H. bind_step H. bind_step H. if_step H.
  bind_step H. bind_step H. if_step H.
  destruct (dget_def it "key" (JStr "")) as [key|];
    [cbn [mbind option_bind] in H|discriminate H].
  bind_step H. bind_step H. bind_step H.
  by inversion H; subst.
Qed.

Section WithUpstream.
Context {upstream : Type}.
Variable get_issue_page :
  upstream → page_request → upstream * option (list json).

(** C7 (amended). Whatever the tracker returns and whether or not the
    server-side filter was used, no row of the completed tech-debt table has
    a status name that, compared in lower case, is one of the excluded
    names, and every row stems from a returned issue whose status name is
    not excluded: the builder applies the exclusion itself to the issues it
    received. *)
Theorem tech_debts_exclude_terminal_statuses (report : json) (sprint_id : Z)
    (st st' : upstream) (rows : list sp_row) (r : sp_row) :
  completed_tech_debts_with_sp float_of_str STORY_POINTS_FIELD_ID
    STORY_POINTS_FIELD_IDS EPIC_LINK_FIELD_ID TD_EPIC_KEY get_issue_page
    report sprint_id st = (st', Some rows) →
  In r rows →
  str_in (lower (status_of_row r)) AUDIT_EXCLUDED_STATUS_NAMES = false
  ∧ ∃ issues used_server_filter it,
      agile_sprint_issues_paginated get_issue_page sprint_id
        (Some "statusCategory = Done")
        ["summary"; STORY_POINTS_FIELD_ID; "issuetype"; "status";
         EPIC_LINK_FIELD_ID] 50 100 st
        = (st', Some (issues, used_server_filter))
      ∧ In it issues
      ∧ dget_def it "key" (JStr "") = Some (key_of_row r)
      ∧ ∀ raw, issue_status_name it = Some raw → excluded_status raw = false.
Proof.
  unfold completed_tech_debts_with_sp. intros Hrun Hin.
  destruct (build_sp_map_from_report float_of_str report) as [sp_map|];
    [|discriminate].
  destruct (agile_sprint_issues_paginated _ _ _ _ _ _ _)
    as [st1 [[issues used]|]]; [|discriminate].
  inversion Hrun as [[Hst Hrows]]; clear Hrun.
  destruct (collect_rows _ issues) as [rs|] eqn:Hc; [|discriminate].
  simpl in Hrows. inversion Hrows; subst; clear Hrows.
  apply (Permutation_in _ (sort_desc_perm _ _ _)) in Hin.
  destruct (collect_rows_in _ _ _ _ Hc Hin) as (it & Hit & Hrow).
  split; [exact (tech_debt_row_not_excluded _ _ _ _ Hrow)|].
  exists issues, used, it. split; [reflexivity|]. split; [exact Hit|].
  split; [exact (tech_debt_row_key _ _ _ _ Hrow)|].
  intros raw Hraw. exact (tech_debt_row_issue_not_excluded _ _ _ _ _ Hrow Hraw).
Qed.

End WithUpstream.
End TableFacts.

(* ===================================================================== *)
(** * Properties *)
(* ===================================================================== *)

(** ** Working-day ageing *)

Lemma add_days_one d : d < DATE_MAX → 1 <= d + 1 → add_days d 1 = Some (d + 1).
Proof.
  intros Hlt Hpos. unfold add_days.
  destruct (1 <=? d + 1) eqn:E1; [|lia].
  destruct (d + 1 <=? DATE_MAX) eqn:E2; [reflexivity|lia].
Qed.

Lemma seqZ_succ_l (m : Z) (n : nat) :
  seqZ m (Z.of_nat (S n)) = m :: seqZ (m + 1) (Z.of_nat n).
Proof. rewrite Nat2Z.inj_succ. rewrite seqZ_cons by lia. f_equal. f_equal; lia. Qed.

(** The loop counts the working days of [d .. today], provided the day after
    [today] is representable. *)
Lemma count_loop_spec (n : nat) : ∀ fuel d today cnt,
  1 <= d → today < DATE_MAX → Z.of_nat n = today - d + 1 → (n <= fuel)%nat →
  count_loop fuel d today cnt
  = Some (cnt + Z.of_nat (length (List.filter is_working_day (seqZ d (Z.of_nat n))))).
Proof.
  induction n as [|n IH]; intros fuel d today cnt Hd Ht Hn Hf.
  - assert (today < d) by lia.
    destruct fuel; simpl; destruct (d <=? today) eqn:E; try lia;
      f_equal; lia.
  - destruct fuel as [|fuel]; [lia|].
    simpl count_loop. destruct (d <=? today) eqn:E; [|lia].
    rewrite add_days_one by lia. simpl.
    rewrite seqZ_succ_l. simpl List.filter.
    change (is_working_day d) with (weekday d <? 5).
    rewrite (IH fuel (d + 1) today) by lia.
    destruct (weekday d <? 5) eqn:W; simpl length; apply (f_equal Some); lia.
Qed.

(** When the reference date is the last representable day, the increment
    after the final iteration raises. *)
Lemma count_loop_overflow (fuel : nat) : ∀ d cnt,
  1 <= d <= DATE_MAX → (Z.to_nat (DATE_MAX - d) < fuel)%nat →
  count_loop fuel d DATE_MAX cnt = None.
Proof.
  induction fuel as [|fuel IH]; intros d cnt Hd Hf; [lia|].
  simpl. destruct (d <=? DATE_MAX) eqn:E; [|lia].
  destruct (Z.eq_dec d DATE_MAX) as [->|Hne]; [reflexivity|].
  rewrite add_days_one by lia. cbn [mbind option_bind]. apply IH; lia.
Qed.

Lemma working_days_between_nonneg c t : 0 <= working_days_between c t.
Proof. unfold working_days_between. lia. Qed.

Lemma weekday_add d k : weekday (d + k) = (weekday d + k) mod 7.
Proof.
  unfold weekday. rewrite Zplus_mod_idemp_l. f_equal. lia.
Qed.

Lemma friday_to_monday c :
  weekday c = 4 → working_days_between c (c + 3) = 1.
Proof.
  intros Hf. unfold working_days_between.
  replace (c + 3 - c) with 3 by lia.
  change 3 with (Z.of_nat 3). rewrite !seqZ_succ_l.
  change (Z.of_nat 0) with 0. rewrite seqZ_nil by lia.
  simpl. unfold is_working_day.
  replace (c + 1 + 1) with (c + 2) by lia.
  replace (c + 2 + 1) with (c + 3) by lia.
  rewrite !weekday_add, Hf. reflexivity.
Qed.

Lemma last_date_is_friday : weekday DATE_MAX = 4.
Proof. reflexivity. Qed.

Section AgeingFacts.
Variable now_date : Z.

Lemma working_days_since_not_after (created : date_like) (today_date : option Z) :
  default now_date today_date <= to_date created →
  working_days_since now_date (Some created) today_date = Some 0.
Proof.
  intros H. unfold working_days_since.
  destruct (default now_date today_date <=? to_date created) eqn:E;
    [reflexivity|lia].
Qed.

Lemma working_days_since_count (created : date_like) (today_date : option Z) :
  1 <= to_date created →
  to_date created < default now_date today_date →
  default now_date today_date < DATE_MAX →
  working_days_since now_date (Some created) today_date
  = Some (working_days_between (to_date created)
                               (default now_date today_date)).
Proof.
  intros Hc Hlt Hmax. unfold working_days_since.
  destruct (default now_date today_date <=? to_date created) eqn:E; [lia|].
  rewrite add_days_one by lia. cbn [mbind option_bind].
  rewrite (count_loop_spec
             (Z.to_nat (default now_date today_date - to_date created)))
    by lia.
  unfold working_days_between. rewrite Z2Nat.id by lia. reflexivity.
Qed.

(** With the last representable date as reference date the function raises
    for every earlier creation date. *)
Lemma working_days_since_raises_at_last_date (created : date_like) :
  1 <= to_date created < DATE_MAX →
  working_days_since now_date (Some created) (Some DATE_MAX) = None.
Proof.
  intros Hc. unfold working_days_since. cbn [default from_option id].
  destruct (DATE_MAX <=? to_date created) eqn:E; [lia|].
  rewrite add_days_one by lia. cbn [mbind option_bind].
  apply count_loop_overflow; lia.
Qed.

(** C8 (amended). For a creation date and a reference date "today": an
    item created today or later has age 0; when today is after the creation
    date and before the last representable date, the age is the number of
    Monday-to-Friday days after the creation date up to and including
    today, which is never negative; and an item created on a Friday has age
    exactly 1 on the following Monday. *)
Theorem working_days_since_ageing (created : date_like)
    (today_date : option Z) :
  valid_date (to_date created) →
  valid_date (default now_date today_date) →
  (default now_date today_date <= to_date created →
   working_days_since now_date (Some created) today_date = Some 0)
  ∧ (to_date created < default now_date today_date →
     default now_date today_date < DATE_MAX →
     working_days_since now_date (Some created) today_date
     = Some (working_days_between (to_date created)
                                  (default now_date today_date))
     ∧ 0 <= working_days_between (to_date created)
                                 (default now_date today_date))
  ∧ (weekday (to_date created) = 4 →
     default now_date today_date = to_date created + 3 →
     working_days_since now_date (Some created) today_date = Some 1).
Proof.
  intros [Hc1 Hc2] [Ht1 Ht2]. split; [|split].
  - apply working_days_since_not_after.
  - intros Hlt Hmax. split.
    + by apply working_days_since_count.
    + apply working_days_between_nonneg.
  - intros Hfri Hmon.
    assert (default now_date today_date < DATE_MAX) as Hmax.
    { destruct (Z.eq_dec (default now_date today_date) DATE_MAX) as [E|E];
        [|lia].
      pose proof last_date_is_friday as Hlast. rewrite <- E, Hmon in Hlast.
      rewrite weekday_add, Hfri in Hlast. discriminate. }
    rewrite working_days_since_count by lia.
    rewrite Hmon. by rewrite friday_to_monday.
Qed.

End AgeingFacts.

(** ** Day axis *)


Lemma days_loop_overflow (fuel : nat) (d : Z) (days : list Z) :
  1 <= d <= DATE_MAX → (Z.to_nat (DATE_MAX - d) < fuel)%nat →
  days_loop fuel d DATE_MAX days = None.
Proof.
  revert d days. induction fuel as [|fuel IH]; intros d days Hd Hf; [lia|].
  simpl. destruct (d <=? DATE_MAX) eqn:E; [|lia].
  destruct (Z.eq_dec d DATE_MAX) as [->|Hne]; [reflexivity|].
  rewrite add_days_one by lia.
  cbn [mbind option_bind]. apply IH; lia.
Qed.


(** ** Zero-filled day series *)

Section ZeroFill.
Variable float_of_str : string → option Q.
Variable date_fromisoformat : string → option Z.



(** A range that ends on the last representable date makes the builder
    raise, whatever its start. *)
Lemma daterange_raises_at_last_date (start_date end_date : string) (s : Z) :
  date_fromisoformat start_date = Some s →
  date_fromisoformat end_date = Some DATE_MAX →
  1 <= s <= DATE_MAX →
  _daterange_inclusive date_fromisoformat start_date end_date = None.
Proof.
  intros Hs He Hrange. unfold _daterange_inclusive. rewrite Hs, He.
  cbn [mbind option_bind]. apply days_loop_overflow; lia.
Qed.


End ZeroFill.

(** ** Burndown *)

Lemma pymax_nonneg (x : Q) : (0 <= pymax x 0)%Q.
Proof.
  unfold pymax. destruct (Qle_bool 0 x) eqn:E.
  - by apply Qle_bool_iff.
  - apply Qle_refl.
Qed.

Lemma pymax_mono (x y : Q) : (x <= y)%Q → (pymax x 0 <= pymax y 0)%Q.
Proof.
  intros Hxy. unfold pymax.
  destruct (Qle_bool 0 x) eqn:Ex; destruct (Qle_bool 0 y) eqn:Ey.
  - exact Hxy.
  - apply Qle_bool_iff in Ex.
    assert (Qle_bool 0 y = true) as Hy
      by (apply Qle_bool_iff; by apply (Qle_trans _ x)).
    congruence.
  - by apply Qle_bool_iff.
  - apply Qle_refl.
Qed.

Lemma pymax_compat (x y : Q) : (x == y)%Q → (pymax x 0 == pymax y 0)%Q.
Proof.
  intros Hxy. apply Qle_antisym; apply pymax_mono; rewrite Hxy; apply Qle_refl.
Qed.

Lemma cumulative_done_0 (d : Q) (ds : list Q) :
  (cumulative_done (d :: ds) 0 == d)%Q.
Proof.
  unfold cumulative_done. change (take 1 (d :: ds)) with [d].
  change (Qsum [d]) with (d + 0)%Q. ring.
Qed.

Lemma cumulative_done_S (d : Q) (ds : list Q) (i : nat) :
  (cumulative_done (d :: ds) (S i) == d + cumulative_done ds i)%Q.
Proof.
  unfold cumulative_done.
  change (take (S (S i)) (d :: ds)) with (d :: take (S i) ds).
  rewrite Qsum_cons. reflexivity.
Qed.

Section Remaining.
Variable committed_sp : Q.
Variable done_by_day : gmap Z Q.

Lemma remaining_loop_acc (days : list Z) : ∀ cum acc,
  remaining_loop committed_sp done_by_day days cum acc
  = acc ++ remaining_loop committed_sp done_by_day days cum [].
Proof.
  induction days as [|day days IH]; intros cum acc; simpl.
  - by rewrite app_nil_r.
  - rewrite IH. rewrite (IH _ [_]). by rewrite app_assoc.
Qed.

Lemma remaining_loop_cons (day : Z) (days : list Z) (cum : Q) :
  remaining_loop committed_sp done_by_day (day :: days) cum []
  = pymax (committed_sp - (cum + default 0%Q (done_by_day !! day)))%Q 0%Q
    :: remaining_loop committed_sp done_by_day days
         (cum + default 0%Q (done_by_day !! day))%Q [].
Proof. cbn [remaining_loop app]. by rewrite remaining_loop_acc. Qed.

Lemma remaining_loop_length (days : list Z) : ∀ cum,
  length (remaining_loop committed_sp done_by_day days cum []) = length days.
Proof.
  induction days as [|day days IH]; intros cum; [reflexivity|].
  rewrite remaining_loop_cons. simpl. by rewrite IH.
Qed.

(** Each entry is the committed effort minus the running total of the
    effort done, clamped at zero. *)
Lemma remaining_loop_lookup (days : list Z) : ∀ cum (i : nat),
  (i < length days)%nat →
  ∃ r, remaining_loop committed_sp done_by_day days cum [] !! i = Some r
       ∧ (r == pymax (committed_sp
                      - (cum + cumulative_done (daily_done done_by_day days) i))
                     0)%Q.
Proof.
  induction days as [|day days IH]; intros cum i Hi; [simpl in Hi; lia|].
  rewrite remaining_loop_cons. destruct i as [|i].
  - eexists. split; [reflexivity|]. apply pymax_compat.
    cbn [daily_done map]. rewrite cumulative_done_0. reflexivity.
  - simpl in Hi.
    destruct (IH (cum + default 0%Q (done_by_day !! day))%Q i) as (r & Hr & Heq);
      [lia|].
    exists r. split; [exact Hr|]. rewrite Heq. apply pymax_compat.
    cbn [daily_done map]. rewrite cumulative_done_S.
    unfold daily_done. ring.
Qed.

Lemma remaining_loop_mono (days : list Z) :
  Forall (λ day, 0 <= default 0%Q (done_by_day !! day))%Q days →
  ∀ cum (i : nat) r r',
    remaining_loop committed_sp done_by_day days cum [] !! i = Some r →
    remaining_loop committed_sp done_by_day days cum [] !! S i = Some r' →
    (r' <= r)%Q.
Proof.
  induction days as [|day days IH]; intros Hall cum i r r' Hr Hr';
    [discriminate|].
  apply Forall_cons in Hall as [_ Hall].
  rewrite remaining_loop_cons in Hr, Hr'.
  destruct i as [|i]; [|exact (IH Hall _ i r r' Hr Hr')].
  destruct days as [|day2 days]; [discriminate|].
  apply Forall_cons in Hall as [Hday2 _].
  rewrite remaining_loop_cons in Hr'.
  cbn in Hr, Hr'. inversion Hr; inversion Hr'; subst.
  apply pymax_mono.
  set (a := (cum + default 0%Q (done_by_day !! day))%Q) in *.
  set (b := default 0%Q (done_by_day !! day2)) in *.
  lra.
Qed.

End Remaining.

Section Burndown.
Variable float_of_str : string → option Q.
Variable datetime_of_str : string → option datetime.
Variable now_utc : datetime.
Variable STORY_POINTS_FIELD_IDS : list string.

Lemma zero_by_day_nonneg (days : list Z) :
  map_Forall (λ (_ : Z) (q : Q), (0 <= q)%Q) (zero_by_day days).
Proof.
  intros day q Hq. unfold zero_by_day in Hq.
  apply elem_of_list_to_map_2 in Hq. apply list_elem_of_In in Hq.
  apply in_map_iff in Hq as (d & Heq & _). inversion Heq; subst. apply Qle_refl.
Qed.

Lemma fill_done_by_day_nonneg (days : list Z) (issues : list json) :
  Forall (nonneg_effort float_of_str STORY_POINTS_FIELD_IDS) issues →
  ∀ done_by_day filled,
    map_Forall (λ (_ : Z) (q : Q), (0 <= q)%Q) done_by_day →
    fill_done_by_day float_of_str datetime_of_str STORY_POINTS_FIELD_IDS
      days issues done_by_day = Some filled →
    map_Forall (λ (_ : Z) (q : Q), (0 <= q)%Q) filled.
Proof.
  induction issues as [|it issues IH]; intros Hall done_by_day filled Hnn Hrun.
  - by inversion Hrun; subst.
  - apply Forall_cons in Hall as [Hit Hall].
    cbn [fill_done_by_day] in Hrun.
    destruct (dget it "fields") as [fj|] eqn:Hfj; [|discriminate].
    cbn [mbind option_bind] in Hrun.
    destruct (dget (por fj empty_dict) "resolutiondate") as [rd|];
      [|discriminate].
    cbn [mbind option_bind] in Hrun.
    destruct (negb (truthy rd)); [exact (IH Hall _ _ Hnn Hrun)|].
    destruct (parse_jira_date datetime_of_str rd) as [rdt|];
      [|exact (IH Hall _ _ Hnn Hrun)].
    destruct (first_day days) as [d0|]; [|discriminate].
    cbn [mbind option_bind] in Hrun.
    destruct (dt_date rdt <? d0); [exact (IH Hall _ _ Hnn Hrun)|].
    destruct (last_day days) as [dn|]; [|discriminate].
    cbn [mbind option_bind] in Hrun.
    destruct (dn <? dt_date rdt); [exact (IH Hall _ _ Hnn Hrun)|].
    destruct (as_dict (por fj empty_dict)) as [m|] eqn:Hm; [|discriminate].
    cbn [mbind option_bind] in Hrun.
    destruct (done_by_day !! dt_date rdt) as [cur|] eqn:Hcur; [|discriminate].
    cbn [mbind option_bind] in Hrun.
    refine (IH Hall _ _ _ Hrun).
    intros day q Hq. destruct (decide (dt_date rdt = day)) as [<-|Hne].
    + rewrite lookup_insert_eq in Hq. inversion Hq; subst.
      pose proof (Hnn _ _ Hcur) as Hc.
      assert (0 <= default 0%Q (_field_sp_from_fields float_of_str
                                  STORY_POINTS_FIELD_IDS m))%Q as Hsp.
      { destruct (_field_sp_from_fields _ _ m) as [sp|] eqn:Hsp.
        - exact (Hit fj m sp Hfj Hm Hsp).
        - apply Qle_refl. }
      set (s := default 0%Q (_field_sp_from_fields float_of_str
                               STORY_POINTS_FIELD_IDS m)) in *.
      clearbody s. cbv beta in Hc. lra.
    + rewrite lookup_insert_ne in Hq by done. exact (Hnn _ _ Hq).
Qed.

(** A day axis that the day loop returns is a run of consecutive days. *)
Lemma days_loop_contiguous (fuel : nat) : ∀ d end_ days result,
  days_loop fuel d end_ days = Some result →
  ∃ n : nat, result = days ++ seqZ d (Z.of_nat n).
Proof.
  induction fuel as [|fuel IH]; intros d end_ days result Hrun; simpl in Hrun.
  - destruct (d <=? end_); [discriminate|]. inversion Hrun; subst.
    exists 0%nat. by rewrite app_nil_r.
  - destruct (d <=? end_).
    + unfold add_days in Hrun.
      destruct ((1 <=? d + 1) && (d + 1 <=? DATE_MAX)); [|discriminate].
      cbn [mbind option_bind] in Hrun.
      apply IH in Hrun as [n ->]. exists (S n).
      rewrite seqZ_succ_l. by rewrite <- app_assoc.
    + inversion Hrun; subst. exists 0%nat. by rewrite app_nil_r.
Qed.

Lemma burndown_days_contiguous (report_json : json) (days : list Z) :
  burndown_days datetime_of_str now_utc report_json = Some days →
  ∃ (s : Z) (n : nat), days = seqZ s (Z.of_nat n).
Proof.
  unfold burndown_days. intros H.
  destruct (dget_def _ "sprint" _) as [sj|]; [|discriminate].
  cbn [mbind option_bind] in H.
  destruct (dget (por sj empty_dict) "startDate") as [sd|]; [|discriminate].
  cbn [mbind option_bind] in H.
  destruct (dget (por sj empty_dict) "completeDate") as [cd|]; [|discriminate].
  cbn [mbind option_bind] in H.
  destruct (if truthy cd then Some cd else dget (por sj empty_dict) "endDate")
    as [ed|]; [|discriminate].
  cbn [mbind option_bind] in H.
  destruct (match parse_jira_date datetime_of_str ed with
            | Some t => Some t
            | None => datetime_add_days
                        (default now_utc (parse_jira_date datetime_of_str sd)) 14
            end) as [end_dt|]; [|discriminate].
  cbn [mbind option_bind] in H.
  apply days_loop_contiguous in H as [n ->]. eauto.
Qed.

Lemma first_last_seqZ (s : Z) (n : nat) :
  first_day (seqZ s (Z.of_nat (S n))) = Some s
  ∧ last_day (seqZ s (Z.of_nat (S n))) = Some (s + Z.of_nat n).
Proof.
  split.
  - by rewrite seqZ_succ_l.
  - unfold last_day. rewrite last_lookup, length_seqZ.
    replace (Init.Nat.pred (Z.to_nat (Z.of_nat (S n)))) with n by lia.
    rewrite lookup_seqZ. split_and!; lia || reflexivity.
Qed.

(** On well-formed issues the issue loop does not raise, as long as every
    day of a non-empty consecutive axis has its bucket. *)
Lemma fill_done_by_day_total (s : Z) (n : nat) (issues : list json) :
  Forall issue_ok issues →
  ∀ done_by_day,
    (∀ day, s <= day <= s + Z.of_nat n → is_Some (done_by_day !! day)) →
    ∃ filled,
      fill_done_by_day float_of_str datetime_of_str STORY_POINTS_FIELD_IDS
        (seqZ s (Z.of_nat (S n))) issues done_by_day = Some filled.
Proof.
  destruct (first_last_seqZ s n) as [Hfirst Hlast].
  induction issues as [|it issues IH]; intros Hall done_by_day Hkeys.
  - by exists done_by_day.
  - apply Forall_cons in Hall as [(im & f & -> & Hf) Hall].
    cbn [fill_done_by_day dget mbind option_bind]. rewrite Hf.
    cbn [dget mbind option_bind].
    destruct (negb (truthy (default JNull (f !! "resolutiondate"))));
      [by apply IH|].
    destruct (parse_jira_date datetime_of_str _) as [rdt|]; [|by apply IH].
    rewrite Hfirst. cbn [mbind option_bind].
    destruct (dt_date rdt <? s) eqn:E1; [by apply IH|].
    rewrite Hlast. cbn [mbind option_bind].
    destruct (s + Z.of_nat n <? dt_date rdt) eqn:E2; [by apply IH|].
    cbn [as_dict mbind option_bind].
    destruct (Hkeys (dt_date rdt)) as [cur Hcur]; [lia|].
    rewrite Hcur. cbn [mbind option_bind].
    apply IH; [exact Hall|].
    intros day Hday. destruct (decide (dt_date rdt = day)) as [<-|Hne].
    + rewrite lookup_insert_eq. eauto.
    + rewrite lookup_insert_ne by done. by apply Hkeys.
Qed.

Lemma zero_by_day_keys (days : list Z) (day : Z) :
  In day days → is_Some (zero_by_day days !! day).
Proof.
  intros Hin. unfold zero_by_day.
  apply not_eq_None_Some. intros Hnone.
  apply not_elem_of_list_to_map_2 in Hnone. apply Hnone.
  change (map ?f ?l) with (f <$> l).
  apply list_elem_of_fmap. exists (day, 0%Q). split; [reflexivity|].
  apply list_elem_of_fmap. exists day. split; [reflexivity|].
  by apply list_elem_of_In.
Qed.

Context {upstream : Type}.
Variable get_issue_page :
  upstream → page_request → upstream * option (list json).

(** The builder produces its series whenever the sprint dates give a
    non-empty day axis, the issue walk succeeds and the issues are
    well-formed. *)
Lemma render_burndown_png_bytes_returns (report_json : json) (sprint_id : Z)
    (committed_sp : Q) (st st' : upstream) (days : list Z)
    (issues : list json) (used_server_filter : bool) :
  burndown_days datetime_of_str now_utc report_json = Some days →
  days ≠ [] →
  agile_sprint_issues_paginated get_issue_page sprint_id None
    (burndown_fields STORY_POINTS_FIELD_IDS) 300 200 st
    = (st', Some (issues, used_server_filter)) →
  Forall issue_ok issues →
  ∃ remaining ideal,
    render_burndown_png_bytes float_of_str datetime_of_str now_utc
      STORY_POINTS_FIELD_IDS get_issue_page report_json sprint_id
      committed_sp st = (st', Some (days, remaining, ideal)).
Proof.
  intros Hdays Hne Hwalk Hok.
  destruct (burndown_days_contiguous _ _ Hdays) as (s & n & Hseq).
  destruct n as [|n]; [by subst days|]. subst days.
  unfold render_burndown_png_bytes. rewrite Hdays.
  fold (burndown_fields STORY_POINTS_FIELD_IDS). rewrite Hwalk.
  destruct (fill_done_by_day_total s n issues Hok
              (zero_by_day (seqZ s (Z.of_nat (S n))))) as [filled Hfill].
  { intros day Hday. apply zero_by_day_keys. apply list_elem_of_In.
    apply elem_of_seqZ. lia. }
  rewrite Hfill. cbn [mbind option_bind].
  unfold ideal_line. destruct (first_last_seqZ s n) as [-> ->].
  cbn [mbind option_bind]. eauto.
Qed.

(** C5 (amended). Whenever the burndown builder produces its series from a
    sprint report, a committed effort and the issues the tracker returns:
    the remaining series has one entry per day; each entry is
    [max(committed - cumulativeDone, 0)] for that day and so is not
    negative; and when no issue carries a negative effort, the remaining
    effort never increases from one day to the next. *)
Theorem burndown_remaining_series (report_json : json) (sprint_id : Z)
    (committed_sp : Q) (st st' : upstream)
    (days : list Z) (remaining ideal : list Q) :
  render_burndown_png_bytes float_of_str datetime_of_str now_utc
    STORY_POINTS_FIELD_IDS get_issue_page report_json sprint_id committed_sp st
    = (st', Some (days, remaining, ideal)) →
  ∃ issues used_server_filter done_by_day,
    agile_sprint_issues_paginated get_issue_page sprint_id None
      (burndown_fields STORY_POINTS_FIELD_IDS) 300 200 st
      = (st', Some (issues, used_server_filter))
    ∧ fill_done_by_day float_of_str datetime_of_str STORY_POINTS_FIELD_IDS
        days issues (zero_by_day days) = Some done_by_day
    ∧ length remaining = length days
    ∧ (∀ i : nat, (i < length days)%nat →
         ∃ r, remaining !! i = Some r
              ∧ (r == pymax (committed_sp
                             - cumulative_done (daily_done done_by_day days) i)
                            0)%Q
              ∧ (0 <= r)%Q)
    ∧ (Forall (nonneg_effort float_of_str STORY_POINTS_FIELD_IDS) issues →
       ∀ (i : nat) r r',
         remaining !! i = Some r → remaining !! S i = Some r' → (r' <= r)%Q).
Proof.
  unfold render_burndown_png_bytes. intros Hrun.
  destruct (burndown_days datetime_of_str now_utc report_json) as [ds|];
    [|discriminate].
  fold (burndown_fields STORY_POINTS_FIELD_IDS) in Hrun.
  destruct (agile_sprint_issues_paginated _ _ _ _ _ _ _)
    as [st1 [[issues used]|]] eqn:Hwalk; [|discriminate].
  inversion Hrun as [[Hst Hres]]; clear Hrun. subst st1.
  destruct (fill_done_by_day _ _ _ ds issues _) as [done_by_day|] eqn:Hfill;
    [|discriminate].
  cbn [mbind option_bind] in Hres.
  destruct (ideal_line committed_sp ds) as [idl|]; [|discriminate].
  cbn [mbind option_bind] in Hres. inversion Hres; subst; clear Hres.
  exists issues, used, done_by_day.
  split; [reflexivity|]. split; [exact Hfill|].
  split; [apply remaining_loop_length|]. split.
  - intros i Hi.
    destruct (remaining_loop_lookup committed_sp done_by_day days 0%Q i Hi)
      as (r & Hr & Heq).
    exists r. split; [exact Hr|]. split.
    + rewrite Heq. apply pymax_compat. ring.
    + rewrite Heq. apply pymax_nonneg.
  - intros Hnn i r r' Hr Hr'.
    refine (remaining_loop_mono committed_sp done_by_day days _ 0%Q i r r' Hr Hr').
    pose proof (fill_done_by_day_nonneg days issues Hnn _ _
                  (zero_by_day_nonneg days) Hfill) as Hmap.
    apply List.Forall_forall. intros day _.
    destruct (done_by_day !! day) as [q|] eqn:Hq; cbn.
    + exact (Hmap _ _ Hq).
    + apply Qle_refl.
Qed.

End Burndown.

(** ** Cross-epic action items *)

Section ActionItemFacts.
Variable datetime_of_str : string → option datetime.
Variable now_date : Z.
Variable STORY_TYPES : list string.

Lemma pull_common_empty :
  _pull_common datetime_of_str now_date empty_dict
  = Some (JStr "-", JStr "-", JStr "-", JNull, 0).
Proof. reflexivity. Qed.

Lemma add_row_empty (sk : json) (open_tmp : list (Z * open_row))
    (done_rows : list done_row) :
  add_row datetime_of_str now_date sk (por empty_dict empty_dict)
          open_tmp done_rows
  = Some (open_tmp ++ [degraded_row sk], done_rows).
Proof. reflexivity. Qed.

Context {upstream : Type}.
Variable get_issue :
  upstream → json → list string → upstream * option json.

Lemma get_issue_fields_failed (sk : json) (fields : list string)
    (st st' : upstream) :
  get_issue st sk fields = (st', None) →
  get_issue_fields get_issue sk fields st = (st', empty_dict).
Proof. intros H. unfold get_issue_fields. by rewrite H. Qed.

Lemma subtask_rows_app (pre post : list json) :
  ∀ st open_tmp done_rows,
    subtask_rows datetime_of_str now_date get_issue (pre ++ post) st
                 open_tmp done_rows
    = match subtask_rows datetime_of_str now_date get_issue pre st
                         open_tmp done_rows with
      | (st1, Some (open_1, done_1)) =>
          subtask_rows datetime_of_str now_date get_issue post st1
                       open_1 done_1
      | (st1, None) => (st1, None)
      end.
Proof.
  induction pre as [|sk pre IH]; intros st open_tmp done_rows; [reflexivity|].
  simpl. destruct (get_issue_fields _ _ _ _) as [st' sf].
  destruct (add_row _ _ _ _ _ _) as [[o1 d1]|]; [apply IH|reflexivity].
Qed.

Lemma add_row_keeps (key f : json) (open_tmp open' : list (Z * open_row))
    (done_rows done' : list done_row) :
  add_row datetime_of_str now_date key f open_tmp done_rows
    = Some (open', done') →
  ∃ more, open' = open_tmp ++ more.
Proof.
  unfold add_row. intros H.
  destruct (_pull_common _ _ _) as [[[[[sm a] s] c] age]|]; [|discriminate].
  cbn [mbind option_bind] in H.
  destruct (eq_str c "done"); inversion H; subst.
  - exists []. by rewrite app_nil_r.
  - eexists. reflexivity.
Qed.

(** The sub-task loop only appends to the rows collected so far. *)
Lemma subtask_rows_keeps (keys : list json) :
  ∀ st open_tmp done_rows st' open' done',
    subtask_rows datetime_of_str now_date get_issue keys st open_tmp done_rows
      = (st', Some (open', done')) →
    ∃ more, open' = open_tmp ++ more.
Proof.
  induction keys as [|sk keys IH]; intros st o d st' o' d' H; simpl in H.
  - inversion H; subst. exists []. by rewrite app_nil_r.
  - destruct (get_issue_fields _ _ _ _) as [st1 sf].
    destruct (add_row _ _ _ _ _ _) as [[o1 d1]|] eqn:Hrow; [|discriminate].
    apply add_row_keeps in Hrow as [m1 ->].
    apply IH in H as [m2 ->]. exists (m1 ++ m2). by rewrite app_assoc.
Qed.

(** C10. When the field fetch of a sub-task key raises while the action
    items are built, the build goes on with the remaining keys, and the
    sub-task is emitted as the row built from an empty field dict: an open
    row with summary, assignee and status ["-"] and age 0. *)
Theorem failed_subtask_fetch_degrades_one_row
    (issues : list json) (pre post : list json) (sk : json)
    (st st1 st2 : upstream)
    (open_0 open_1 : list (Z * open_row)) (done_0 done_1 : list done_row) :
  parent_rows datetime_of_str now_date STORY_TYPES issues [] [] []
    = Some (open_0, done_0, pre ++ sk :: post) →
  subtask_rows datetime_of_str now_date get_issue pre st open_0 done_0
    = (st1, Some (open_1, done_1)) →
  get_issue st1 sk ["status"; "assignee"; "summary"; "created"] = (st2, None) →
  subtask_rows datetime_of_str now_date get_issue (pre ++ sk :: post) st
               open_0 done_0
  = subtask_rows datetime_of_str now_date get_issue post st2
                 (open_1 ++ [degraded_row sk]) done_1
  ∧ ∀ st3 open_rows done_rows,
      fetch_epic_action_items datetime_of_str now_date STORY_TYPES get_issue
        issues st = (st3, Some (open_rows, done_rows)) →
      In (sk, JStr "-", JStr "-", "0 days", JStr "-") open_rows.
Proof.
  intros Hparents Hpre Hfail.
  assert (subtask_rows datetime_of_str now_date get_issue (pre ++ sk :: post)
            st open_0 done_0
          = subtask_rows datetime_of_str now_date get_issue post st2
              (open_1 ++ [degraded_row sk]) done_1) as Hstep.
  { rewrite subtask_rows_app, Hpre. cbn [subtask_rows].
    rewrite (get_issue_fields_failed _ _ _ _ Hfail).
    by rewrite add_row_empty. }
  split; [exact Hstep|].
  intros st3 open_rows done_rows Hrun.
  unfold fetch_epic_action_items in Hrun. rewrite Hparents, Hstep in Hrun.
  destruct (subtask_rows _ _ _ post st2 _ _) as [st4 [[o4 d4]|]] eqn:Hpost;
    [|discriminate].
  inversion Hrun; subst; clear Hrun.
  apply subtask_rows_keeps in Hpost as [more ->].
  change (sk, JStr "-", JStr "-", "0 days", JStr "-")
    with (snd (degraded_row sk)).
  apply in_map. apply (Permutation_in _ (Permutation_sym (sort_desc_perm _ _ _))).
  apply in_or_app. left. apply in_or_app. right. by left.
Qed.

End ActionItemFacts.

(** ** The properties on the sample data *)

(** The sample sprint report: 20 + 15 committed (the item added mid-sprint
    is left out), 20 + 15 completed, one scope change, one carry-over. *)
Lemma fallback_reconciliation_witness :
  ∃ committed completed,
    compute_committed_completed_from_report float_of_digits sample_report
      = Some (committed, completed, size (dom added_keys),
              length not_completed_items)
    ∧ (committed == Qsum (map (item_effort float_of_digits)
          (List.filter (λ it, negb (added_mid_sprint (dom added_keys) it))
                       (completed_items ++ not_completed_items))))%Q
    ∧ (completed == Qsum (map (item_effort float_of_digits) completed_items))%Q.
Proof.
  apply (fallback_reconciliation float_of_digits sample_report
           sample_report_fields sample_contents added_keys
           completed_items not_completed_items);
    try reflexivity.
  repeat constructor; eexists; (split; [reflexivity|reflexivity]).
Defined.

Example fallback_on_sample_report :
  compute_committed_completed_from_report float_of_digits sample_report
  = Some (35%Q, 35%Q, 1%nat, 1%nat).
Proof. vm_compute. reflexivity. Qed.

(** Sprint 999 is not in the velocity reply, which knows sprint 42. *)
Lemma missing_entry_falls_back_witness :
  get_committed_completed_from_velocity float_of_digits
    (Some velocity_reply_42) 999 = (None, None)
  ∧ main_reconcile float_of_digits (Some velocity_reply_42) 999 sample_report
    = compute_committed_completed_from_report float_of_digits sample_report.
Proof.
  apply (missing_entry_falls_back float_of_digits velocity_reply_42
           velocity_entries_42 999 sample_report); reflexivity.
Defined.

Example velocity_on_known_sprint :
  main_reconcile float_of_digits (Some velocity_reply_42) 42 sample_report
  = Some (50%Q, 35%Q, 1%nat, 1%nat).
Proof. vm_compute. reflexivity. Qed.

(** *** Zero-filled series *)


Example zero_fill_on_sample_rows :
  _lb_timeseries_complete float_of_digits date_of_iso metric_rows
    "2025-01-06" "2025-01-08" "coding_min"
  = Some ([ymd 2025 1 6; ymd 2025 1 7; ymd 2025 1 8],
          [0%Q; (120 # 60)%Q; 0%Q]).
Proof. vm_compute. reflexivity. Qed.


(** *** Ageing *)

Lemma working_days_since_ageing_witness :
  (ymd 2025 1 6 <= ymd 2025 1 3 →
   working_days_since 0 (Some (ADate (ymd 2025 1 3))) (Some (ymd 2025 1 6))
   = Some 0)
  ∧ (ymd 2025 1 3 < ymd 2025 1 6 → ymd 2025 1 6 < DATE_MAX →
     working_days_since 0 (Some (ADate (ymd 2025 1 3))) (Some (ymd 2025 1 6))
     = Some (working_days_between (ymd 2025 1 3) (ymd 2025 1 6))
     ∧ 0 <= working_days_between (ymd 2025 1 3) (ymd 2025 1 6))
  ∧ (weekday (ymd 2025 1 3) = 4 → ymd 2025 1 6 = ymd 2025 1 3 + 3 →
     working_days_since 0 (Some (ADate (ymd 2025 1 3))) (Some (ymd 2025 1 6))
     = Some 1).
Proof.
  apply (working_days_since_ageing 0 (ADate (ymd 2025 1 3))
           (Some (ymd 2025 1 6)));
    vm_compute; split; discriminate.
Defined.

Example friday_to_monday_is_one :
  weekday (ymd 2025 1 3) = 4
  ∧ working_days_since 0 (Some (ADate (ymd 2025 1 3))) (Some (ymd 2025 1 6))
    = Some 1.
Proof. vm_compute. split; reflexivity. Qed.

(** With 9999-12-31 as the reference date and an item created the day
    before, one working day lies in between, but the function raises. *)
Lemma ageing_raises_at_last_date :
  ymd 9999 12 31 = DATE_MAX
  ∧ working_days_between (ymd 9999 12 30) (ymd 9999 12 31) = 1
  ∧ working_days_since 0 (Some (ADate (ymd 9999 12 30))) (Some (ymd 9999 12 31))
    = None.
Proof. vm_compute. repeat split; reflexivity. Qed.

(** *** Walker *)

Lemma walker_concatenates_pages_witness :
  [issue_A; issue_B]
  = concat (pages_behind (serve_all [issue_A; issue_B]) 7 None [] 50 100 tt true)
  ∧ (NoDup (map issue_key
       (concat (pages_behind (serve_all [issue_A; issue_B]) 7 None [] 50 100
                  tt true))) →
     NoDup (map issue_key [issue_A; issue_B])).
Proof.
  apply (walker_concatenates_pages (serve_all [issue_A; issue_B]) 7 None []
           50 100 tt tt [issue_A; issue_B] true).
  reflexivity.
Defined.

(** Two pages of two issues overlap in B when the list grows between the
    requests; the walker returns B twice. *)
Lemma overlapping_pages_duplicate :
  snd (agile_sprint_issues_paginated serve_shifting 7 None [] 50 2 0%nat)
  = Some ([issue_A; issue_B; issue_B], true)
  ∧ map issue_key [issue_A; issue_B; issue_B]
    = [JStr "GV-1"; JStr "GV-2"; JStr "GV-2"]
  ∧ ¬ NoDup (map issue_key [issue_A; issue_B; issue_B]).
Proof.
  split; [vm_compute; reflexivity|].
  split; [vm_compute; reflexivity|].
  intros Hnd. apply NoDup_cons in Hnd as [_ Hnd].
  apply NoDup_cons in Hnd as [Hnotin _].
  apply Hnotin. left.
Qed.

(** *** Exclusion of terminal statuses *)

Lemma tech_debts_exclude_terminal_statuses_witness :
  str_in (lower (status_of_row
                   (JStr "GV-7", JStr "Summary of GV-7", 3%Q, "Done")))
         AUDIT_EXCLUDED_STATUS_NAMES = false
  ∧ ∃ issues used_server_filter it,
      agile_sprint_issues_paginated
        (serve_all [cancelled_tech_debt; done_tech_debt]) 7
        (Some "statusCategory = Done")
        ["summary"; "customfield_10002"; "issuetype"; "status";
         "customfield_10001"] 50 100 tt
        = (tt, Some (issues, used_server_filter))
      ∧ In it issues
      ∧ dget_def it "key" (JStr "")
        = Some (key_of_row (JStr "GV-7", JStr "Summary of GV-7", 3%Q, "Done"))
      ∧ ∀ raw, issue_status_name it = Some raw → excluded_status raw = false.
Proof.
  apply (tech_debts_exclude_terminal_statuses float_of_digits
           "customfield_10002" sp_fields "customfield_10001" "GV-2398"
           (serve_all [cancelled_tech_debt; done_tech_debt])
           sample_report 7 tt tt
           [(JStr "GV-7", JStr "Summary of GV-7", 3%Q, "Done")]).
  - vm_compute. reflexivity.
  - left. reflexivity.
Defined.

Example tech_debts_on_sample_issues :
  snd (completed_tech_debts_with_sp float_of_digits "customfield_10002"
         sp_fields "customfield_10001" "GV-2398"
         (serve_unfiltered [cancelled_tech_debt; done_tech_debt])
         sample_report 7 tt)
  = Some [(JStr "GV-7", JStr "Summary of GV-7", 3%Q, "Done")].
Proof. vm_compute. reflexivity. Qed.

(** A story in status "Cancelled" (status category done) that the tracker
    returns is a row of the top completed items, with or without the
    server-side filter; and when the tracker rejects the filter expression of
    the audits, it is a row of both audits. *)
Lemma cancelled_story_is_tallied_and_audited :
  issue_status_name cancelled_story = Some "Cancelled"
  ∧ excluded_status "Cancelled" = true
  ∧ snd (top5_completed_stories float_of_digits "customfield_10002" sp_fields
           (serve_all [cancelled_story]) sample_report 7 tt)
    = Some [(JStr "GV-9", JStr "Summary of GV-9", 0%Q, "Cancelled")]
  ∧ snd (top5_completed_stories float_of_digits "customfield_10002" sp_fields
           (serve_unfiltered [cancelled_story]) sample_report 7 tt)
    = Some [(JStr "GV-9", JStr "Summary of GV-9", 0%Q, "Cancelled")]
  ∧ snd (stories_tasks_without_sp float_of_digits sp_fields
           (serve_unfiltered [cancelled_story]) 7 tt)
    = Some [(JStr "GV-9", JStr "Summary of GV-9", JStr "-")]
  ∧ snd (stories_tasks_without_epic "customfield_10001"
           (serve_unfiltered [cancelled_story]) 7 tt)
    = Some [(JStr "GV-9", JStr "Summary of GV-9", JStr "-")].
Proof. vm_compute. repeat split; reflexivity. Qed.

(** *** Effort resolution *)



(** *** Burndown *)

Lemma burndown_remaining_series_witness :
  ∃ issues used_server_filter done_by_day,
    agile_sprint_issues_paginated (serve_all [positive_estimate]) 7 None
      (burndown_fields sp_fields) 300 200 tt
      = (tt, Some (issues, used_server_filter))
    ∧ fill_done_by_day float_of_digits datetime_of_iso sp_fields
        [ymd 2025 1 6; ymd 2025 1 7; ymd 2025 1 8] issues
        (zero_by_day [ymd 2025 1 6; ymd 2025 1 7; ymd 2025 1 8])
      = Some done_by_day
    ∧ length [10%Q; 6%Q; 6%Q]
      = length [ymd 2025 1 6; ymd 2025 1 7; ymd 2025 1 8]
    ∧ (∀ i : nat,
         (i < length [ymd 2025 1 6; ymd 2025 1 7; ymd 2025 1 8])%nat →
         ∃ r, [10%Q; 6%Q; 6%Q] !! i = Some r
              ∧ (r == pymax (10 - cumulative_done
                               (daily_done done_by_day
                                  [ymd 2025 1 6; ymd 2025 1 7; ymd 2025 1 8]) i)
                            0)%Q
              ∧ (0 <= r)%Q)
    ∧ (Forall (nonneg_effort float_of_digits sp_fields) issues →
       ∀ (i : nat) r r',
         [10%Q; 6%Q; 6%Q] !! i = Some r → [10%Q; 6%Q; 6%Q] !! S i = Some r' →
         (r' <= r)%Q).
Proof.
  apply (burndown_remaining_series float_of_digits datetime_of_iso
           (DateTime 1 0) sp_fields (serve_all [positive_estimate])
           sample_report 7 10%Q tt tt
           [ymd 2025 1 6; ymd 2025 1 7; ymd 2025 1 8] [10%Q; 6%Q; 6%Q]
           [(20 # 2)%Q; (10 # 2)%Q; (0 # 2)%Q]).
  vm_compute. reflexivity.
Defined.

(** An issue with an estimate of -5, resolved on the second day of a sprint
    with 10 committed: the remaining effort rises from 10 to 15. *)
Lemma burndown_rises_on_negative_effort :
  snd (render_burndown_png_bytes float_of_digits datetime_of_iso (DateTime 1 0) sp_fields
         (serve_all [negative_estimate]) sample_report 7 10%Q tt)
  = Some ([ymd 2025 1 6; ymd 2025 1 7; ymd 2025 1 8],
          [10%Q; 15%Q; 15%Q],
          [(20 # 2)%Q; (10 # 2)%Q; (0 # 2)%Q])
  ∧ ¬ (15 <= 10)%Q.
Proof.
  split; [vm_compute; reflexivity|].
  intros H. vm_compute in H. by apply H.
Qed.

(** *** Action items *)

Lemma failed_subtask_fetch_degrades_one_row_witness :
  subtask_rows datetime_of_iso (ymd 2025 1 10) issue_unreachable
    ([] ++ JStr "GV-11" :: []) tt
    [(0, (JStr "GV-10", JStr "Summary of GV-10", JStr "-", "0 days",
          JStr "In Progress"))] []
  = subtask_rows datetime_of_iso (ymd 2025 1 10) issue_unreachable [] tt
      ([(0, (JStr "GV-10", JStr "Summary of GV-10", JStr "-", "0 days",
             JStr "In Progress"))] ++ [degraded_row (JStr "GV-11")]) []
  ∧ ∀ st3 open_rows done_rows,
      fetch_epic_action_items datetime_of_iso (ymd 2025 1 10) ["Story"; "Task"]
        issue_unreachable [parent_with_subtask] tt
        = (st3, Some (open_rows, done_rows)) →
      In (JStr "GV-11", JStr "-", JStr "-", "0 days", JStr "-") open_rows.
Proof.
  apply (failed_subtask_fetch_degrades_one_row datetime_of_iso (ymd 2025 1 10)
           ["Story"; "Task"] issue_unreachable [parent_with_subtask]
           [] [] (JStr "GV-11") tt tt tt);
    vm_compute; reflexivity.
Defined.

Example action_items_on_sample_epic :
  snd (fetch_epic_action_items datetime_of_iso (ymd 2025 1 10) ["Story"; "Task"]
         issue_unreachable [parent_with_subtask] tt)
  = Some ([(JStr "GV-10", JStr "Summary of GV-10", JStr "-", "0 days",
            JStr "In Progress");
           (JStr "GV-11", JStr "-", JStr "-", "0 days", JStr "-")],
          []).
Proof. vm_compute. reflexivity. Qed.

(** The end-to-end scenario of the specification: remaining effort 50 on
    the first day, 30 from the second, 15 from the fifth to the tenth day;
    50 committed, 35 completed and one carry-over. *)
Example ten_day_sprint_burndown :
  fst <$> snd (render_burndown_png_bytes float_of_digits datetime_of_iso
                 (DateTime 1 0) sp_fields (serve_all ten_day_issues)
                 ten_day_report 7 50%Q tt)
  = Some (seqZ (ymd 2025 1 6) 10,
          [50%Q; 30%Q; 30%Q; 30%Q; 15%Q; 15%Q; 15%Q; 15%Q; 15%Q; 15%Q])
  ∧ compute_committed_completed_from_report float_of_digits ten_day_report
    = Some (50%Q, 35%Q, 0%nat, 1%nat).
Proof. vm_compute. split; reflexivity. Qed.

(** ** Retries and back-off *)

Lemma attempt_no_S {net A} (send : net → net * attempt A) (k : nat) (st : net) :
  attempt_no send (S k) st = attempt_no send k (fst (send st)).
Proof. reflexivity. Qed.

(** The loop, started at loop variable [i] with enough iterations left for
    [j] failures and one more attempt, all of them before the last try. *)
Lemma retry_loop_decisive {net A} (send : net → net * attempt A) (j : nat) :
  ∀ (n : nat) (i : Z) (st : net) (slept : list Q) (a : attempt A),
    (j < n)%nat →
    i + Z.of_nat j <= RETRY_MAX_TRIES →
    (∀ k, (k < j)%nat → attempt_no send k st = Failed) →
    attempt_no send j st = a →
    a ≠ Failed →
    retry_loop send n i st slept
    = (net_after send (S j) st, slept ++ map backoff_delay (seqZ i (Z.of_nat j)),
       outcome_of a).
Proof.
  induction j as [|j IH]; intros n i st slept a Hn Hi Hfail Ha Hne.
  - destruct n as [|n]; [lia|].
    unfold attempt_no in Ha. cbn [net_after] in Ha |- *.
    cbn [retry_loop]. destruct (send st) as [st' r]. cbn [snd fst] in *.
    subst r. rewrite seqZ_nil by lia. cbn [map]. rewrite app_nil_r.
    destruct a; [reflexivity|congruence|reflexivity].
  - destruct n as [|n]; [lia|].
    cbn [retry_loop].
    pose proof (Hfail 0%nat ltac:(lia)) as H0.
    unfold attempt_no in H0. cbn [net_after] in H0.
    change (net_after send (S (S j)) st)
      with (net_after send (S j) (fst (send st))).
    destruct (send st) as [st' r] eqn:Hs. cbn [snd fst] in *. subst r.
    assert (Hlt : (i <? RETRY_MAX_TRIES) = true) by (apply Z.ltb_lt; lia).
    rewrite Hlt.
    rewrite (IH n (i + 1) st' (_sleep_backoff i slept) a); try lia; try assumption.
    + unfold _sleep_backoff. rewrite <- app_assoc. cbn [app].
      rewrite (seqZ_cons i (Z.of_nat (S j))) by lia.
      cbn [map]. repeat f_equal; lia.
    + intros k Hk. specialize (Hfail (S k) ltac:(lia)).
      rewrite attempt_no_S, Hs in Hfail. exact Hfail.
    + rewrite attempt_no_S, Hs in Ha. exact Ha.
Qed.

Lemma retry_loop_exhausted {net A} (send : net → net * attempt A) (n : nat) :
  ∀ (i : Z) (st : net) (slept : list Q),
    i + Z.of_nat n = RETRY_MAX_TRIES + 1 →
    (∀ k, (k < n)%nat → attempt_no send k st = Failed) →
    retry_loop send n i st slept
    = (net_after send n st,
       slept ++ map backoff_delay (seqZ i (Z.of_nat n - 1)),
       GaveUp).
Proof.
  induction n as [|n IH]; intros i st slept Hi Hfail.
  - cbn [retry_loop net_after]. rewrite seqZ_nil by lia.
    cbn [map]. now rewrite app_nil_r.
  - cbn [retry_loop].
    pose proof (Hfail 0%nat ltac:(lia)) as H0.
    unfold attempt_no in H0. cbn [net_after] in H0.
    change (net_after send (S n) st) with (net_after send n (fst (send st))).
    destruct (send st) as [st' r] eqn:Hs. cbn [snd fst] in *. subst r.
    assert (Htail : ∀ k, (k < n)%nat → attempt_no send k st' = Failed).
    { intros k Hk. specialize (Hfail (S k) ltac:(lia)).
      rewrite attempt_no_S, Hs in Hfail. exact Hfail. }
    destruct n as [|n'].
    + assert (Hlt : (i <? RETRY_MAX_TRIES) = false) by (apply Z.ltb_ge; lia).
      rewrite Hlt. cbn [retry_loop net_after].
      rewrite seqZ_nil by lia. cbn [map]. now rewrite app_nil_r.
    + assert (Hlt : (i <? RETRY_MAX_TRIES) = true) by (apply Z.ltb_lt; lia).
      rewrite Hlt.
      rewrite (IH (i + 1) st' (_sleep_backoff i slept)); try lia; try assumption.
      unfold _sleep_backoff. rewrite <- app_assoc. cbn [app].
      rewrite (seqZ_cons i (Z.of_nat (S (S n')) - 1)) by lia.
      cbn [map]. repeat f_equal; lia.
Qed.

(** X1.  [request_with_retries] stops at the first attempt that does not
    fail with one of the caught errors: when the attempts before attempt
    [j + 1] (at most the fourth) fail and that one returns a value or raises
    another exception, the call ends with that value or exception, after
    exactly [j + 1] requests and one back-off sleep after each failure. *)
Theorem retries_stop_at_first_decisive_attempt {net A}
    (send : net → net * attempt A) (st : net) (slept : list Q) (j : nat)
    (a : attempt A) :
  (j < 4)%nat →
  (∀ k, (k < j)%nat → attempt_no send k st = Failed) →
  attempt_no send j st = a →
  a ≠ Failed →
  request_with_retries send st slept
  = (net_after send (S j) st,
     slept ++ map backoff_delay (seqZ 1 (Z.of_nat j)),
     outcome_of a).
Proof.
  intros Hj Hfail Ha Hne. unfold request_with_retries.
  apply retry_loop_decisive; try assumption.
  unfold RETRY_MAX_TRIES. lia.
Qed.

(** X2.  When four attempts in a row fail with a caught error,
    [request_with_retries] raises its [RuntimeError] after exactly four
    requests; it has slept after the first three failures and does not sleep
    after the last one. *)
Theorem retries_give_up_after_four_failures {net A}
    (send : net → net * attempt A) (st : net) (slept : list Q) :
  (∀ k, (k < 4)%nat → attempt_no send k st = Failed) →
  request_with_retries send st slept
  = (net_after send 4 st,
     slept ++ [backoff_delay 1; backoff_delay 2; backoff_delay 3],
     GaveUp).
Proof.
  intros Hfail. unfold request_with_retries.
  change (Z.to_nat RETRY_MAX_TRIES) with 4%nat.
  rewrite retry_loop_exhausted; [|unfold RETRY_MAX_TRIES; lia|assumption].
  reflexivity.
Qed.


(** ** Text helpers *)

Lemma str_app_cons (x : ascii) (a b : string) :
  (String x a ++ b)%string = String x (a ++ b)%string.
Proof. reflexivity. Qed.

Lemma str_app_nil_l (b : string) : ("" ++ b)%string = b.
Proof. reflexivity. Qed.

Ltac str_app := rewrite ?str_app_cons, ?str_app_nil_l.

Lemma str_app_assoc (a b c : string) :
  ((a ++ b) ++ c = a ++ (b ++ c))%string.
Proof. induction a as [|x a IH]; str_app; cbn; [reflexivity|now f_equal]. Qed.

Lemma str_app_nil_r (a : string) : (a ++ "")%string = a.
Proof. induction a as [|x a IH]; str_app; cbn; [reflexivity|now f_equal]. Qed.

Lemma str_length_app (a b : string) :
  String.length (a ++ b)%string = (String.length a + String.length b)%nat.
Proof. induction a as [|x a IH]; str_app; cbn; [reflexivity|now f_equal]. Qed.

Lemma chars_of_app (a b : string) :
  list_ascii_of_string (a ++ b)%string
  = list_ascii_of_string a ++ list_ascii_of_string b.
Proof. induction a as [|x a IH]; str_app; cbn; [reflexivity|now f_equal]. Qed.

Lemma replace_char_app (old : ascii) (new a b : string) :
  replace_char old new (a ++ b)%string
  = (replace_char old new a ++ replace_char old new b)%string.
Proof.
  induction a as [|x a IH]; str_app; cbn [replace_char]; [reflexivity|].
  destruct (Ascii.eqb x old); rewrite IH; [|reflexivity].
  now rewrite str_app_assoc.
Qed.

(** The four replacements of [escape_html], in its order. *)
Lemma escape_chain_cons (a : ascii) (r : string) :
  replace_char DQUOTE "&quot;"
    (replace_char ">" "&gt;"
       (replace_char "<" "&lt;" (replace_char "&" "&amp;" (String a r))))
  = (escape_char a
     ++ replace_char DQUOTE "&quot;"
          (replace_char ">" "&gt;"
             (replace_char "<" "&lt;" (replace_char "&" "&amp;" r))))%string.
Proof.
  unfold escape_char. cbn [replace_char].
  destruct (Ascii.eqb a "&") eqn:E1.
  { now rewrite !replace_char_app. }
  cbn [replace_char].
  destruct (Ascii.eqb a "<") eqn:E2.
  { now rewrite !replace_char_app. }
  cbn [replace_char].
  destruct (Ascii.eqb a ">") eqn:E3.
  { now rewrite !replace_char_app. }
  cbn [replace_char].
  destruct (Ascii.eqb a DQUOTE) eqn:E4; reflexivity.
Qed.

Lemma escape_chain_each (t : string) :
  replace_char DQUOTE "&quot;"
    (replace_char ">" "&gt;"
       (replace_char "<" "&lt;" (replace_char "&" "&amp;" t)))
  = escape_each t.
Proof.
  induction t as [|a r IH]; [reflexivity|].
  rewrite escape_chain_cons, IH. reflexivity.
Qed.

Lemma por_str_empty (t : string) :
  str_of (por (JStr t) (JStr "")) = Some t.
Proof.
  unfold por. cbn [truthy].
  destruct (String.eqb t "") eqn:E; cbn; [|reflexivity].
  apply String.eqb_eq in E. now subst.
Qed.

Lemma escape_html_each (t : string) :
  escape_html (JStr t) = Some (escape_each t).
Proof.
  unfold escape_html. rewrite por_str_empty. cbn [mbind option_bind].
  now rewrite escape_chain_each.
Qed.

(** X4.  On a string, the four successive replacements of [escape_html]
    amount to escaping each character once: an ampersand, angle bracket or
    double quote becomes its entity and every other character is kept; the
    ampersand written by a later replacement is never escaped again. *)
Theorem escape_html_escapes_each_character_once (t : string) :
  escape_html (JStr t) = Some (escape_each t).
Proof.
  unfold escape_html. rewrite por_str_empty. cbn [mbind option_bind].
  f_equal. induction t as [|a r IH]; [reflexivity|].
  rewrite escape_chain_cons, IH. reflexivity.
Qed.

Lemma escape_char_clean (a c : ascii) :
  In c (list_ascii_of_string (escape_char a)) →
  c ≠ "<"%char ∧ c ≠ ">"%char ∧ c ≠ DQUOTE.
Proof.
  unfold escape_char.
  destruct (Ascii.eqb a "&") eqn:E1.
  { cbn. intros H. repeat destruct H as [<-|H]; try easy. }
  destruct (Ascii.eqb a "<") eqn:E2.
  { cbn. intros H. repeat destruct H as [<-|H]; try easy. }
  destruct (Ascii.eqb a ">") eqn:E3.
  { cbn. intros H. repeat destruct H as [<-|H]; try easy. }
  destruct (Ascii.eqb a DQUOTE) eqn:E4.
  { cbn. intros H. repeat destruct H as [<-|H]; try easy. }
  cbn. intros [<-|[]].
  apply Ascii.eqb_neq in E2, E3, E4. easy.
Qed.

Lemma escape_each_clean (t : string) (c : ascii) :
  In c (list_ascii_of_string (escape_each t)) →
  c ≠ "<"%char ∧ c ≠ ">"%char ∧ c ≠ DQUOTE.
Proof.
  induction t as [|a r IH]; cbn [escape_each].
  - intros [].
  - rewrite chars_of_app, in_app_iff.
    intros [H|H]; [exact (escape_char_clean a c H)|exact (IH H)].
Qed.

(** X5.  Whenever [escape_html] returns, its result holds no angle bracket
    and no double quote; a missing value ([None]) and the empty string give
    the empty string. *)
Theorem escape_html_output_has_no_markup (s : json) (out : string) :
  escape_html s = Some out →
  (∀ c, In c (list_ascii_of_string out) →
        c ≠ "<"%char ∧ c ≠ ">"%char ∧ c ≠ DQUOTE)
  ∧ (truthy s = false → out = "").
Proof.
  unfold escape_html. intros H.
  destruct (str_of (por s (JStr ""))) as [t|] eqn:Ht; [|discriminate].
  cbn [mbind option_bind] in H. rewrite escape_chain_each in H.
  injection H as <-. split.
  - intros c. apply escape_each_clean.
  - intros Hf. unfold por in Ht. rewrite Hf in Ht.
    injection Ht as <-. reflexivity.
Qed.

Lemma escape_each_cons_inj (a b : ascii) (x y : string) :
  (escape_char a ++ x = escape_char b ++ y)%string → a = b ∧ x = y.
Proof.
  unfold escape_char.
  destruct (Ascii.eqb a "&") eqn:A1;
    [apply Ascii.eqb_eq in A1; subst a|];
    [|destruct (Ascii.eqb a "<") eqn:A2;
      [apply Ascii.eqb_eq in A2; subst a|];
      [|destruct (Ascii.eqb a ">") eqn:A3;
        [apply Ascii.eqb_eq in A3; subst a|];
        [|destruct (Ascii.eqb a DQUOTE) eqn:A4;
          [apply Ascii.eqb_eq in A4; subst a|]]]];
  (destruct (Ascii.eqb b "&") eqn:B1;
    [apply Ascii.eqb_eq in B1; subst b|];
    [|destruct (Ascii.eqb b "<") eqn:B2;
      [apply Ascii.eqb_eq in B2; subst b|];
      [|destruct (Ascii.eqb b ">") eqn:B3;
        [apply Ascii.eqb_eq in B3; subst b|];
        [|destruct (Ascii.eqb b DQUOTE) eqn:B4;
          [apply Ascii.eqb_eq in B4; subst b|]]]]);
  str_app; intros H;
  first [ discriminate H
        | injection H; intros; subst;
          first [ split; reflexivity
                | exfalso; vm_compute in *; congruence ] ].
Qed.

Lemma escape_char_nonempty (a : ascii) (x : string) :
  (escape_char a ++ x)%string ≠ "".
Proof.
  unfold escape_char.
  destruct (Ascii.eqb a "&"); [discriminate|].
  destruct (Ascii.eqb a "<"); [discriminate|].
  destruct (Ascii.eqb a ">"); [discriminate|].
  destruct (Ascii.eqb a DQUOTE); discriminate.
Qed.

Lemma escape_each_inj (s t : string) :
  escape_each s = escape_each t → s = t.
Proof.
  revert t. induction s as [|a s IH]; intros [|b t] H; cbn [escape_each] in H.
  - reflexivity.
  - symmetry in H. now apply escape_char_nonempty in H.
  - now apply escape_char_nonempty in H.
  - apply escape_each_cons_inj in H as [-> H]. f_equal. now apply IH.
Qed.

(** X6.  [escape_html] loses nothing: two strings with the same escaped form
    are the same string. *)
Theorem escape_html_is_injective (s t : string) :
  escape_html (JStr s) = escape_html (JStr t) → s = t.
Proof.
  rewrite !escape_html_each.
  intros H. injection H as H. now apply escape_each_inj.
Qed.

(** *** Truncation *)

Lemma str_rev_onto_app (s acc : string) :
  str_rev_onto s acc = (str_rev s ++ acc)%string.
Proof.
  unfold str_rev. revert acc.
  induction s as [|a s IH]; intros acc; cbn [str_rev_onto].
  - reflexivity.
  - rewrite (IH (String a acc)), (IH (String a "")).
    rewrite str_app_assoc. reflexivity.
Qed.

Lemma str_rev_cons (a : ascii) (s : string) :
  str_rev (String a s) = (str_rev s ++ String a "")%string.
Proof. unfold str_rev at 1. cbn [str_rev_onto]. apply str_rev_onto_app. Qed.

Lemma str_rev_app (s t : string) :
  str_rev (s ++ t)%string = (str_rev t ++ str_rev s)%string.
Proof.
  induction s as [|a s IH]; str_app.
  - now rewrite str_app_nil_r.
  - rewrite !str_rev_cons, IH, str_app_assoc. reflexivity.
Qed.

Lemma str_rev_involutive (s : string) : str_rev (str_rev s) = s.
Proof.
  induction s as [|a s IH]; [reflexivity|].
  rewrite str_rev_cons, str_rev_app, IH. reflexivity.
Qed.

Lemma str_rev_length (s : string) :
  String.length (str_rev s) = String.length s.
Proof.
  induction s as [|a s IH]; [reflexivity|].
  rewrite str_rev_cons, str_length_app, IH. cbn. lia.
Qed.

Lemma lstrip_suffix (s : string) : ∃ w, s = (w ++ lstrip s)%string.
Proof.
  induction s as [|a s [w IH]]; cbn [lstrip].
  - now exists "".
  - destruct (is_space a).
    + exists (String a w). str_app. now f_equal.
    + now exists "".
Qed.

Lemma lstrip_idem (s : string) : lstrip (lstrip s) = lstrip s.
Proof.
  induction s as [|a s IH]; cbn [lstrip]; [reflexivity|].
  destruct (is_space a) eqn:E; [exact IH|].
  cbn [lstrip]. now rewrite E.
Qed.

Lemma rstrip_prefix (s : string) : ∃ w, s = (rstrip s ++ w)%string.
Proof.
  unfold rstrip.
  destruct (lstrip_suffix (str_rev s)) as [w Hw].
  exists (str_rev w).
  rewrite <- str_rev_app, <- Hw. now rewrite str_rev_involutive.
Qed.

Lemma rstrip_idem (s : string) : rstrip (rstrip s) = rstrip s.
Proof. unfold rstrip. now rewrite str_rev_involutive, lstrip_idem. Qed.

Lemma str_take_prefix (n : nat) (t : string) :
  ∃ w, t = (str_take n t ++ w)%string.
Proof.
  revert t. induction n as [|n IH]; intros [|a t]; cbn [str_take].
  - now exists "".
  - now exists (String a t).
  - now exists "".
  - destruct (IH t) as [w Hw]. exists w. str_app. now f_equal.
Qed.

Lemma str_take_length (n : nat) (t : string) :
  (String.length (str_take n t) <= n)%nat.
Proof.
  revert t. induction n as [|n IH]; intros [|a t]; cbn; try lia.
  specialize (IH t). lia.
Qed.

Lemma before_last_space_prefix (s p : string) :
  before_last_space s = Some p → ∃ w, s = (p ++ w)%string.
Proof.
  revert p. induction s as [|a s IH]; intros p; cbn [before_last_space].
  - discriminate.
  - destruct (before_last_space s) as [q|].
    + intros [= <-]. destruct (IH q eq_refl) as [w Hw].
      exists w. str_app. now f_equal.
    + destruct (Ascii.eqb a " "); [|discriminate].
      intros [= <-]. now exists (String a s).
Qed.

Lemma rsplit_space_head_prefix (s : string) :
  ∃ w, s = (rsplit_space_head s ++ w)%string.
Proof.
  unfold rsplit_space_head.
  destruct (before_last_space s) as [p|] eqn:E; cbn [default from_option id].
  - now apply before_last_space_prefix.
  - exists "". now rewrite str_app_nil_r.
Qed.

Lemma prefix_length (p w : string) :
  (String.length p <= String.length (p ++ w)%string)%nat.
Proof. rewrite str_length_app. lia. Qed.

(** X7.  [truncate_text] returns the trimmed text unchanged when it has at
    most [max_chars] characters; otherwise it returns a prefix of the trimmed
    text, at most [max_chars] characters long and without trailing white
    space, followed by the ellipsis. *)
Theorem truncate_text_keeps_a_prefix (text : json) (max_chars : nat)
    (out : string) :
  truncate_text text max_chars = Some out →
  ∃ t0, str_of (por text (JStr "")) = Some t0
    ∧ ((String.length (strip t0) <= max_chars)%nat ∧ out = strip t0
       ∨ (max_chars < String.length (strip t0))%nat
         ∧ ∃ p w, out = (p ++ ELLIPSIS)%string
                  ∧ strip t0 = (p ++ w)%string
                  ∧ (String.length p <= max_chars)%nat
                  ∧ rstrip p = p).
Proof.
  unfold truncate_text. intros H.
  destruct (str_of (por text (JStr ""))) as [t0|]; [|discriminate].
  cbn [mbind option_bind] in H. exists t0. split; [reflexivity|].
  set (t := strip t0) in *.
  destruct (Nat.leb (String.length t) max_chars) eqn:E.
  - apply Nat.leb_le in E. left. split; [exact E|congruence].
  - apply Nat.leb_gt in E. right. split; [exact E|].
    cbv zeta in H. injection H as <-.
    set (hd := str_take max_chars t).
    set (base := if String.eqb (rsplit_space_head hd) "" then hd
                 else rsplit_space_head hd).
    destruct (str_take_prefix max_chars t) as [w1 Hw1]. fold hd in Hw1.
    assert (Hbase : ∃ w2, hd = (base ++ w2)%string).
    { unfold base. destruct (String.eqb (rsplit_space_head hd) "").
      - exists "". now rewrite str_app_nil_r.
      - apply rsplit_space_head_prefix. }
    destruct Hbase as [w2 Hw2].
    destruct (rstrip_prefix base) as [w3 Hw3].
    exists (rstrip base), (w3 ++ w2 ++ w1)%string.
    split; [reflexivity|]. split; [|split].
    + rewrite <- !str_app_assoc, <- Hw3, <- Hw2. exact Hw1.
    + pose proof (str_take_length max_chars t) as Hl. fold hd in Hl.
      pose proof (prefix_length base w2) as H2. rewrite <- Hw2 in H2.
      pose proof (prefix_length (rstrip base) w3) as H3. rewrite <- Hw3 in H3.
      lia.
    + apply rstrip_idem.
Qed.

(** ** Working days of a sprint *)

Lemma working_days_inclusive_count (sd ed : date_like) :
  1 <= to_date sd → to_date ed < DATE_MAX →
  working_days_inclusive (Some sd) (Some ed)
  = Some (working_days_between (to_date sd - 1) (to_date ed)).
Proof.
  intros Hs He. unfold working_days_inclusive, working_days_between.
  cbv zeta.
  replace (to_date sd - 1 + 1) with (to_date sd) by lia.
  replace (to_date ed - (to_date sd - 1)) with (to_date ed - to_date sd + 1) by lia.
  destruct (to_date ed <? to_date sd) eqn:E.
  - apply Z.ltb_lt in E. rewrite seqZ_nil by lia. reflexivity.
  - apply Z.ltb_ge in E.
    rewrite (count_loop_spec (Z.to_nat (to_date ed - to_date sd + 1)));
      try lia.
    rewrite Z2Nat.id by lia. reflexivity.
Qed.

Lemma working_days_between_first (c t : Z) :
  c <= t →
  working_days_between (c - 1) t
  = (if weekday c <? 5 then 1 else 0) + working_days_between c t.
Proof.
  intros H. unfold working_days_between.
  replace (c - 1 + 1) with c by lia.
  replace (t - (c - 1)) with (Z.succ (t - c)) by lia.
  rewrite seqZ_cons by lia.
  replace (Z.pred (Z.succ (t - c))) with (t - c) by lia.
  replace (Z.succ c) with (c + 1) by lia.
  cbn [List.filter]. unfold is_working_day at 1.
  destruct (weekday c <? 5); cbn [length]; lia.
Qed.

(** X8.  Over the same two dates, the inclusive count of
    [working_days_inclusive] is the count of [working_days_since] plus one
    when the start date itself is a working day. *)
Theorem working_days_inclusive_adds_the_start_day (now_date : Z)
    (sd : date_like) (e : Z) :
  1 <= to_date sd → to_date sd <= e → e < DATE_MAX →
  ∃ n, working_days_since now_date (Some sd) (Some e) = Some n
       ∧ working_days_inclusive (Some sd) (Some (ADate e))
         = Some ((if weekday (to_date sd) <? 5 then 1 else 0) + n).
Proof.
  intros Hs Hse He.
  rewrite working_days_inclusive_count by (cbn [to_date]; lia).
  cbn [to_date]. rewrite working_days_between_first by lia.
  destruct (Z.eq_dec (to_date sd) e) as [Heq|Hne].
  - exists 0. split.
    + apply working_days_since_not_after. cbn [default from_option id]. lia.
    + f_equal. f_equal. unfold working_days_between.
      rewrite seqZ_nil by lia. reflexivity.
  - exists (working_days_between (to_date sd) e). split; [|reflexivity].
    apply working_days_since_count; cbn [default from_option id]; lia.
Qed.




(** X10.  [working_days_inclusive] returns 0 when the end date precedes the
    start date, and raises when the end date is the last representable date
    (9999-12-31) and the start date is not after it: the loop steps past the
    end date before it tests it. *)
Theorem working_days_inclusive_edges (sd : date_like) (e : Z) :
  valid_date (to_date sd) →
  (e < to_date sd → working_days_inclusive (Some sd) (Some (ADate e)) = Some 0)
  ∧ working_days_inclusive (Some sd) (Some (ADate DATE_MAX)) = None.
Proof.
  intros [Hs1 Hs2]. split.
  - intros He. unfold working_days_inclusive. cbn [to_date]. cbv zeta.
    apply Z.ltb_lt in He. now rewrite He.
  - unfold working_days_inclusive. cbn [to_date]. cbv zeta.
    assert (E : (DATE_MAX <? to_date sd) = false) by (apply Z.ltb_ge; lia).
    rewrite E. apply count_loop_overflow; [lia|]. lia.
Qed.

(** ** Field discovery *)

Lemma filter_opt_filter (p : json → option bool) (xs ys : list json) :
  filter_opt p xs = Some ys →
  ys = List.filter (λ x, default false (p x)) xs.
Proof.
  revert ys. induction xs as [|x xs IH]; intros ys H; cbn [filter_opt] in H.
  - now injection H as <-.
  - destruct (p x) as [b|] eqn:Hp; [|discriminate].
    cbn [mbind option_bind] in H.
    destruct (filter_opt p xs) as [zs|]; [|discriminate].
    cbn [mbind option_bind] in H. injection H as <-.
    cbn [List.filter]. rewrite Hp. cbn [default from_option id].
    rewrite (IH zs eq_refl). reflexivity.
Qed.

Lemma filter_opt_total (p : json → option bool) (xs ys : list json) :
  filter_opt p xs = Some ys → ∀ x, x ∈ xs → is_Some (p x).
Proof.
  revert ys. induction xs as [|x xs IH]; intros ys H y Hy.
  - inversion Hy.
  - cbn [filter_opt] in H.
    destruct (p x) as [b|] eqn:Hp; [|discriminate].
    cbn [mbind option_bind] in H.
    destruct (filter_opt p xs) as [zs|] eqn:Hz; [|discriminate].
    apply elem_of_cons in Hy as [->|Hy]; [now rewrite Hp|].
    exact (IH zs eq_refl y Hy).
Qed.

(** A candidate effort field is a dict with a string name and an id that
    starts with [customfield_]. *)
Lemma cand_shape (f : json) :
  is_cand f = true →
  ∃ m s, f = JObj m ∧ m !! "id" = Some (JStr s)
         ∧ startswith s "customfield_" = true
         ∧ (m !! "name" = None ∨ ∃ t, m !! "name" = Some (JStr t)).
Proof.
  unfold is_cand, is_sp_candidate. intros H.
  destruct f as [| | | | |m]; try discriminate H.
  exists m. cbn [dget_def dget mbind option_bind] in H.
  destruct (str_of (default (JStr "") (m !! "name"))) as [t|] eqn:Hn;
    [|discriminate H].
  cbn [mbind option_bind] in H.
  destruct (negb (contains "story point" (lower t))); [discriminate H|].
  destruct (dget (por (default JNull (m !! "schema")) empty_dict) "type")
    as [ty|]; [|discriminate H].
  cbn [mbind option_bind] in H.
  destruct (negb (eq_str ty "number")); [discriminate H|].
  destruct (m !! "id") as [i|] eqn:Hi; cbn [default from_option id] in H.
  - destruct i as [| | |s| |]; try discriminate H.
    cbn [str_of mbind option_bind default from_option id] in H.
    exists s. repeat split; try reflexivity.
    + congruence.
    + destruct (m !! "name") as [n|]; [right|now left].
      cbn [default from_option id] in Hn.
      destruct n; try discriminate Hn. eauto.
  - discriminate H.
Qed.

Lemma cand_id (f : json) :
  is_cand f = true →
  ∃ s, dindex f "id" = Some (JStr s) ∧ id_of f = JStr s
       ∧ startswith s "customfield_" = true.
Proof.
  intros H. destruct (cand_shape f H) as (m & s & -> & Hid & Hs & _).
  exists s. unfold id_of. cbn [dindex dget]. rewrite Hid. auto.
Qed.

Lemma cand_truthy (f : json) : is_cand f = true → truthy f = true.
Proof.
  intros H. destruct (cand_shape f H) as (m & s & -> & Hid & _).
  cbn [truthy]. destruct (size m) eqn:E; [|reflexivity].
  apply map_size_empty_iff in E. subst m. now rewrite lookup_empty in Hid.
Qed.

Lemma cand_named (nm : string) (f : json) :
  is_cand f = true → named nm f = Some (has_name nm f).
Proof.
  intros H. destruct (cand_shape f H) as (m & s & -> & _ & _ & Hn).
  unfold has_name, named. cbn [dget mbind option_bind].
  destruct Hn as [Hn|[t Hn]]; rewrite Hn; cbn [default from_option id].
  - reflexivity.
  - unfold por. cbn [truthy]. destruct (negb (String.eqb t "")); reflexivity.
Qed.

Lemma first_named_find (nm : string) (cands : list json) (pref : json) :
  Forall (λ f, is_cand f = true) cands →
  first_named nm cands pref
  = Some (default pref (List.find (has_name nm) cands)).
Proof.
  induction 1 as [|f cands Hf _ IH]; cbn [first_named List.find].
  - reflexivity.
  - rewrite (cand_named nm f Hf). cbn [mbind option_bind].
    destruct (has_name nm f); [reflexivity|exact IH].
Qed.

Lemma find_cand {P : json → bool} (cands : list json) (f : json) :
  Forall (λ f, is_cand f = true) cands →
  List.find P cands = Some f → is_cand f = true ∧ f ∈ cands.
Proof.
  intros Hall Hf. apply List.find_some in Hf as [Hin _].
  split; [|now apply list_elem_of_In].
  rewrite Forall_forall in Hall. apply Hall. now apply list_elem_of_In.
Qed.

(** The record the primary id is read from is the candidate the preference
    rule names. *)
Lemma preferred_is_candidate (cands : list json) (pref : json) :
  Forall (λ f, is_cand f = true) cands →
  preferred ["Story Points"; "Story Point"] cands JNull = Some pref →
  por pref (match cands with c :: _ => c | [] => empty_dict end)
  = default empty_dict (preferred_candidate cands).
Proof.
  intros Hall. unfold preferred_candidate. cbn [preferred].
  rewrite !first_named_find by assumption. cbn [mbind option_bind].
  destruct (List.find (has_name "Story Points") cands) as [f|] eqn:E1;
    cbn [default from_option id].
  - destruct (find_cand cands f Hall E1) as [Hc _].
    rewrite (cand_truthy f Hc). intros [= <-].
    unfold por. now rewrite (cand_truthy f Hc).
  - cbn [truthy]. rewrite first_named_find by assumption.
    cbn [mbind option_bind].
    destruct (List.find (has_name "Story Point") cands) as [f|] eqn:E2;
      cbn [default from_option id].
    + destruct (find_cand cands f Hall E2) as [Hc _].
      rewrite (cand_truthy f Hc). intros [= <-].
      unfold por. now rewrite (cand_truthy f Hc).
    + cbn [truthy]. intros [= <-]. unfold por. cbn [truthy].
      destruct cands; reflexivity.
Qed.

Lemma preferred_candidate_in (cands : list json) (c : json) :
  preferred_candidate cands = Some c → c ∈ cands.
Proof.
  unfold preferred_candidate.
  destruct (List.find (has_name "Story Points") cands) as [f|] eqn:E1.
  - intros [= <-]. apply List.find_some in E1 as [Hin _].
    now apply list_elem_of_In.
  - destruct (List.find (has_name "Story Point") cands) as [f|] eqn:E2.
    + intros [= <-]. apply List.find_some in E2 as [Hin _].
      now apply list_elem_of_In.
    + destruct cands; [discriminate|]. intros [= <-]. apply list_elem_of_here.
Qed.

Lemma candidates_all (fields : list json) :
  Forall (λ f, is_cand f = true) (candidates fields).
Proof.
  apply Forall_forall. intros f Hf. apply list_elem_of_In in Hf.
  unfold candidates in Hf. apply List.filter_In in Hf. tauto.
Qed.

(** Membership in the set of ids already listed. *)
Lemma pyset_mem_str (s : string) (ids : list json) :
  Forall (λ x, ∃ t, x = JStr t) ids →
  ∃ b, pyset_mem (JStr s) ids = Some b ∧ (b = true ↔ JStr s ∈ ids).
Proof.
  intros Hall. unfold pyset_mem. cbn [hashable].
  exists (existsb (key_eqb (JStr s)) ids). split; [reflexivity|].
  induction Hall as [|x ids [t ->] _ IH]; cbn [existsb].
  - split; [discriminate|]. intros H. inversion H.
  - rewrite orb_true_iff, IH, elem_of_cons. cbn [key_eqb].
    rewrite String.eqb_eq. split.
    + intros [->|H]; [now left|now right].
    + intros [[= ->]|H]; [now left|now right].
Qed.

Lemma add_candidate_ids_spec (cands : list json) : ∀ ids0 ids,
  Forall (λ f, is_cand f = true) cands →
  Forall (λ x, ∃ t, x = JStr t) ids0 →
  NoDup ids0 →
  add_candidate_ids cands ids0 = Some ids →
  NoDup ids
  ∧ (∃ more, ids = ids0 ++ more)
  ∧ (∀ x, x ∈ ids ↔ x ∈ ids0 ∨ ∃ c, c ∈ cands ∧ x = id_of c).
Proof.
  induction cands as [|f cands IH]; intros ids0 ids Hall Hstr Hnd H.
  - cbn [add_candidate_ids] in H. injection H as <-.
    split; [exact Hnd|]. split; [exists []; now rewrite app_nil_r|].
    intros x. split; [now left|].
    intros [Hx|(c & Hc & _)]; [exact Hx|inversion Hc].
  - apply Forall_cons in Hall as [Hf Hall].
    destruct (cand_id f Hf) as (s & Hidx & Hid & _).
    cbn [add_candidate_ids] in H. rewrite Hidx in H.
    cbn [mbind option_bind] in H.
    destruct (pyset_mem_str s ids0 Hstr) as (b & Hb & Hbin).
    rewrite Hb in H. cbn [mbind option_bind] in H.
    destruct b.
    + assert (D : JStr s ∈ ids0) by now apply Hbin.
      destruct (IH ids0 ids Hall Hstr Hnd H) as (N & P & M).
      split; [exact N|]. split; [exact P|].
      intros x. rewrite M. split.
      * intros [Hx|(c & Hc & ->)]; [now left|].
        right. exists c. split; [now apply list_elem_of_further|reflexivity].
      * intros [Hx|(c & Hc & ->)]; [now left|].
        apply elem_of_cons in Hc as [->|Hc].
        -- left. now rewrite Hid.
        -- right. eauto.
    + assert (D : JStr s ∉ ids0).
      { intros D. apply Hbin in D. discriminate D. }
      assert (Hstr' : Forall (λ x, ∃ t, x = JStr t) (ids0 ++ [JStr s])).
      { apply Forall_app. split; [exact Hstr|]. constructor; eauto. }
      assert (Hnd' : NoDup (ids0 ++ [JStr s])).
      { apply NoDup_app. split; [exact Hnd|]. split.
        - intros x Hx Hx'. apply list_elem_of_singleton in Hx'. now subst x.
        - apply NoDup_singleton. }
      destruct (IH (ids0 ++ [JStr s]) ids Hall Hstr' Hnd' H) as (N & [more P] & M).
      split; [exact N|]. split.
      { exists (JStr s :: more). rewrite P, <- app_assoc. reflexivity. }
      intros x. rewrite M, elem_of_app, list_elem_of_singleton. split.
      * intros [[Hx| ->]|(c & Hc & ->)].
        -- now left.
        -- right. exists f. split; [apply list_elem_of_here|now rewrite Hid].
        -- right. exists c. split; [now apply list_elem_of_further|reflexivity].
      * intros [Hx|(c & Hc & ->)]; [now left; left|].
        apply elem_of_cons in Hc as [->|Hc].
        -- left. right. now rewrite Hid.
        -- right. eauto.
Qed.

(** What a successful discovery has computed. *)
Lemma discover_returns (fields : list json) (cfg : field_ids) :
  discover_field_ids fields = Return cfg →
  ∃ c, preferred_candidate (candidates fields) = Some c
       ∧ STORY_POINTS_FIELD_ID cfg = id_of c
       ∧ add_candidate_ids (candidates fields) [id_of c]
         = Some (STORY_POINTS_FIELD_IDS cfg)
       ∧ find_epic_link fields = Some (EPIC_LINK_FIELD_ID cfg)
       ∧ truthy (EPIC_LINK_FIELD_ID cfg) = true.
Proof.
  unfold discover_field_ids, discover_try. intros H.
  destruct (find_epic_link fields) as [epic|]; [|discriminate H].
  cbn [mbind option_bind] in H.
  destruct (filter_opt is_sp_candidate fields) as [cands|] eqn:Hc;
    [|discriminate H].
  cbn [mbind option_bind] in H.
  apply filter_opt_filter in Hc. fold is_cand in Hc.
  change (List.filter (λ x, is_cand x) fields) with (candidates fields) in Hc.
  subst cands. pose proof (candidates_all fields) as Hall.
  change (List.filter is_cand fields) with (candidates fields) in H.
  destruct (preferred ["Story Points"; "Story Point"] (candidates fields) JNull)
    as [pref|] eqn:Hp; [|discriminate H].
  cbn [mbind option_bind] in H.
  rewrite (preferred_is_candidate _ _ Hall Hp) in H.
  destruct (preferred_candidate (candidates fields)) as [c|] eqn:Hpc.
  - pose proof (preferred_candidate_in _ _ Hpc) as Hin.
    rewrite Forall_forall in Hall.
    destruct (cand_shape c (Hall c Hin)) as (m & s & -> & Hid & Hs & _).
    cbn [default from_option id dget mbind option_bind] in H.
    rewrite Hid in H. cbn [default from_option id truthy hashable] in H.
    assert (Hne : negb (String.eqb s "") = true).
    { destruct s; [vm_compute in Hs; discriminate Hs|reflexivity]. }
    rewrite Hne in H. cbn [mbind option_bind] in H.
    assert (Hidc : id_of (JObj m) = JStr s).
    { unfold id_of. cbn [dget]. now rewrite Hid. }
    destruct (add_candidate_ids (candidates fields) [JStr s]) as [ids|] eqn:Ha;
      [|discriminate H].
    cbn [mbind option_bind] in H.
    destruct (negb (truthy epic)) eqn:He; [discriminate H|].
    destruct ids as [|i0 ids']; [discriminate H|].
    cbn [negb default from_option id] in H.
    injection H as <-. exists (JObj m).
    cbn [EPIC_LINK_FIELD_ID STORY_POINTS_FIELD_ID STORY_POINTS_FIELD_IDS].
    rewrite Hidc. repeat split; try assumption.
    now apply negb_false_iff in He.
  - exfalso. unfold preferred_candidate in Hpc.
    destruct (List.find (has_name "Story Points") (candidates fields));
      [discriminate|].
    destruct (List.find (has_name "Story Point") (candidates fields));
      [discriminate|].
    destruct (candidates fields) eqn:E; [|discriminate].
    cbn [default from_option id dget empty_dict mbind option_bind] in H.
    rewrite lookup_empty in H.
    cbn [default from_option id truthy mbind option_bind add_candidate_ids negb]
      in H.
    destruct (negb (truthy epic)); discriminate H.
Qed.

(** X11.  When [discover_field_ids] returns, the list of effort field ids is
    not empty, starts with the primary id, holds no id twice, and holds
    exactly the ids of the candidate fields of the catalogue, each of them a
    string that starts with [customfield_]. *)
Theorem discovered_effort_fields (fields : list json) (cfg : field_ids) :
  discover_field_ids fields = Return cfg →
  head (STORY_POINTS_FIELD_IDS cfg) = Some (STORY_POINTS_FIELD_ID cfg)
  ∧ NoDup (STORY_POINTS_FIELD_IDS cfg)
  ∧ (∀ x, x ∈ STORY_POINTS_FIELD_IDS cfg
          ↔ ∃ f, f ∈ fields ∧ is_cand f = true ∧ x = id_of f)
  ∧ (∀ x, x ∈ STORY_POINTS_FIELD_IDS cfg
          → ∃ s, x = JStr s ∧ startswith s "customfield_" = true).
Proof.
  intros H. destruct (discover_returns fields cfg H) as (c & Hpc & Hp & Ha & _).
  pose proof (candidates_all fields) as Hall.
  pose proof (preferred_candidate_in _ _ Hpc) as Hin.
  assert (Hcand : ∀ f, f ∈ candidates fields ↔ f ∈ fields ∧ is_cand f = true).
  { intros f. unfold candidates.
    rewrite !list_elem_of_In, List.filter_In. reflexivity. }
  destruct (cand_id c) as (s & _ & Hs & _).
  { rewrite Forall_forall in Hall. now apply Hall. }
  destruct (add_candidate_ids_spec (candidates fields) [id_of c]
              (STORY_POINTS_FIELD_IDS cfg) Hall) as (N & [more P] & M).
  { constructor; [eauto|constructor]. }
  { apply NoDup_singleton. }
  { exact Ha. }
  assert (Hmem : ∀ x, x ∈ STORY_POINTS_FIELD_IDS cfg
                      ↔ ∃ f, f ∈ fields ∧ is_cand f = true ∧ x = id_of f).
  { intros x. rewrite M, list_elem_of_singleton. split.
    - intros [->|(f & Hf & ->)].
      + exists c. apply Hcand in Hin. tauto.
      + exists f. apply Hcand in Hf. tauto.
    - intros (f & Hf & Hc & ->). right. exists f.
      split; [apply Hcand; tauto|reflexivity]. }
  split; [rewrite P, Hp; reflexivity|].
  split; [exact N|]. split; [exact Hmem|].
  intros x Hx. apply Hmem in Hx as (f & _ & Hc & ->).
  destruct (cand_id f Hc) as (t & _ & Ht & Hst). eauto.
Qed.

(** X12.  When [discover_field_ids] returns, the primary effort field is the
    first candidate whose trimmed name is "Story Points" in any letter case;
    without one, the first candidate named "Story Point"; without one, the
    first candidate of the catalogue. *)
Theorem discovered_primary_field_preference (fields : list json)
    (cfg : field_ids) :
  discover_field_ids fields = Return cfg →
  ∃ c, preferred_candidate (candidates fields) = Some c
       ∧ STORY_POINTS_FIELD_ID cfg = id_of c.
Proof.
  intros H. destruct (discover_returns fields cfg H) as (c & Hpc & Hp & _).
  eauto.
Qed.

Lemma find_epic_link_first (fields : list json) (epic : json) :
  find_epic_link fields = Some epic →
  match List.find (has_name "epic link") fields with
  | Some f => dindex f "id" = Some epic
  | None => epic = JNull
  end.
Proof.
  induction fields as [|f fields IH]; cbn [find_epic_link List.find].
  - now intros [= <-].
  - unfold has_name. destruct (named "epic link" f) as [b|]; [|discriminate].
    cbn [mbind option_bind default from_option id].
    destruct b; [tauto|exact IH].
Qed.

(** X13.  When [discover_field_ids] returns, the epic-link id is the id of
    the first field of the catalogue whose trimmed name is "epic link" in
    any letter case, it is not empty, and the catalogue has a candidate
    effort field: with no such field or no candidate the call does not
    return. *)
Theorem discovery_needs_both_fields (fields : list json) (cfg : field_ids) :
  discover_field_ids fields = Return cfg →
  (∃ f, List.find (has_name "epic link") fields = Some f
        ∧ dindex f "id" = Some (EPIC_LINK_FIELD_ID cfg))
  ∧ truthy (EPIC_LINK_FIELD_ID cfg) = true
  ∧ candidates fields ≠ [].
Proof.
  intros H.
  destruct (discover_returns fields cfg H) as (c & Hpc & _ & _ & He & Ht).
  split; [|split; [exact Ht|]].
  - apply find_epic_link_first in He.
    destruct (List.find (has_name "epic link") fields) as [f|].
    + exists f. auto.
    + rewrite He in Ht. discriminate Ht.
  - apply preferred_candidate_in in Hpc. intros E. rewrite E in Hpc.
    inversion Hpc.
Qed.

Lemma filter_opt_raises (p : json → option bool) (xs : list json) (x : json) :
  x ∈ xs → p x = None → filter_opt p xs = None.
Proof.
  intros Hin Hp. destruct (filter_opt p xs) as [ys|] eqn:E; [|reflexivity].
  destruct (filter_opt_total p xs ys E x Hin) as [b Hb]. congruence.
Qed.

(** X29.  A catalogue entry whose name is null makes [discover_field_ids]
    raise, wherever it stands and whatever the other entries are: the search
    for the effort fields reads the name without the guard the epic-link
    search has. *)
Theorem discovery_raises_on_null_name (fields : list json)
    (m : gmap string json) :
  JObj m ∈ fields →
  m !! "name" = Some JNull →
  discover_field_ids fields = Raises.
Proof.
  intros Hin Hname. unfold discover_field_ids, discover_try.
  destruct (find_epic_link fields) as [epic|]; [|reflexivity].
  cbn [mbind option_bind].
  rewrite (filter_opt_raises is_sp_candidate fields (JObj m) Hin); [reflexivity|].
  unfold is_sp_candidate. cbn [dget_def mbind option_bind]. rewrite Hname.
  reflexivity.
Qed.

(** ** Boards and closed sprints *)

Lemma Qeq_bool_sym (p q : Q) : Qeq_bool p q = Qeq_bool q p.
Proof.
  destruct (Qeq_bool p q) eqn:E; symmetry.
  - apply Qeq_bool_iff. symmetry. now apply Qeq_bool_iff.
  - destruct (Qeq_bool q p) eqn:E'; [|reflexivity].
    apply Qeq_bool_iff in E'. symmetry in E'. apply Qeq_bool_iff in E'.
    congruence.
Qed.

Lemma key_eqb_sym (a b : json) : key_eqb a b = key_eqb b a.
Proof.
  destruct a, b; cbn; try reflexivity;
    try apply Qeq_bool_sym; try apply String.eqb_sym.
Qed.

Section Listing.
Context {upstream : Type}.
Variable get_values_page : upstream → nat → upstream * option (list json).

(** The inner loop keeps [seen] equal to the ids of the sprints kept so far
    and never keeps a sprint whose id is already there. *)
Lemma add_unseen_distinct (vals : list json) : ∀ seen sprints seen' sprints',
  seen = map id_of sprints →
  distinct_ids sprints →
  add_unseen vals seen sprints = Some (seen', sprints') →
  seen' = map id_of sprints' ∧ distinct_ids sprints'.
Proof.
  induction vals as [|s vals IH]; intros seen sprints seen' sprints' Hs Hd H.
  - cbn [add_unseen] in H. injection H as <- <-. auto.
  - cbn [add_unseen] in H.
    destruct (dget s "id") as [sid|] eqn:Hid; [|discriminate H].
    cbn [mbind option_bind] in H.
    unfold pyset_mem in H. destruct (hashable sid); [|discriminate H].
    cbn [mbind option_bind] in H.
    destruct (existsb (key_eqb sid) seen) eqn:E.
    + exact (IH _ _ _ _ Hs Hd H).
    + assert (Hsid : id_of s = sid) by (unfold id_of; now rewrite Hid).
      apply (IH _ _ _ _) in H; [exact H| |].
      * rewrite map_app, Hs. cbn [map]. now rewrite Hsid.
      * intros i j a b Hij Ha Hb.
        destruct (decide (j < length sprints)%nat) as [Hj|Hj].
        -- rewrite lookup_app_l in Ha, Hb by lia. exact (Hd i j a b Hij Ha Hb).
        -- rewrite lookup_app_r in Hb by lia.
           destruct (j - length sprints)%nat eqn:Ej; [|destruct n; discriminate Hb].
           cbn in Hb. injection Hb as <-.
           rewrite lookup_app_l in Ha by lia.
           assert (Hin : In (id_of a) seen).
           { rewrite Hs. apply in_map. apply list_elem_of_In.
             now apply list_elem_of_lookup_2 in Ha. }
           rewrite key_eqb_sym, Hsid.
           destruct (key_eqb sid (id_of a)) eqn:K; [|reflexivity].
           assert (existsb (key_eqb sid) seen = true).
           { apply existsb_exists. eauto. }
           congruence.
Qed.

Lemma sprints_loop_distinct (fuel : nat) : ∀ st start seen sprints st' out,
  seen = map id_of sprints →
  distinct_ids sprints →
  sprints_loop get_values_page fuel st start seen sprints = (st', Return out) →
  distinct_ids out.
Proof.
  induction fuel as [|fuel IH]; intros st start seen sprints st' out Hs Hd H.
  - discriminate H.
  - cbn [sprints_loop] in H.
    destruct (get_values_page st start) as [st1 [vals|]]; [|discriminate H].
    destruct (add_unseen vals seen sprints) as [[seen1 sprints1]|] eqn:Ha;
      [|discriminate H].
    destruct (add_unseen_distinct _ _ _ _ _ Hs Hd Ha) as [Hs1 Hd1].
    destruct (Nat.eqb (length vals) 0 || Nat.ltb (length vals) 50).
    + injection H as _ <-. exact Hd1.
    + exact (IH _ _ _ _ _ _ Hs1 Hd1 H).
Qed.

(** X14.  Whatever the pages of the tracker hold, the sprints returned by
    [list_all_closed_sprints] have pairwise different ids: a sprint served
    again on a later page (or twice on one page) is kept once. *)
Theorem closed_sprints_have_distinct_ids (fuel : nat) (st st' : upstream)
    (sprints : list json) :
  list_all_closed_sprints get_values_page fuel st = (st', Return sprints) →
  distinct_ids sprints.
Proof.
  unfold list_all_closed_sprints. intros H.
  refine (sprints_loop_distinct fuel st 0%nat [] [] st' sprints eq_refl _ H).
  intros i j a b _ Ha. discriminate Ha.
Qed.

(** X15.  [find_board_by_name] returns the first listed board whose trimmed
    name equals the trimmed name asked for, whatever other boards contain
    that name; without such a board it returns a board only when exactly
    one listed board contains the name (letter case ignored). *)
Theorem find_board_prefers_exact_name (fuel : nat) (name : string)
    (st st' : upstream) (b : json) :
  find_board_by_name get_values_page fuel name st = (st', Return b) →
  ∃ boards,
    list_scrum_boards get_values_page fuel st = (st', Return boards)
    ∧ (head (List.filter (λ x, default false (exact_name name x)) boards)
       = Some b
       ∨ (List.filter (λ x, default false (exact_name name x)) boards = []
          ∧ List.filter (λ x, default false (loose_name name x)) boards
            = [b])).
Proof.
  unfold find_board_by_name. intros H.
  destruct (list_scrum_boards get_values_page fuel st) as [st1 [boards| | |]];
    try discriminate H.
  injection H as <- H. exists boards. split; [reflexivity|].
  unfold choose_board in H.
  destruct (filter_opt (exact_name name) boards) as [ex|] eqn:E1;
    [|discriminate H].
  apply filter_opt_filter in E1. rewrite <- E1.
  destruct ex as [|b0 ex].
  - destruct (filter_opt (loose_name name) boards) as [ci|] eqn:E2;
      [|discriminate H].
    apply filter_opt_filter in E2. rewrite <- E2.
    destruct ci as [|b1 [|b2 ci]]; try discriminate H.
    injection H as <-. right. split; reflexivity.
  - injection H as <-. left. reflexivity.
Qed.

End Listing.

(** ** Per-issue field cache *)

Section CacheFacts.
Context {upstream : Type}.
Variable get_issue :
  upstream → json → list string → upstream * option json.

Lemma cached_after_call (k : string) (fields : list string)
    (cache cache' : gmap string json) (st st' : upstream) (v : json) :
  _get_issue_fields_multi get_issue k fields cache st = (cache', st', v) →
  cache' !! k = Some v.
Proof.
  unfold _get_issue_fields_multi.
  destruct (cache !! k) as [w|] eqn:E.
  - intros [= <- <- <-]. exact E.
  - destruct (get_issue_fields get_issue (JStr k) fields st) as [st1 f].
    intros [= <- <- <-]. apply lookup_insert_eq.
Qed.

Lemma cache_hit (k : string) (fields : list string)
    (cache : gmap string json) (st : upstream) (v : json) :
  cache !! k = Some v →
  _get_issue_fields_multi get_issue k fields cache st = (cache, st, v).
Proof. unfold _get_issue_fields_multi. now intros ->. Qed.

Lemma cache_entry_kept (k k' : string) (fields : list string)
    (cache cache' : gmap string json) (st st' : upstream) (v w : json) :
  cache !! k = Some v →
  _get_issue_fields_multi get_issue k' fields cache st = (cache', st', w) →
  cache' !! k = Some v.
Proof.
  unfold _get_issue_fields_multi. intros Hk.
  destruct (cache !! k') as [u|] eqn:E.
  - now intros [= <- <- <-].
  - destruct (get_issue_fields get_issue (JStr k') fields st) as [st1 f].
    intros [= <- <- <-]. rewrite lookup_insert_ne; [exact Hk|].
    intros ->. congruence.
Qed.

Lemma fetch_each_keeps (calls : list (string * list string)) :
  ∀ (k : string) (v : json) (cache cache' : gmap string json)
    (st st' : upstream),
    cache !! k = Some v →
    fetch_each get_issue calls cache st = (cache', st') →
    cache' !! k = Some v.
Proof.
  induction calls as [|[k' fs] calls IH]; intros k v cache cache' st st' Hk H.
  - cbn [fetch_each] in H. now injection H as <- <-.
  - cbn [fetch_each] in H.
    destruct (_get_issue_fields_multi get_issue k' fs cache st)
      as [[c1 s1] w] eqn:E.
    apply (IH k v c1 cache' s1 st'); [|exact H].
    exact (cache_entry_kept k k' fs cache c1 st s1 v w Hk E).
Qed.

(** X16.  Once [_get_issue_fields_multi] has answered for an issue key, every
    later call for that key returns the same value without asking the
    tracker, whichever fields the later call names and whatever calls were
    made in between: the cache is keyed by the issue key alone. *)
Theorem issue_cache_answers_from_first_call (k : string)
    (fields fields' : list string) (calls : list (string * list string))
    (cache c1 c2 : gmap string json) (st s1 s2 : upstream) (v : json) :
  _get_issue_fields_multi get_issue k fields cache st = (c1, s1, v) →
  fetch_each get_issue calls c1 s1 = (c2, s2) →
  _get_issue_fields_multi get_issue k fields' c2 s2 = (c2, s2, v).
Proof.
  intros H1 H2. apply cache_hit.
  apply (fetch_each_keeps calls k v c1 c2 s1 s2); [|exact H2].
  exact (cached_after_call k fields cache c1 st s1 v H1).
Qed.

(** X17.  A failed fetch is cached: when the request for an uncached key
    raises, [_get_issue_fields_multi] returns the empty dict, and so does
    every later call for that key, without a new request. *)
Theorem issue_cache_keeps_a_failure (k : string)
    (fields fields' : list string) (calls : list (string * list string))
    (cache c2 : gmap string json) (st s1 s2 : upstream) :
  cache !! k = None →
  get_issue st (JStr k) fields = (s1, None) →
  fetch_each get_issue calls (<[k := empty_dict]> cache) s1 = (c2, s2) →
  _get_issue_fields_multi get_issue k fields cache st
  = (<[k := empty_dict]> cache, s1, empty_dict)
  ∧ _get_issue_fields_multi get_issue k fields' c2 s2 = (c2, s2, empty_dict).
Proof.
  intros Hk Hg Hc.
  assert (H1 : _get_issue_fields_multi get_issue k fields cache st
               = (<[k := empty_dict]> cache, s1, empty_dict)).
  { unfold _get_issue_fields_multi, get_issue_fields. rewrite Hk, Hg.
    reflexivity. }
  split; [exact H1|].
  apply cache_hit.
  apply (fetch_each_keeps calls k empty_dict (<[k := empty_dict]> cache) c2 s1 s2);
    [|exact Hc].
  apply lookup_insert_eq.
Qed.

End CacheFacts.

(** ** Ordering of the derived tables *)

Section SortFacts.
Context {A K : Type}.
Variable ltb : K → K → bool.
Variable key : A → K.
(** [ltb] is a strict order whose complement is transitive, as [<] on
    numbers is. *)
Hypothesis ltb_asym : ∀ a b, ltb a b = true → ltb b a = false.
Hypothesis geb_trans : ∀ a b c, ltb a b = false → ltb b c = false → ltb a c = false.

Lemma insert_desc_descending (x : A) (l : list A) :
  descending ltb key l → descending ltb key (insert_desc ltb key x l).
Proof.
  induction l as [|y l IH]; cbn [insert_desc descending].
  - intros _. split; [constructor|exact I].
  - intros [Hy Hl]. destruct (ltb (key y) (key x)) eqn:E; cbn [descending].
    + split; [|split; assumption].
      constructor; [now apply ltb_asym|].
      apply ltb_asym in E. rewrite Forall_forall in Hy |- *.
      intros z Hz. exact (geb_trans _ _ _ E (Hy z Hz)).
    + split; [|now apply IH].
      rewrite Forall_forall in Hy |- *. intros z Hz.
      apply list_elem_of_In in Hz.
      apply (Permutation_in _ (insert_desc_perm ltb key x l)) in Hz.
      destruct Hz as [<-|Hz]; [exact E|].
      apply Hy. now apply list_elem_of_In.
Qed.

Lemma sort_desc_from_descending (l : list A) : ∀ acc,
  descending ltb key acc →
  descending ltb key (fold_left (λ acc x, insert_desc ltb key x acc) l acc).
Proof.
  induction l as [|x l IH]; intros acc Hacc; cbn [fold_left].
  - exact Hacc.
  - apply IH. now apply insert_desc_descending.
Qed.

Lemma sort_desc_descending (l : list A) :
  descending ltb key (sort_desc ltb key l).
Proof. unfold sort_desc. apply sort_desc_from_descending. exact I. Qed.

Lemma descending_split (l : list A) : ∀ n : nat,
  descending ltb key l →
  descending ltb key (take n l)
  ∧ ∀ r r', In r (take n l) → In r' (drop n l) → ltb (key r) (key r') = false.
Proof.
  induction l as [|x l IH]; intros [|n] Hl; cbn [take drop descending].
  - split; [exact I|intros r r' []].
  - split; [exact I|intros r r' []].
  - split; [exact I|intros r r' []].
  - destruct Hl as [Hx Hl]. destruct (IH n Hl) as [Ht Hd].
    rewrite Forall_forall in Hx. split; [split; [|exact Ht]|].
    + apply Forall_forall. intros z Hz. apply Hx.
      apply elem_of_take in Hz as (i & Hi & _).
      now apply list_elem_of_lookup_2 in Hi.
    + intros r r' [<-|Hr] Hr'.
      * apply Hx. apply list_elem_of_In.
        rewrite <- (take_drop n l). apply in_or_app. now right.
      * now apply Hd.
Qed.

End SortFacts.

Lemma Qltb_false (a b : Q) : Qltb a b = false ↔ (b <= a)%Q.
Proof.
  unfold Qltb. rewrite negb_false_iff. apply Qle_bool_iff.
Qed.

Lemma Qltb_asym (a b : Q) : Qltb a b = true → Qltb b a = false.
Proof.
  intros H. apply Qltb_false.
  destruct (Qlt_le_dec a b) as [Hlt|Hle]; [now apply Qlt_le_weak|].
  apply Qltb_false in Hle. congruence.
Qed.

Lemma Qgeb_trans (a b c : Q) :
  Qltb a b = false → Qltb b c = false → Qltb a c = false.
Proof.
  rewrite !Qltb_false. intros H1 H2. now apply Qle_trans with b.
Qed.

Lemma Zltb_asym (a b : Z) : (a <? b) = true → (b <? a) = false.
Proof. rewrite Z.ltb_lt, Z.ltb_ge. lia. Qed.

Lemma Zgeb_trans (a b c : Z) :
  (a <? b) = false → (b <? c) = false → (a <? c) = false.
Proof. rewrite !Z.ltb_ge. lia. Qed.

Section TableOrder.
Variable float_of_str : string → option Q.
Variable STORY_POINTS_FIELD_ID : string.
Variable STORY_POINTS_FIELD_IDS : list string.
Context {upstream : Type}.
Variable get_issue_page :
  upstream → page_request → upstream * option (list json).

(** X18.  [top5_completed_stories] returns at most five rows, in
    non-increasing order of effort, and they are the largest ones: every row
    built from the issues received but left out has an effort no larger than
    that of each row returned. *)
Theorem top5_rows_are_the_largest (report : json) (sprint_id : Z)
    (st st' : upstream) (rows : list sp_row) :
  top5_completed_stories float_of_str STORY_POINTS_FIELD_ID
    STORY_POINTS_FIELD_IDS get_issue_page report sprint_id st
    = (st', Some rows) →
  ∃ issues used sp_map all_rows rest,
    agile_sprint_issues_paginated get_issue_page sprint_id
      (Some "statusCategory = Done")
      ["summary"; STORY_POINTS_FIELD_ID; "issuetype"; "status"] 50 100 st
      = (st', Some (issues, used))
    ∧ build_sp_map_from_report float_of_str report = Some sp_map
    ∧ collect_rows (top5_row float_of_str STORY_POINTS_FIELD_IDS sp_map used)
                   issues = Some all_rows
    ∧ Permutation all_rows (rows ++ rest)
    ∧ length rows = Nat.min 5 (length all_rows)
    ∧ descending Qltb sp_of_row rows
    ∧ ∀ r r', In r rows → In r' rest → (sp_of_row r' <= sp_of_row r)%Q.
Proof.
  unfold top5_completed_stories. intros H.
  destruct (build_sp_map_from_report float_of_str report) as [sp_map|];
    [|discriminate H].
  destruct (agile_sprint_issues_paginated _ _ _ _ _ _ _)
    as [st1 [[issues used]|]]; [|discriminate H].
  injection H as <- H.
  destruct (collect_rows _ issues) as [all_rows|] eqn:Hc; [|discriminate H].
  cbn [mbind option_bind] in H. injection H as <-.
  pose proof (sort_desc_descending Qltb sp_of_row Qltb_asym Qgeb_trans all_rows)
    as Hd.
  destruct (descending_split Qltb sp_of_row _ 5 Hd) as [Ht Hr].
  exists issues, used, sp_map, all_rows,
         (drop 5 (sort_desc Qltb sp_of_row all_rows)).
  repeat split; try reflexivity; try assumption.
  - rewrite take_drop. symmetry. apply sort_desc_perm.
  - rewrite length_take.
    now rewrite (Permutation_length (sort_desc_perm Qltb sp_of_row all_rows)).
  - intros r r' Hin Hin'. apply Qltb_false. now apply Hr.
Qed.

End TableOrder.

(** ** Carry-over table *)

Lemma carry_keys_in (nc : list json) : ∀ keys k,
  carry_keys nc = Some keys → In k keys →
  ∃ it, In it nc ∧ dget it "key" = Some k ∧ truthy k = true.
Proof.
  induction nc as [|it nc IH]; intros keys k H Hin; cbn [carry_keys] in H.
  - injection H as <-. destruct Hin.
  - destruct (dget it "key") as [k0|] eqn:Hk; [|discriminate H].
    cbn [mbind option_bind] in H.
    destruct (carry_keys nc) as [ks|]; [|discriminate H].
    cbn [mbind option_bind] in H.
    destruct (truthy k0) eqn:Ht.
    + destruct (hashable k0); [|discriminate H]. injection H as <-.
      destruct Hin as [<-|Hin].
      * exists it. split; [now left|]. split; assumption.
      * destruct (IH ks k eq_refl Hin) as (it' & ? & ?).
        exists it'. split; [now right|assumption].
    + injection H as <-.
      destruct (IH ks k eq_refl Hin) as (it' & ? & ?).
      exists it'. split; [now right|assumption].
Qed.

Lemma carry_keys_none (nc : list json) (keys : list json) :
  carry_keys nc = Some keys →
  (∀ it, In it nc → truthy (default JNull (dget it "key")) = false) →
  keys = [].
Proof.
  revert keys. induction nc as [|it nc IH]; intros keys H Hnone;
    cbn [carry_keys] in H.
  - now injection H as <-.
  - destruct (dget it "key") as [k0|] eqn:Hk; [|discriminate H].
    cbn [mbind option_bind] in H.
    destruct (carry_keys nc) as [ks|]; [|discriminate H].
    cbn [mbind option_bind] in H.
    pose proof (Hnone it (or_introl eq_refl)) as H0. rewrite Hk in H0.
    cbn [default from_option id] in H0. rewrite H0 in H.
    injection H as <-. apply IH; [reflexivity|].
    intros it' Hin. apply Hnone. now right.
Qed.

Section CarryOverFacts.
Variable float_of_str : string → option Q.
Variable STORY_POINTS_FIELD_IDS : list string.
Context {upstream : Type}.
Variable get_issue_page :
  upstream → page_request → upstream * option (list json).

Lemma carry_over_row_key (keys : list json) (sp_map : pydict) (it : json)
    (r : sp_row) :
  carry_over_row float_of_str STORY_POINTS_FIELD_IDS keys sp_map it
    = Some (Some r) →
  dget it "key" = Some (key_of_row r)
  ∧ ∃ k, In k keys ∧ key_eqb (key_of_row r) k = true.
Proof.
  unfold carry_over_row. intros H.
  destruct (dget it "key") as [key|] eqn:Hk; [|discriminate H].
  cbn [mbind option_bind] in H.
  unfold pyset_mem in H. destruct (hashable key); [|discriminate H].
  cbn [mbind option_bind] in H.
  destruct (existsb (key_eqb key) keys) eqn:E; [|discriminate H].
  cbn [negb] in H.
  destruct (dget it "fields") as [fj|]; [|discriminate H].
  cbn [mbind option_bind] in H.
  destruct (dget (por fj empty_dict) "summary") as [s|]; [|discriminate H].
  cbn [mbind option_bind] in H.
  destruct (resolve_sp _ _ _ _ _) as [q|]; [|discriminate H].
  cbn [mbind option_bind] in H.
  destruct (status_name_of _) as [nm|]; [|discriminate H].
  cbn [mbind option_bind] in H. injection H as <-.
  split; [reflexivity|].
  apply existsb_exists in E as (k & Hin & Hk'). exists k. auto.
Qed.

(** X19.  Every row of the carry-over table belongs to an item the sprint
    report lists as not completed: the key of the row equals the key of such
    an item; and the rows are in non-increasing order of effort. *)
Theorem carry_over_rows_are_listed_items (report : json) (sprint_id : Z)
    (st st' : upstream) (rows : list sp_row) :
  carry_over_items_with_sp float_of_str STORY_POINTS_FIELD_IDS get_issue_page
    report sprint_id st = (st', Some rows) →
  descending Qltb sp_of_row rows
  ∧ ∀ r, In r rows →
         ∃ it k, In it (not_completed_of report)
                 ∧ dget it "key" = Some k
                 ∧ key_eqb (key_of_row r) k = true.
Proof.
  unfold carry_over_items_with_sp, not_completed_of. intros H.
  destruct (dget_def (por report empty_dict) "contents" empty_dict) as [c|];
    [|discriminate H].
  cbn [mbind option_bind] in H |- *.
  destruct (dget_def (por c empty_dict) "issuesNotCompletedInCurrentSprint"
                     empty_list) as [nj|]; [|discriminate H].
  cbn [mbind option_bind] in H |- *.
  destruct (as_list (por nj empty_list)) as [nc|]; [|discriminate H].
  cbn [mbind option_bind default from_option id] in H |- *.
  destruct (carry_keys nc) as [keys|] eqn:Hkeys; [|discriminate H].
  destruct keys as [|k0 keys].
  { injection H as <- <-. split; [exact I|intros r []]. }
  destruct (agile_sprint_issues_paginated _ _ _ _ _ _ _)
    as [st1 [[issues used]|]]; [|discriminate H].
  injection H as <- H.
  destruct (build_sp_map_from_report float_of_str report) as [sp_map|];
    [|discriminate H].
  cbn [mbind option_bind] in H.
  destruct (collect_rows _ issues) as [all_rows|] eqn:Hc; [|discriminate H].
  cbn [mbind option_bind] in H. injection H as <-.
  split.
  - apply sort_desc_descending; [exact Qltb_asym|exact Qgeb_trans].
  - intros r Hin.
    apply (Permutation_in _ (sort_desc_perm _ _ _)) in Hin.
    destruct (collect_rows_in _ _ _ _ Hc Hin) as (it & _ & Hrow).
    apply carry_over_row_key in Hrow as (_ & k & Hk & Heq).
    destruct (carry_keys_in nc _ k Hkeys Hk) as (it' & Hit' & Hkey & _).
    exists it', k. auto.
Qed.

(** X20.  When no item listed as not completed has a key, the carry-over
    table is empty and [carry_over_items_with_sp] has asked the tracker
    nothing. *)
Theorem carry_over_without_items_asks_nothing (report : json)
    (sprint_id : Z) (st st' : upstream) (rows : list sp_row) :
  carry_over_items_with_sp float_of_str STORY_POINTS_FIELD_IDS get_issue_page
    report sprint_id st = (st', Some rows) →
  (∀ it, In it (not_completed_of report) →
         truthy (default JNull (dget it "key")) = false) →
  st' = st ∧ rows = [].
Proof.
  unfold carry_over_items_with_sp, not_completed_of. intros H Hnone.
  destruct (dget_def (por report empty_dict) "contents" empty_dict) as [c|];
    [|discriminate H].
  cbn [mbind option_bind] in H, Hnone.
  destruct (dget_def (por c empty_dict) "issuesNotCompletedInCurrentSprint"
                     empty_list) as [nj|]; [|discriminate H].
  cbn [mbind option_bind] in H, Hnone.
  destruct (as_list (por nj empty_list)) as [nc|]; [|discriminate H].
  cbn [mbind option_bind default from_option id] in H, Hnone.
  destruct (carry_keys nc) as [keys|] eqn:Hkeys; [|discriminate H].
  rewrite (carry_keys_none nc keys Hkeys Hnone) in H.
  injection H as <- <-. split; reflexivity.
Qed.

End CarryOverFacts.

(** ** Ordering of the open action items *)

Section ActionOrder.
Variable datetime_of_str : string → option datetime.
Variable now_date : Z.
Variable STORY_TYPES : list string.

Lemma add_row_labels (key f : json) (open_tmp open' : list (Z * open_row))
    (done_rows done' : list done_row) :
  Forall (λ p, snd (fst (snd p)) = ageing_str (fst p)) open_tmp →
  add_row datetime_of_str now_date key f open_tmp done_rows
    = Some (open', done') →
  Forall (λ p, snd (fst (snd p)) = ageing_str (fst p)) open'.
Proof.
  unfold add_row. intros Hall H.
  destruct (_pull_common _ _ _) as [[[[[sm a] s] c] age]|]; [|discriminate H].
  cbn [mbind option_bind] in H.
  destruct (eq_str c "done"); injection H as <- <-; [exact Hall|].
  apply Forall_app. split; [exact Hall|].
  constructor; [reflexivity|constructor].
Qed.

Lemma parent_rows_labels (issues : list json) :
  ∀ open_tmp done_rows keys open' done' keys',
    Forall (λ p, snd (fst (snd p)) = ageing_str (fst p)) open_tmp →
    parent_rows datetime_of_str now_date STORY_TYPES issues open_tmp
                done_rows keys = Some (open', done', keys') →
    Forall (λ p, snd (fst (snd p)) = ageing_str (fst p)) open'.
Proof.
  induction issues as [|it issues IH];
    intros open_tmp done_rows keys open' done' keys' Hall H;
    cbn [parent_rows] in H.
  - now injection H as <- <- <-.
  - bind_step H. bind_step H. bind_step H. bind_step H. bind_step H.
    destruct (negb (str_in _ _)).
    + exact (IH _ _ _ _ _ _ Hall H).
    + destruct (add_row _ _ _ _ _ _) as [[o1 d1]|] eqn:Hrow;
        [|discriminate H].
      cbn [mbind option_bind] in H.
      bind_step H. bind_step H. bind_step H.
      apply (IH _ _ _ _ _ _ (add_row_labels _ _ _ _ _ _ Hall Hrow) H).
Qed.

Context {upstream : Type}.
Variable get_issue :
  upstream → json → list string → upstream * option json.

Lemma subtask_rows_labels (keys : list json) :
  ∀ st open_tmp done_rows st' open' done',
    Forall (λ p, snd (fst (snd p)) = ageing_str (fst p)) open_tmp →
    subtask_rows datetime_of_str now_date get_issue keys st open_tmp done_rows
      = (st', Some (open', done')) →
    Forall (λ p, snd (fst (snd p)) = ageing_str (fst p)) open'.
Proof.
  induction keys as [|sk keys IH]; intros st o d st' o' d' Hall H;
    cbn [subtask_rows] in H.
  - now injection H as _ <- <-.
  - destruct (get_issue_fields _ _ _ _) as [st1 sf].
    destruct (add_row _ _ _ _ _ _) as [[o1 d1]|] eqn:Hrow; [|discriminate H].
    exact (IH _ _ _ _ _ _ (add_row_labels _ _ _ _ _ _ Hall Hrow) H).
Qed.

(** X21.  The open action items are returned oldest first: each open row
    carries the label made from its age in working days, and no row is
    followed by a row with a larger age. *)
Theorem open_action_items_oldest_first (issues : list json)
    (st st' : upstream) (open_rows : list open_row)
    (done_rows : list done_row) :
  fetch_epic_action_items datetime_of_str now_date STORY_TYPES get_issue
    issues st = (st', Some (open_rows, done_rows)) →
  ∃ aged : list (Z * open_row),
    open_rows = map snd aged
    ∧ Forall (λ p, snd (fst (snd p)) = ageing_str (fst p)) aged
    ∧ descending Z.ltb fst aged.
Proof.
  unfold fetch_epic_action_items. intros H.
  destruct (parent_rows _ _ _ issues [] [] []) as [[[o0 d0] ks]|] eqn:Hp;
    [|discriminate H].
  destruct (subtask_rows _ _ _ ks st o0 d0) as [st1 [[o1 d1]|]] eqn:Hs;
    [|discriminate H].
  injection H as <- <- <-.
  exists (sort_desc Z.ltb fst o1). split; [reflexivity|]. split.
  - apply parent_rows_labels in Hp; [|constructor].
    apply (subtask_rows_labels _ _ _ _ _ _ _ Hp) in Hs.
    rewrite Forall_forall in Hs |- *. intros p Hin. apply Hs.
    apply list_elem_of_In. apply list_elem_of_In in Hin.
    exact (Permutation_in _ (sort_desc_perm _ _ _) Hin).
  - apply sort_desc_descending; [exact Zltb_asym|exact Zgeb_trans].
Qed.

End ActionOrder.

(** ** The requests of the walker *)

Section WalkerRequests.
Context {upstream : Type}.
Variable get_issue_page :
  upstream → page_request → upstream * option (list json).
Variable sprint_id : Z.
Variable fields : list string.
Variable page_size : nat.

(** One walk asks for consecutive pages, starting where it is told to. *)
Lemma walk_pages_requests (jql : option string) (n : nat) :
  ∀ (st : upstream) (log : list page_request) (k : nat) (issues : list json),
  ∃ m : nat,
    (m <= n)%nat
    ∧ snd (fst (walk_pages (logged get_issue_page) sprint_id fields page_size
                           jql n (st, log) (k * page_size)%nat issues))
      = log ++ map (λ i : nat,
                      PageRequest sprint_id (i * page_size) page_size fields jql)
                   (seq k m).
Proof.
  induction n as [|n IH]; intros st log k issues.
  - exists 0%nat. cbn. split; [lia|now rewrite app_nil_r].
  - cbn [walk_pages]. unfold logged at 1.
    destruct (get_issue_page st _) as [s' [chunk|]].
    + destruct (Nat.ltb (length chunk) page_size).
      * exists 1%nat. cbn. split; [lia|reflexivity].
      * replace (k * page_size + page_size)%nat with (S k * page_size)%nat by lia.
        destruct (IH s' (log ++ [PageRequest sprint_id (k * page_size)
                                             page_size fields jql])
                     (S k) (issues ++ chunk)) as (m & Hm & Hlog).
        exists (S m). split; [lia|].
        rewrite Hlog, <- app_assoc. reflexivity.
    + exists 1%nat. cbn. split; [lia|reflexivity].
Qed.

(** X22.  Whatever the tracker answers, [agile_sprint_issues_paginated]
    sends at most [max_pages] requests with the filter, for consecutive
    pages of [page_size] issues from offset 0, followed by at most
    [max_pages] requests without a filter, again from offset 0; when it
    reports that the server-side filter was used, it has sent no request
    without the filter. *)
Theorem walker_requests_are_bounded (jql_fragment : option string)
    (max_pages : nat) (st : upstream) :
  ∃ m1 m2 : nat,
    (m1 <= max_pages)%nat ∧ (m2 <= max_pages)%nat
    ∧ snd (fst (agile_sprint_issues_paginated (logged get_issue_page) sprint_id
                  jql_fragment fields max_pages page_size (st, [])))
      = walk_requests sprint_id fields page_size (jql_param jql_fragment) m1
        ++ walk_requests sprint_id fields page_size None m2
    ∧ (∀ issues,
         snd (agile_sprint_issues_paginated (logged get_issue_page) sprint_id
                jql_fragment fields max_pages page_size (st, []))
         = Some (issues, true) → m2 = 0%nat).
Proof.
  unfold agile_sprint_issues_paginated, walk_requests.
  destruct (walk_pages_requests (jql_param jql_fragment) max_pages st [] 0 [])
    as (m1 & Hm1 & Hlog1).
  cbn [Nat.mul app] in Hlog1.
  destruct (walk_pages (logged get_issue_page) sprint_id fields page_size
                       (jql_param jql_fragment) max_pages (st, []) 0%nat [])
    as [[s1 log1] [issues1|]] eqn:W1; cbn [fst snd] in Hlog1.
  - exists m1, 0%nat. cbn [fst snd seq map].
    repeat split; try lia. now rewrite app_nil_r.
  - destruct (walk_pages_requests None max_pages s1 log1 0 [])
      as (m2 & Hm2 & Hlog2).
    cbn [Nat.mul] in Hlog2.
    destruct (walk_pages (logged get_issue_page) sprint_id fields page_size
                         None max_pages (s1, log1) 0%nat [])
      as [[s2 log2] [issues2|]] eqn:W2; cbn [fst snd] in Hlog2 |- *.
    + exists m1, m2. subst log1 log2.
      repeat split; try lia. intros issues [=].
    + exists m1, m2. subst log1 log2.
      repeat split; try lia. intros issues [=].
Qed.

End WalkerRequests.

(** ** Estimates read from the report and from the velocity chart *)

Lemma find_app_first {A} (p : A → bool) (l1 l2 : list A) :
  List.find p (l1 ++ l2)
  = match List.find p l1 with
    | Some x => Some x
    | None => List.find p l2
    end.
Proof.
  induction l1 as [|x l1 IH]; cbn [app List.find]; [reflexivity|].
  destruct (p x); [reflexivity|exact IH].
Qed.

Section EstimateFacts.
Variable float_of_str : string → option Q.

Lemma fill_sp_map_lookup (k : json) (d : Q) (items : list json) :
  ∀ mp : pydict,
    hashable k = true →
    pydict_get (fill_sp_map float_of_str items mp) k d
    = Some (match last_item_with_key k items with
            | Some it => item_effort float_of_str it
            | None => default d (snd <$> List.find (λ kv, key_eqb (fst kv) k) mp)
            end).
Proof.
  unfold last_item_with_key.
  induction items as [|it items IH]; intros mp Hk.
  - cbn [fill_sp_map rev List.find]. unfold pydict_get. now rewrite Hk.
  - cbn [fill_sp_map rev]. rewrite IH by exact Hk. f_equal.
    rewrite find_app_first.
    destruct (List.find (sets_key k) (rev items)) as [it'|]; [reflexivity|].
    cbn [List.find]. unfold sets_key, item_effort.
    destruct it as [| | | | |m]; cbn [dget mbind option_bind];
      try reflexivity.
    destruct (hashable (default JNull (m !! "key"))) eqn:Hh;
      cbn [default from_option id andb]; [|reflexivity].
    cbn [List.find fst].
    destruct (key_eqb (default JNull (m !! "key")) k); reflexivity.
Qed.

(** X23.  In the estimate map built from a sprint report, a key is bound to
    the estimate of the last report item that carries it, completed items
    first and not-completed items after them; a key no item carries is
    looked up as 0.0. *)
Theorem sp_map_keeps_the_last_estimate (report : json) (mp : pydict)
    (k : json) :
  build_sp_map_from_report float_of_str report = Some mp →
  hashable k = true →
  pydict_get mp k 0%Q
  = Some (match last_item_with_key k (report_items report) with
          | Some it => item_effort float_of_str it
          | None => 0%Q
          end).
Proof.
  unfold build_sp_map_from_report, report_items. intros H Hk.
  destruct (dget_def report "contents" empty_dict) as [c|]; [|discriminate H].
  cbn [mbind option_bind] in H |- *.
  destruct (dget_def (por c empty_dict) "completedIssues" empty_list) as [cj|];
    [|discriminate H].
  cbn [mbind option_bind] in H |- *.
  destruct (dget_def (por c empty_dict) "issuesNotCompletedInCurrentSprint"
                     empty_list) as [nj|]; [|discriminate H].
  cbn [mbind option_bind] in H |- *.
  destruct (concat_items (por cj empty_list) (por nj empty_list)) as [items|];
    [|discriminate H].
  cbn [mbind option_bind default from_option id] in H |- *.
  injection H as <-. rewrite fill_sp_map_lookup by exact Hk.
  destruct (last_item_with_key k items); reflexivity.
Qed.

(** X24.  A velocity entry that is present and not empty but carries neither an estimated nor
    a completed value is read as 0.0 and 0.0, and the reconciliation then
    reports these zeros as committed and completed effort instead of the
    totals of the sprint report. *)
Theorem velocity_entry_without_values_reads_as_zero (vj : json)
    (entries m : gmap string json) (sprint_id : Z) (report : json)
    (committed completed : Q) (scope carry : nat) :
  velocity_entries vj = Some (JObj entries) →
  entries !! pretty sprint_id = Some (JObj m) →
  truthy (JObj m) = true →
  m !! "estimated" = None →
  m !! "completed" = None →
  compute_committed_completed_from_report float_of_str report
    = Some (committed, completed, scope, carry) →
  get_committed_completed_from_velocity float_of_str (Some vj) sprint_id
    = (Some 0%Q, Some 0%Q)
  ∧ main_reconcile float_of_str (Some vj) sprint_id report
    = Some (0%Q, 0%Q, scope, carry).
Proof.
  intros Hv He Ht Hest Hcomp Hrep.
  assert (Hvel : get_committed_completed_from_velocity float_of_str (Some vj)
                   sprint_id = (Some 0%Q, Some 0%Q)).
  { unfold get_committed_completed_from_velocity, velocity_try.
    cbn [mbind option_bind]. rewrite Hv. cbn [mbind option_bind dget].
    rewrite He. cbn [default from_option id]. rewrite Ht.
    cbn [mbind option_bind]. rewrite Ht.
    unfold stat_value. cbn [dget mbind option_bind]. rewrite Hest, Hcomp.
    reflexivity. }
  split; [exact Hvel|].
  unfold main_reconcile. rewrite Hvel, Hrep. reflexivity.
Qed.

(** X25.  The effort [_field_sp_from_fields] resolves for an issue is the
    first of the readable values the missing-effort audit adds up; an issue
    the audit does not flag therefore always has a resolved effort. *)
Theorem resolved_effort_is_first_audited_value (fids : list string)
    (f : gmap string json) :
  _field_sp_from_fields float_of_str fids f
  = head (sp_vals_scan float_of_str fids f)
  ∧ (missing_or_zero_sp float_of_str fids f = false →
     is_Some (_field_sp_from_fields float_of_str fids f)).
Proof.
  assert (Hhead : _field_sp_from_fields float_of_str fids f
                  = head (sp_vals_scan float_of_str fids f)).
  { unfold _field_sp_from_fields.
    induction fids as [|g fids IH]; cbn [field_sp_scan sp_vals_scan];
      [reflexivity|].
    destruct (f !! g) as [v|]; [|exact IH].
    destruct (is_none v); [exact IH|].
    destruct (py_float float_of_str v); [reflexivity|exact IH]. }
  split; [exact Hhead|].
  rewrite Hhead. unfold missing_or_zero_sp. cbv zeta.
  destruct (sp_vals_scan float_of_str fids f) as [|q qs]; [discriminate|].
  intros _. cbn. eauto.
Qed.

End EstimateFacts.

(** ** Delivery metrics *)

Lemma zip3_sum_length (xs ys zs : list Q) :
  length ys = length xs → length zs = length xs →
  length (zip3_sum xs ys zs) = length xs.
Proof.
  revert ys zs. induction xs as [|a xs IH]; intros [|b ys] [|c zs] H1 H2;
    cbn in *; try reflexivity; try discriminate.
  f_equal. apply IH; lia.
Qed.

Lemma zip3_sum_lookup (xs ys zs : list Q) (i : nat) (a b c : Q) :
  xs !! i = Some a → ys !! i = Some b → zs !! i = Some c →
  zip3_sum xs ys zs !! i = Some (a + b + c)%Q.
Proof.
  revert ys zs i. induction xs as [|x xs IH]; intros [|y ys] [|z zs] [|i];
    cbn; try discriminate.
  - now intros [= ->] [= ->] [= ->].
  - apply IH.
Qed.

Section SeriesFacts.
Variable float_of_str : string → option Q.
Variable date_fromisoformat : string → option Z.

Lemma lb_series_axis (rows : list json) (start_date end_date key : string)
    (xs : list Z) (ys : list Q) :
  _lb_timeseries_complete float_of_str date_fromisoformat rows
    start_date end_date key = Some (xs, ys) →
  _daterange_inclusive date_fromisoformat start_date end_date = Some xs
  ∧ length ys = length xs.
Proof.
  unfold _lb_timeseries_complete. intros H.
  destruct (_daterange_inclusive _ _ _) as [days|]; [|discriminate H].
  cbn [mbind option_bind] in H.
  destruct (fill_by_date _ _ _ _ _) as [by_date|]; [|discriminate H].
  cbn [mbind option_bind] in H. injection H as <- <-.
  split; [reflexivity|apply length_map].
Qed.

(** X26.  The cycle-time series charted by [main] has one value for every
    day of the axis, and that value is the sum of the coding, pickup and
    review hours of that day: the three series are built over the same days,
    so the [zip] drops nothing. *)
Theorem cycle_series_is_the_daily_sum (rows : list json)
    (start_date end_date : string) (xs : list Z) (ys : list Q) :
  cycle_proxy float_of_str date_fromisoformat rows start_date end_date
    = Some (xs, ys) →
  ∃ coding pickup review : list Q,
    _lb_timeseries_complete float_of_str date_fromisoformat rows
      start_date end_date "coding_min" = Some (xs, coding)
    ∧ _lb_timeseries_complete float_of_str date_fromisoformat rows
        start_date end_date "pickup_min" = Some (xs, pickup)
    ∧ _lb_timeseries_complete float_of_str date_fromisoformat rows
        start_date end_date "review_min" = Some (xs, review)
    ∧ length ys = length xs
    ∧ ∀ (i : nat) (a b c : Q),
        coding !! i = Some a → pickup !! i = Some b → review !! i = Some c →
        ys !! i = Some (a + b + c)%Q.
Proof.
  unfold cycle_proxy. intros H.
  destruct (_lb_timeseries_complete _ _ rows _ _ "coding_min")
    as [[xc hc]|] eqn:Ec; [|discriminate H].
  cbn [mbind option_bind] in H.
  destruct (_lb_timeseries_complete _ _ rows _ _ "pickup_min")
    as [[xp hp]|] eqn:Ep; [|discriminate H].
  cbn [mbind option_bind] in H.
  destruct (_lb_timeseries_complete _ _ rows _ _ "review_min")
    as [[xr hr]|] eqn:Er; [|discriminate H].
  cbn [mbind option_bind] in H. injection H as <- <-.
  destruct (lb_series_axis _ _ _ _ _ _ Ec) as [Ac Lc].
  destruct (lb_series_axis _ _ _ _ _ _ Ep) as [Ap Lp].
  destruct (lb_series_axis _ _ _ _ _ _ Er) as [Ar Lr].
  assert (xp = xc) as -> by congruence.
  assert (xr = xc) as -> by congruence.
  exists hc, hp, hr. repeat split; try reflexivity.
  - rewrite zip3_sum_length; lia.
  - intros i a b c. apply zip3_sum_lookup.
Qed.

End SeriesFacts.

(** *** Rows of the metrics reply *)

Lemma before_first_T_clean (s : string) :
  ¬ In "T"%char (list_ascii_of_string (before_first_T s)).
Proof.
  induction s as [|a s IH]; cbn [before_first_T]; [intros []|].
  destruct (Ascii.eqb a "T") eqn:E; [intros []|].
  cbn [list_ascii_of_string]. intros [->|H]; [|exact (IH H)].
  discriminate E.
Qed.

Lemma apply_metrics_shape (m row : gmap string json) (d : json) :
  dom row = row_keys → row !! "date" = Some d →
  dom (apply_metrics m row) = row_keys
  ∧ apply_metrics m row !! "date" = Some d.
Proof.
  intros Hdom Hdate. unfold apply_metrics, metric_keys. cbn [fold_left fst snd].
  repeat match goal with
         | |- context [match m !! ?k with _ => _ end] =>
             destruct (m !! k)
         end;
    (split;
     [rewrite ?dom_insert_L, Hdom; unfold row_keys; set_solver
     |rewrite ?lookup_insert_ne by discriminate; exact Hdate]).
Qed.

Lemma fill_metrics_shape (metrics : list json) :
  ∀ (row row' : gmap string json) (d : json),
    dom row = row_keys → row !! "date" = Some d →
    fill_metrics metrics row = Some row' →
    dom row' = row_keys ∧ row' !! "date" = Some d.
Proof.
  induction metrics as [|m metrics IH]; intros row row' d Hdom Hdate H;
    cbn [fill_metrics] in H.
  - injection H as <-. auto.
  - destruct (as_dict m) as [dm|]; [|discriminate H].
    cbn [mbind option_bind] in H.
    destruct (apply_metrics_shape dm row d Hdom Hdate) as [Hdom' Hdate'].
    exact (IH _ _ _ Hdom' Hdate' H).
Qed.

Lemma slice_row_shape (slice_ row : json) :
  slice_row slice_ = Some row →
  ∃ (m : gmap string json) (d : string),
    row = JObj m ∧ dom m = row_keys ∧ m !! "date" = Some (JStr d)
    ∧ ¬ In "T"%char (list_ascii_of_string d).
Proof.
  unfold slice_row. intros H.
  destruct (dget slice_ "after") as [after|]; [|discriminate H].
  cbn [mbind option_bind] in H.
  destruct (str_of (por after (JStr ""))) as [t|]; [|discriminate H].
  cbn [mbind option_bind] in H.
  destruct (dget_def slice_ "metrics" empty_list) as [mj|]; [|discriminate H].
  cbn [mbind option_bind] in H.
  destruct (py_iter mj) as [metrics|]; [|discriminate H].
  cbn [mbind option_bind] in H.
  destruct (fill_metrics metrics _) as [row'|] eqn:Hf; [|discriminate H].
  cbn [mbind option_bind] in H. injection H as <-.
  apply fill_metrics_shape with (d := JStr (before_first_T t)) in Hf.
  - destruct Hf as [Hdom Hdate].
    exists row', (before_first_T t). repeat split; try assumption.
    apply before_first_T_clean.
  - unfold row_keys. rewrite !dom_list_to_map_L. cbn. set_solver.
  - reflexivity.
Qed.

(** X27.  Every row [linearb_measurements_daily] builds from a reply is a
    dict with exactly the keys [date], [coding_min], [pickup_min],
    [review_min] and [cycle_min], and its date is a string that holds no
    [T]: the time of day of the slice is cut off. *)
Theorem measurement_rows_are_well_formed (data : json) (rows : list json) :
  measurement_rows data = Some rows →
  Forall (λ row, ∃ (m : gmap string json) (d : string),
                   row = JObj m ∧ dom m = row_keys
                   ∧ m !! "date" = Some (JStr d)
                   ∧ ¬ In "T"%char (list_ascii_of_string d)) rows.
Proof.
  unfold measurement_rows. intros H.
  destruct (py_iter data) as [slices|]; [|discriminate H].
  cbn [mbind option_bind] in H. revert rows H.
  induction slices as [|s slices IH]; intros rows H; cbn [slice_rows] in H.
  - injection H as <-. constructor.
  - destruct (slice_row s) as [row|] eqn:Hrow; [|discriminate H].
    cbn [mbind option_bind] in H.
    destruct (slice_rows slices) as [rs|]; [|discriminate H].
    cbn [mbind option_bind] in H. injection H as <-.
    constructor; [exact (slice_row_shape s row Hrow)|now apply IH].
Qed.

(** *** Retries of the metrics request *)

Section MetricsRetries.
Context {net : Type}.
Variable post : net → net * option lb_reply.

Lemma measurements_loop_as_retry_loop (n : nat) :
  ∀ (i : Z) (st : net) (slept : list Q),
    measurements_loop post n i st slept
    = (let '(st', slept', out) := retry_loop (as_attempt post) n i st slept in
       (st', slept', value_of out)).
Proof.
  induction n as [|n IH]; intros i st slept; [reflexivity|].
  cbn [measurements_loop retry_loop]. unfold as_attempt at 1.
  destruct (post st) as [st' [[|data]|]].
  - reflexivity.
  - destruct (measurement_rows data); [reflexivity|apply IH].
  - apply IH.
Qed.

(** X28.  [linearb_measurements_daily] runs the retry loop of
    [request_with_retries] in which an answer with status 204 yields no
    rows at once, and every other failure, a reply whose body cannot be
    turned into rows included, is retried after the same back-off. *)
Theorem metrics_request_retries_like_the_tracker_request (st : net)
    (slept : list Q) :
  linearb_measurements_daily post st slept
  = (let '(st', slept', out) :=
       request_with_retries (as_attempt post) st slept in
     (st', slept', value_of out)).
Proof.
  unfold linearb_measurements_daily, request_with_retries.
  apply measurements_loop_as_retry_loop.
Qed.

End MetricsRetries.

(** ** The further properties on the sample data *)

(** *** Retries *)

(** Two failures, then an answer: three requests, two sleeps. *)
Lemma retries_stop_at_first_decisive_attempt_witness :
  request_with_retries flaky 0%nat []
  = (net_after flaky 3 0%nat,
     [] ++ map backoff_delay (seqZ 1 (Z.of_nat 2)),
     outcome_of (Replied (JStr "ok"))).
Proof.
  apply (retries_stop_at_first_decisive_attempt flaky 0%nat [] 2
           (Replied (JStr "ok"))).
  - lia.
  - intros k Hk. destruct k as [|[|k]]; [reflexivity|reflexivity|lia].
  - reflexivity.
  - discriminate.
Defined.

Example retries_on_flaky_service :
  request_with_retries flaky 0%nat []
  = (3%nat, [backoff_delay 1; backoff_delay 2], Returned (JStr "ok")).
Proof. reflexivity. Qed.

Lemma retries_give_up_after_four_failures_witness :
  request_with_retries always_down 0%nat []
  = (net_after always_down 4 0%nat,
     [] ++ [backoff_delay 1; backoff_delay 2; backoff_delay 3],
     GaveUp).
Proof.
  apply (retries_give_up_after_four_failures always_down 0%nat []).
  intros k _. reflexivity.
Defined.

Example backoff_delays_of_a_call :
  (backoff_delay 1 == 8 # 10)%Q ∧ (backoff_delay 2 == 16 # 10)%Q
  ∧ (backoff_delay 3 == 32 # 10)%Q ∧ (backoff_delay 4 == 6)%Q.
Proof. repeat split; reflexivity. Qed.

(** *** Text helpers *)

Example escape_html_on_markup :
  escape_html (JStr "a<b & c>d") = Some "a&lt;b &amp; c&gt;d"
  ∧ escape_html JNull = Some ""
  ∧ escape_html (jnum 5) = None.
Proof. repeat split; reflexivity. Qed.

Lemma escape_html_output_has_no_markup_witness :
  (∀ c, In c (list_ascii_of_string "a&lt;b &amp; c&gt;d") →
        c ≠ "<"%char ∧ c ≠ ">"%char ∧ c ≠ DQUOTE)
  ∧ (truthy (JStr "a<b & c>d") = false → "a&lt;b &amp; c&gt;d" = "").
Proof.
  apply (escape_html_output_has_no_markup (JStr "a<b & c>d")
           "a&lt;b &amp; c&gt;d").
  reflexivity.
Defined.

Lemma escape_html_is_injective_witness :
  str_take 3 "a<b & c>d" = "a<b".
Proof.
  apply (escape_html_is_injective (str_take 3 "a<b & c>d") "a<b").
  reflexivity.
Defined.

Example truncate_text_on_a_summary :
  truncate_text (JStr "  Fix the login page crash on start  ") 12
  = Some ("Fix the" ++ ELLIPSIS)%string
  ∧ truncate_text (JStr "Supercalifragilistic") 5
    = Some ("Super" ++ ELLIPSIS)%string
  ∧ truncate_text (JStr " short ") 12 = Some "short".
Proof. repeat split; reflexivity. Qed.

Lemma truncate_text_keeps_a_prefix_witness :
  ∃ t0,
    str_of (por (JStr "  Fix the login page crash on start  ") (JStr ""))
      = Some t0
    ∧ ((String.length (strip t0) <= 12)%nat
       ∧ ("Fix the" ++ ELLIPSIS)%string = strip t0
       ∨ (12 < String.length (strip t0))%nat
         ∧ ∃ p w, ("Fix the" ++ ELLIPSIS)%string = (p ++ ELLIPSIS)%string
                  ∧ strip t0 = (p ++ w)%string
                  ∧ (String.length p <= 12)%nat
                  ∧ rstrip p = p).
Proof.
  apply (truncate_text_keeps_a_prefix
           (JStr "  Fix the login page crash on start  ") 12
           ("Fix the" ++ ELLIPSIS)%string).
  reflexivity.
Defined.

(** *** Working days *)

(** Monday 2025-01-06 to Friday 2025-01-17: ten working days, nine of them
    after the start day. *)
Lemma working_days_inclusive_adds_the_start_day_witness :
  ∃ n, working_days_since 0 (Some (ADate (ymd 2025 1 6))) (Some (ymd 2025 1 17))
       = Some n
       ∧ working_days_inclusive (Some (ADate (ymd 2025 1 6)))
                                (Some (ADate (ymd 2025 1 17)))
         = Some ((if weekday (to_date (ADate (ymd 2025 1 6))) <? 5
                  then 1 else 0) + n).
Proof.
  apply (working_days_inclusive_adds_the_start_day 0 (ADate (ymd 2025 1 6))
           (ymd 2025 1 17)).
  - vm_compute. discriminate.
  - vm_compute. discriminate.
  - vm_compute. reflexivity.
Defined.

Example working_days_of_a_two_week_sprint :
  working_days_inclusive (Some (ADate (ymd 2025 1 6)))
                         (Some (ADate (ymd 2025 1 17))) = Some 10
  ∧ working_days_inclusive (Some (ADate (ymd 2025 1 6))) None = Some 0
  ∧ working_days_inclusive (Some (ADate (ymd 2025 1 17)))
                           (Some (ADate (ymd 2025 1 6))) = Some 0.
Proof. vm_compute. repeat split; reflexivity. Qed.


Lemma working_days_inclusive_edges_witness :
  (ymd 2025 1 3 < to_date (ADate (ymd 2025 1 6)) →
   working_days_inclusive (Some (ADate (ymd 2025 1 6)))
                          (Some (ADate (ymd 2025 1 3))) = Some 0)
  ∧ working_days_inclusive (Some (ADate (ymd 2025 1 6)))
                           (Some (ADate DATE_MAX)) = None.
Proof.
  apply (working_days_inclusive_edges (ADate (ymd 2025 1 6)) (ymd 2025 1 3)).
  vm_compute. split; discriminate.
Defined.

(** *** Field discovery *)

Example discovery_on_sample_catalogue :
  discover_field_ids field_catalogue
  = Return (FieldIds (JStr "customfield_10001") (JStr "customfield_10002")
              [JStr "customfield_10002"; JStr "customfield_10004"]).
Proof. vm_compute. reflexivity. Qed.

Lemma discovered_effort_fields_witness :
  ∃ cfg,
    head (STORY_POINTS_FIELD_IDS cfg) = Some (STORY_POINTS_FIELD_ID cfg)
    ∧ NoDup (STORY_POINTS_FIELD_IDS cfg)
    ∧ (∀ x, x ∈ STORY_POINTS_FIELD_IDS cfg
            ↔ ∃ f, f ∈ field_catalogue ∧ is_cand f = true ∧ x = id_of f)
    ∧ (∀ x, x ∈ STORY_POINTS_FIELD_IDS cfg
            → ∃ s, x = JStr s ∧ startswith s "customfield_" = true).
Proof.
  eexists.
  eapply (discovered_effort_fields field_catalogue).
  vm_compute. reflexivity.
Defined.

Lemma discovered_primary_field_preference_witness :
  ∃ cfg c, preferred_candidate (candidates field_catalogue) = Some c
           ∧ STORY_POINTS_FIELD_ID cfg = id_of c.
Proof.
  eexists.
  eapply (discovered_primary_field_preference field_catalogue).
  vm_compute. reflexivity.
Defined.

Lemma discovery_needs_both_fields_witness :
  ∃ cfg,
    (∃ f, List.find (has_name "epic link") field_catalogue = Some f
          ∧ dindex f "id" = Some (EPIC_LINK_FIELD_ID cfg))
    ∧ truthy (EPIC_LINK_FIELD_ID cfg) = true
    ∧ candidates field_catalogue ≠ [].
Proof.
  eexists.
  eapply (discovery_needs_both_fields field_catalogue).
  vm_compute. reflexivity.
Defined.

Lemma discovery_raises_on_null_name_witness :
  discover_field_ids (field_catalogue ++ [JObj {["name" := JNull]}]) = Raises.
Proof.
  apply (discovery_raises_on_null_name _ {["name" := JNull]}).
  - apply elem_of_app. right. apply list_elem_of_here.
  - reflexivity.
Defined.

(** *** Boards and sprints *)

Example closed_sprints_on_sample_listing :
  list_all_closed_sprints (serve_values listed_sprints) 3 tt
  = (tt, Return [sprint_record 7; sprint_record 8]).
Proof. vm_compute. reflexivity. Qed.

Lemma closed_sprints_have_distinct_ids_witness :
  distinct_ids [sprint_record 7; sprint_record 8].
Proof.
  apply (closed_sprints_have_distinct_ids (serve_values listed_sprints) 3
           tt tt).
  vm_compute. reflexivity.
Defined.

Example boards_on_sample_listing :
  snd (find_board_by_name (serve_values listed_boards) 3 " Growth " tt)
  = Return (board_record 2 "Growth")
  ∧ snd (find_board_by_name (serve_values listed_boards) 3 "growth" tt)
    = Exits 2
  ∧ snd (find_board_by_name (serve_values listed_boards) 3 "ops" tt)
    = Return (board_record 3 "growth ops").
Proof. vm_compute. repeat split; reflexivity. Qed.

Lemma find_board_prefers_exact_name_witness :
  ∃ boards,
    list_scrum_boards (serve_values listed_boards) 3 tt = (tt, Return boards)
    ∧ (head (List.filter (λ x, default false (exact_name " Growth " x)) boards)
       = Some (board_record 2 "Growth")
       ∨ (List.filter (λ x, default false (exact_name " Growth " x)) boards = []
          ∧ List.filter (λ x, default false (loose_name " Growth " x)) boards
            = [board_record 2 "Growth"])).
Proof.
  apply (find_board_prefers_exact_name (serve_values listed_boards) 3
           " Growth " tt tt (board_record 2 "Growth")).
  vm_compute. reflexivity.
Defined.

(** *** Field cache *)

(** The second call for GV-1 names other fields and still gets the summary
    fetched by the first one; the tracker has served two requests, for GV-1
    and for GV-2. *)
Lemma issue_cache_answers_from_first_call_witness :
  ∃ c2 v,
    _get_issue_fields_multi issue_served "GV-1" ["status"] c2 2%nat
    = (c2, 2%nat, v).
Proof.
  eexists. eexists.
  eapply (issue_cache_answers_from_first_call issue_served "GV-1"
            ["summary"] ["status"] [("GV-2", ["status"])] ∅ _ _ 0%nat 1%nat
            2%nat).
  - vm_compute. reflexivity.
  - vm_compute. reflexivity.
Defined.

Lemma issue_cache_keeps_a_failure_witness :
  _get_issue_fields_multi issue_unreachable "GV-11" ["status"] ∅ tt
  = (<["GV-11" := empty_dict]> ∅, tt, empty_dict)
  ∧ _get_issue_fields_multi issue_unreachable "GV-11" ["summary"]
      (<["GV-11" := empty_dict]> ∅) tt
    = (<["GV-11" := empty_dict]> ∅, tt, empty_dict).
Proof.
  apply (issue_cache_keeps_a_failure issue_unreachable "GV-11" ["status"]
           ["summary"] [] ∅ (<["GV-11" := empty_dict]> ∅) tt tt tt);
    reflexivity.
Defined.

(** *** Tables *)

Lemma top5_rows_are_the_largest_witness :
  ∃ rows issues used sp_map all_rows rest,
    agile_sprint_issues_paginated (serve_all ten_day_issues) 7
      (Some "statusCategory = Done")
      ["summary"; "customfield_10002"; "issuetype"; "status"] 50 100 tt
      = (tt, Some (issues, used))
    ∧ build_sp_map_from_report float_of_digits ten_day_report = Some sp_map
    ∧ collect_rows (top5_row float_of_digits sp_fields sp_map used) issues
      = Some all_rows
    ∧ Permutation all_rows (rows ++ rest)
    ∧ length rows = Nat.min 5 (length all_rows)
    ∧ descending Qltb sp_of_row rows
    ∧ ∀ r r', In r rows → In r' rest → (sp_of_row r' <= sp_of_row r)%Q.
Proof.
  eexists.
  eapply (top5_rows_are_the_largest float_of_digits "customfield_10002"
            sp_fields (serve_all ten_day_issues) ten_day_report 7 tt tt).
  vm_compute. reflexivity.
Defined.

Example carry_over_on_ten_day_sprint :
  (λ rows, map (λ r, (key_of_row r, sp_of_row r, status_of_row r)) rows)
    <$> snd (carry_over_items_with_sp float_of_digits sp_fields
               (serve_all ten_day_issues) ten_day_report 7 tt)
  = Some [(JStr "GV-43", 15%Q, "In Progress")].
Proof. vm_compute. reflexivity. Qed.

Lemma carry_over_rows_are_listed_items_witness :
  ∃ rows,
    descending Qltb sp_of_row rows
    ∧ ∀ r, In r rows →
           ∃ it k, In it (not_completed_of ten_day_report)
                   ∧ dget it "key" = Some k
                   ∧ key_eqb (key_of_row r) k = true.
Proof.
  eexists.
  eapply (carry_over_rows_are_listed_items float_of_digits sp_fields
            (serve_all ten_day_issues) ten_day_report 7 tt tt).
  vm_compute. reflexivity.
Defined.

(** A report without contents: no request reaches the tracker, whose state
    counts the requests. *)
Lemma carry_over_without_items_asks_nothing_witness :
  0%nat = 0%nat ∧ @nil sp_row = [].
Proof.
  apply (carry_over_without_items_asks_nothing float_of_digits sp_fields
           serve_shifting (obj []) 7 0%nat 0%nat []).
  - vm_compute. reflexivity.
  - intros it Hin. vm_compute in Hin. destruct Hin.
Defined.

(** *** Action items *)

Lemma open_action_items_oldest_first_witness :
  ∃ open_rows (aged : list (Z * open_row)),
    open_rows = map snd aged
    ∧ Forall (λ p, snd (fst (snd p)) = ageing_str (fst p)) aged
    ∧ descending Z.ltb fst aged.
Proof.
  eexists.
  eapply (open_action_items_oldest_first datetime_of_iso 0 []
            issue_unreachable [parent_with_subtask] tt tt).
  vm_compute. reflexivity.
Defined.

(** *** Walker *)

Lemma walker_requests_are_bounded_witness :
  ∃ m1 m2 : nat,
    (m1 <= 50)%nat ∧ (m2 <= 50)%nat
    ∧ snd (fst (agile_sprint_issues_paginated
                  (logged (serve_unfiltered ten_day_issues)) 7
                  (Some "statusCategory = Done") [] 50 100 (tt, [])))
      = walk_requests 7 [] 100 (jql_param (Some "statusCategory = Done")) m1
        ++ walk_requests 7 [] 100 None m2
    ∧ (∀ issues,
         snd (agile_sprint_issues_paginated
                (logged (serve_unfiltered ten_day_issues)) 7
                (Some "statusCategory = Done") [] 50 100 (tt, []))
         = Some (issues, true) → m2 = 0%nat).
Proof.
  exact (walker_requests_are_bounded (serve_unfiltered ten_day_issues) 7 []
           100 (Some "statusCategory = Done") 50 tt).
Defined.

Example walker_requests_on_rejected_filter :
  snd (fst (agile_sprint_issues_paginated
              (logged (serve_unfiltered ten_day_issues)) 7
              (Some "statusCategory = Done") [] 50 100 (tt, [])))
  = [PageRequest 7 0 100 [] (Some "statusCategory = Done");
     PageRequest 7 0 100 [] None].
Proof. reflexivity. Qed.

(** *** Estimates *)

Lemma sp_map_keeps_the_last_estimate_witness :
  ∃ mp,
    pydict_get mp (JStr "GV-2") 0%Q
    = Some (match last_item_with_key (JStr "GV-2") (report_items sample_report)
            with
            | Some it => item_effort float_of_digits it
            | None => 0%Q
            end).
Proof.
  eexists.
  eapply (sp_map_keeps_the_last_estimate float_of_digits sample_report).
  - vm_compute. reflexivity.
  - reflexivity.
Defined.

Lemma velocity_entry_without_values_reads_as_zero_witness :
  get_committed_completed_from_velocity float_of_digits
    (Some velocity_reply_blank) 42 = (Some 0%Q, Some 0%Q)
  ∧ main_reconcile float_of_digits (Some velocity_reply_blank) 42 sample_report
    = Some (0%Q, 0%Q, 1%nat, 1%nat).
Proof.
  apply (velocity_entry_without_values_reads_as_zero float_of_digits
           velocity_reply_blank velocity_entries_blank velocity_entry_blank
           42 sample_report 35%Q 35%Q 1%nat 1%nat);
    vm_compute; reflexivity.
Defined.

Lemma resolved_effort_is_first_audited_value_witness :
  _field_sp_from_fields float_of_digits sp_fields story_second_field_fields
  = head (sp_vals_scan float_of_digits sp_fields story_second_field_fields)
  ∧ (missing_or_zero_sp float_of_digits sp_fields story_second_field_fields
     = false →
     is_Some (_field_sp_from_fields float_of_digits sp_fields
                                    story_second_field_fields)).
Proof.
  exact (resolved_effort_is_first_audited_value float_of_digits sp_fields
           story_second_field_fields).
Defined.

(** *** Delivery metrics *)

Example cycle_series_on_sample_rows :
  cycle_proxy float_of_digits date_of_iso metric_rows "2025-01-06" "2025-01-08"
  = Some ([ymd 2025 1 6; ymd 2025 1 7; ymd 2025 1 8],
          [0%Q; (120 # 60)%Q; 0%Q]).
Proof. vm_compute. reflexivity. Qed.

Lemma cycle_series_is_the_daily_sum_witness :
  ∃ (xs : list Z) (ys coding pickup review : list Q),
    _lb_timeseries_complete float_of_digits date_of_iso metric_rows
      "2025-01-06" "2025-01-08" "coding_min" = Some (xs, coding)
    ∧ _lb_timeseries_complete float_of_digits date_of_iso metric_rows
        "2025-01-06" "2025-01-08" "pickup_min" = Some (xs, pickup)
    ∧ _lb_timeseries_complete float_of_digits date_of_iso metric_rows
        "2025-01-06" "2025-01-08" "review_min" = Some (xs, review)
    ∧ length ys = length xs
    ∧ ∀ (i : nat) (a b c : Q),
        coding !! i = Some a → pickup !! i = Some b → review !! i = Some c →
        ys !! i = Some (a + b + c)%Q.
Proof.
  eexists. eexists.
  eapply (cycle_series_is_the_daily_sum float_of_digits date_of_iso
            metric_rows "2025-01-06" "2025-01-08").
  vm_compute. reflexivity.
Defined.

Example measurement_rows_on_sample_reply :
  measurement_rows metrics_reply
  = Some [obj [("date", JStr "2025-01-07"); ("coding_min", jnum 120);
               ("pickup_min", JNull); ("review_min", JNull);
               ("cycle_min", JNull)]].
Proof. vm_compute. reflexivity. Qed.

Lemma measurement_rows_are_well_formed_witness :
  ∃ rows,
    Forall (λ row, ∃ (m : gmap string json) (d : string),
                     row = JObj m ∧ dom m = row_keys
                     ∧ m !! "date" = Some (JStr d)
                     ∧ ¬ In "T"%char (list_ascii_of_string d)) rows.
Proof.
  eexists.
  eapply (measurement_rows_are_well_formed metrics_reply).
  vm_compute. reflexivity.
Defined.

(** The service is down once and sends a body without slices once: the
    rows come with the third request, after two sleeps. *)
Example metrics_request_on_flaky_service :
  linearb_measurements_daily metrics_service 0%nat []
  = (3%nat, [backoff_delay 1; backoff_delay 2],
     measurement_rows metrics_reply).
Proof. vm_compute. reflexivity. Qed.
